(** * SIMS evaluation API: a shallow embedding of [netlify/functions/api.js]

    The development follows the layout of the source file: the date utility
    [getWeekStartDate], the value and store layer the handlers talk to
    (JSON values, the three tables of the hosted store, its [single] and
    [insert] calls), the middleware chain [auth], [hydrateUser],
    [requireRole], the relationship gate [assertCanEvaluate] and the route
    handlers. A request is run against a world made of the store, the log
    of the store calls made so far and the hit counter of the login rate
    limiter; the store can fail any call ([Faults]).

    Left out: the path rewriting for the function mount point, [helmet],
    [cors] and the body parser (a request arrives with its parsed JSON
    body), and the reset of the rate limiter's window. [bcryptjs], the
    wire format of [jsonwebtoken] and the string built-ins applied to the
    login fields are parameters ([Runtime]).

    Definitions come first, the theorems after them. *)

From Stdlib Require Import ZArith QArith List String Ascii Bool Lia.
From Stdlib Require Import Sorting.Permutation Sorting.Sorted.
Import ListNotations.

Local Open Scope Z_scope.

(* ================================================================== *)
(** ** The [Date] built-ins used by [getWeekStartDate]

    A [Date] is its time value: milliseconds since 1970-01-01T00:00Z.
    The functions below are the abstract operations of ECMA-262
    (section "Date Objects") that the methods called by the source are
    defined with. An invalid date (time value NaN) is [None]. *)

Module JsDate.

Definition msPerDay : Z := 86400000.

Definition Day (t : Z) : Z := t / msPerDay.
Definition TimeWithinDay (t : Z) : Z := t mod msPerDay.

(** 0 is Sunday, ..., 6 is Saturday; day 0 was a Thursday. *)
Definition WeekDay (t : Z) : Z := (Day t + 4) mod 7.

Definition DaysInYear (y : Z) : Z :=
  if negb (y mod 4 =? 0) then 365
  else if negb (y mod 100 =? 0) then 366
  else if negb (y mod 400 =? 0) then 365
  else 366.

Definition DayFromYear (y : Z) : Z :=
  365 * (y - 1970) + (y - 1969) / 4 - (y - 1901) / 100 + (y - 1601) / 400.

(** The largest year whose first day is not after [t]: an estimate from
    the mean year length of 146097/400 days, moved by one where needed. *)
Definition YearFromDay (d : Z) : Z :=
  let y := 1970 + (d * 400) / 146097 in
  if d <? DayFromYear y then y - 1
  else if DayFromYear (y + 1) <=? d then y + 1
  else y.

Definition YearFromTime (t : Z) : Z := YearFromDay (Day t).

Definition InLeapYear (t : Z) : Z :=
  if DaysInYear (YearFromTime t) =? 366 then 1 else 0.

Definition DayWithinYear (t : Z) : Z := Day t - DayFromYear (YearFromTime t).

(** Month numbers run from 0 (January) to 11 (December). *)
Definition MonthFromTime (t : Z) : Z :=
  let d := DayWithinYear t in
  let l := InLeapYear t in
  if d <? 31 then 0
  else if d <? 59 + l then 1
  else if d <? 90 + l then 2
  else if d <? 120 + l then 3
  else if d <? 151 + l then 4
  else if d <? 181 + l then 5
  else if d <? 212 + l then 6
  else if d <? 243 + l then 7
  else if d <? 273 + l then 8
  else if d <? 304 + l then 9
  else if d <? 334 + l then 10
  else 11.

(** Number of days of the year before month [m] starts. *)
Definition MonthStart (l m : Z) : Z :=
  match m with
  | 0 => 0
  | 1 => 31
  | 2 => 59 + l
  | 3 => 90 + l
  | 4 => 120 + l
  | 5 => 151 + l
  | 6 => 181 + l
  | 7 => 212 + l
  | 8 => 243 + l
  | 9 => 273 + l
  | 10 => 304 + l
  | _ => 334 + l
  end.

Definition DateFromTime (t : Z) : Z :=
  DayWithinYear t - MonthStart (InLeapYear t) (MonthFromTime t) + 1.

Definition HourFromTime (t : Z) : Z := (TimeWithinDay t / 3600000) mod 24.
Definition MinFromTime (t : Z) : Z := (TimeWithinDay t / 60000) mod 60.
Definition SecFromTime (t : Z) : Z := (TimeWithinDay t / 1000) mod 60.
Definition msFromTime (t : Z) : Z := TimeWithinDay t mod 1000.

(** [MakeDay]: the day number of the first of the month, plus [date - 1]. *)
Definition MakeDay (year month date : Z) : Z :=
  let ym := year + month / 12 in
  let mn := month mod 12 in
  let l := if DaysInYear ym =? 366 then 1 else 0 in
  DayFromYear ym + MonthStart l mn + date - 1.

Definition MakeDate (day time : Z) : Z := day * msPerDay + time.

Definition maxTime : Z := 8640000000000000.

Definition TimeClip (t : Z) : option Z :=
  if Z.abs t <=? maxTime then Some t else None.

(** [Date.UTC(year, month, date)] with the remaining fields 0; a year from
    0 to 99 stands for 1900 + year. *)
Definition Date_UTC (year month date : Z) : option Z :=
  let yr := if (0 <=? year) && (year <=? 99) then 1900 + year else year in
  TimeClip (MakeDate (MakeDay yr month date) 0).

(** [date.setUTCDate(dt)]: the new time value of the date. *)
Definition setUTCDate (t dt : Z) : option Z :=
  TimeClip (MakeDate (MakeDay (YearFromTime t) (MonthFromTime t) dt)
                     (TimeWithinDay t)).

Definition digit (n : Z) : ascii :=
  ascii_of_nat (48 + Z.to_nat (n mod 10)).

(** [n] written with exactly [w] decimal digits, zero padded. *)
Fixpoint pad (w : nat) (n : Z) : string :=
  match w with
  | O => EmptyString
  | S w' => (pad w' (n / 10) ++ String (digit n) EmptyString)%string
  end.

Definition isoYear (y : Z) : string :=
  if (0 <=? y) && (y <=? 9999) then pad 4 y
  else if y <? 0 then ("-" ++ pad 6 (Z.abs y))%string
  else ("+" ++ pad 6 (Z.abs y))%string.

(** [toISOString] of a valid date: YYYY-MM-DDTHH:mm:ss.sssZ. *)
Definition toISOString (t : Z) : string :=
  (isoYear (YearFromTime t) ++ "-" ++ pad 2 (MonthFromTime t + 1) ++ "-"
   ++ pad 2 (DateFromTime t) ++ "T" ++ pad 2 (HourFromTime t) ++ ":"
   ++ pad 2 (MinFromTime t) ++ ":" ++ pad 2 (SecFromTime t) ++ "."
   ++ pad 3 (msFromTime t) ++ "Z")%string.

(** The calendar date of day number [d], as YYYY-MM-DD. *)
Definition isoDate (d : Z) : string :=
  let t := d * msPerDay in
  (pad 4 (YearFromTime t) ++ "-" ++ pad 2 (MonthFromTime t + 1) ++ "-"
   ++ pad 2 (DateFromTime t))%string.

End JsDate.

(* ================================================================== *)
(** ** UTILS *)

Import JsDate.

(** [getWeekStartDate(d)]; [None] when [toISOString] throws a RangeError
    because the date became invalid.

    function getWeekStartDate(d = new Date()) {
      const date = new Date(Date.UTC(d.getUTCFullYear(), d.getUTCMonth(), d.getUTCDate()));
      const day = date.getUTCDay();
      const diffToMonday = (day + 6) % 7;
      date.setUTCDate(date.getUTCDate() - diffToMonday);
      return date.toISOString().slice(0, 10);
    } *)
Definition getWeekStartDate (d : Z) : option string :=
  match Date_UTC (YearFromTime d) (MonthFromTime d) (DateFromTime d) with
  | None => None
  | Some date =>
      let day := WeekDay date in
      let diffToMonday := (day + 6) mod 7 in
      match setUTCDate date (DateFromTime date - diffToMonday) with
      | None => None
      | Some date' => Some (substring 0 10 (toISOString date'))
      end
  end.

(* ================================================================== *)
(** ** JSON values as the handlers see them *)

Local Open Scope string_scope.

(** A value of a parsed JSON body, of a row returned by the store or of a
    decoded token. [JObject] stands for any array or object: the handlers
    never look inside one. [JNum] holds the finite doubles, read as the
    rationals they denote; [JInfinity] is [Infinity] and [-Infinity],
    which is what [JSON.parse] makes of a number too large for a double
    ([1e400], [-1e400]). [NaN] is the value of no JSON text. *)
Inductive JsVal : Type :=
| JUndefined
| JNull
| JBool (b : bool)
| JNum (q : Q)
| JInfinity (negative : bool)
| JStr (s : string)
| JObject.

(** [!!v] *)
Definition truthy (v : JsVal) : bool :=
  match v with
  | JUndefined | JNull => false
  | JBool b => b
  | JNum q => negb (Qeq_bool q 0)
  | JInfinity _ => true
  | JStr s => negb (s =? "")
  | JObject => true
  end.

Definition typeof (v : JsVal) : string :=
  match v with
  | JUndefined => "undefined"
  | JNull => "object"
  | JBool _ => "boolean"
  | JNum _ => "number"
  | JInfinity _ => "number"
  | JStr _ => "string"
  | JObject => "object"
  end.

(** [a === b]. Two objects are equal only when they are the same object,
    which never holds between a value read from the store and one read
    from a token. *)
Definition strict_eq (a b : JsVal) : bool :=
  match a, b with
  | JUndefined, JUndefined => true
  | JNull, JNull => true
  | JBool x, JBool y => Bool.eqb x y
  | JNum x, JNum y => Qeq_bool x y
  | JInfinity x, JInfinity y => Bool.eqb x y
  | JStr x, JStr y => x =? y
  | _, _ => false
  end.

(** [a || b] *)
Definition js_or (a b : JsVal) : JsVal := if truthy a then a else b.

(** A plain object: its own properties in insertion order. *)
Definition JsObject : Type := list (string * JsVal).

Fixpoint obj_get (o : JsObject) (k : string) : JsVal :=
  match o with
  | [] => JUndefined
  | (k', v) :: o' => if k' =? k then v else obj_get o' k
  end.

(** [o.k = v] *)
Fixpoint obj_set (o : JsObject) (k : string) (v : JsVal) : JsObject :=
  match o with
  | [] => [(k, v)]
  | (k', v') :: o' => if k' =? k then (k, v) :: o' else (k', v') :: obj_set o' k v
  end.

(** [s.split(" ")] *)
Fixpoint split_space (s : string) : list string :=
  match s with
  | EmptyString => [EmptyString]
  | String c rest =>
      let parts := split_space rest in
      if Ascii.eqb c " "%char then EmptyString :: parts
      else match parts with
           | p :: ps => String c p :: ps
           | [] => [String c EmptyString]
           end
  end.

(* ================================================================== *)
(** ** The hosted store

    Three tables, as [schema.sql] and the queries of the handlers name
    them. The handlers reach the store through the service-role client,
    which row level security does not restrict. *)

Record Employee : Type := {
  emp_id : string;
  emp_email : string;
  emp_role : string;
  emp_manager_id : option string;
  emp_password_hash : string
}.

(** [ev_overall_score] is the numeric column [overall_score]: a number,
    or [None] for SQL [NULL]. *)
Record Evaluation : Type := {
  ev_employee_id : string;
  ev_week_start : string;
  ev_overall_score : option Q;
  ev_created_at : Z
}.

Record WarningLetter : Type := {
  wl_employee_id : string;
  wl_severity : string;
  wl_status : string
}.

(** Modelled from the spec: the table definitions are not part of the
    sources. Identifier columns hold strings (the policies of [schema.sql]
    compare [employee_id] with [auth.uid()]); [created_at] is the
    "creation timestamp" of the data model, stamped by the store, whose
    clock [db_clock] moves on with every insert; [overall_score] accepts
    [NULL], no constraint of [schema.sql] saying otherwise. *)
Record Store : Type := {
  employees : list Employee;
  employee_weekly_evaluations : list Evaluation;
  warning_letters : list WarningLetter;
  db_clock : Z
}.

(** The places where a handler calls the store. *)
Inductive Site : Type :=
| AtHydrate
| AtTarget
| AtLogin
| AtInsertEvaluation
| AtLast3
| AtInsertWarning
| AtRisk.

(** What the service answers at a call site when it fails for a reason of
    its own (outage, timeout, revoked key): the error message, or [None]
    when the call goes through to the tables. *)
Definition Faults : Type := Site -> option string.

Definition no_faults : Faults := fun _ => None.

(** The [{ data, error }] pair of a store call: [data] is null whenever
    [error] is set. *)
Inductive Reply (A : Type) : Type :=
| Data (data : A)
| Error (message : string).
Arguments Data {A} data.
Arguments Error {A} message.

(** Store calls as they go out, oldest first, with the arguments the
    handler passes to the client. *)
Inductive Event : Type :=
| SelectEmployeeById (site : Site) (id : JsVal)
| SelectEmployeeByEmail (email : string)
| InsertEvaluation (employee_id : JsVal) (week_start : string) (overall_score : JsVal)
| SelectLast3 (employee_id : JsVal)
| InsertWarning (employee_id : JsVal) (severity status : string)
| SelectActiveWarnings.

Record World : Type := {
  store : Store;
  log : list Event;
  login_hits : nat
}.

Definition record (e : Event) (w : World) : World :=
  {| store := store w; log := log w ++ [e]; login_hits := login_hits w |}.

Definition with_store (s : Store) (w : World) : World :=
  {| store := s; log := log w; login_hits := login_hits w |}.

(** An identifier filter or column value must be a string. *)
Definition as_id (v : JsVal) : option string :=
  match v with
  | JStr s => Some s
  | _ => None
  end.

(** [.single()]: exactly one row, otherwise an error. *)
Definition single {A : Type} (rows : list A) : Reply A :=
  match rows with
  | [r] => Data r
  | _ => Error "JSON object requested, multiple (or no) rows returned"
  end.

Definition employee_by_id (s : Store) (id : JsVal) : Reply Employee :=
  match as_id id with
  | None => Error "invalid input syntax for type uuid"
  | Some i => single (filter (fun e => emp_id e =? i) (employees s))
  end.

Definition employee_by_email (s : Store) (email : string) : Reply Employee :=
  single (filter (fun e => emp_email e =? email) (employees s)).

(** [unique index uniq_eval_employee_week on
    employee_weekly_evaluations(employee_id, week_start)] *)
Definition same_week_slot (i w : string) (e : Evaluation) : bool :=
  (ev_employee_id e =? i) && (ev_week_start e =? w).

Definition uniq_eval_employee_week (rows : list Evaluation) (i w : string) : bool :=
  negb (existsb (same_week_slot i w) rows).

(** The value of a numeric column as it reaches the store. The client
    sends the row as JSON text, and [JSON.stringify] writes a number that
    is not finite as [null]: [Some None] is that [null], [None] a value
    the column does not take. *)
Definition json_number (v : JsVal) : option (option Q) :=
  match v with
  | JNum q => Some (Some q)
  | JInfinity _ => Some None
  | _ => None
  end.

Definition add_evaluation (s : Store) (id score : JsVal) (week_start : string)
  : Reply Store :=
  match as_id id, json_number score with
  | Some i, Some column =>
      if uniq_eval_employee_week (employee_weekly_evaluations s) i week_start
      then Data {| employees := employees s;
                   employee_weekly_evaluations :=
                     employee_weekly_evaluations s ++
                     [{| ev_employee_id := i; ev_week_start := week_start;
                         ev_overall_score := column; ev_created_at := db_clock s |}];
                   warning_letters := warning_letters s;
                   db_clock := (db_clock s + 1)%Z |}
      else Error "duplicate key value violates unique constraint uniq_eval_employee_week"
  | None, _ => Error "invalid input syntax for type uuid"
  | _, _ => Error "invalid input syntax for type numeric"
  end.

(** [.order("created_at", { ascending: false })] *)
Fixpoint insert_desc (e : Evaluation) (l : list Evaluation) : list Evaluation :=
  match l with
  | [] => [e]
  | x :: xs =>
      if (ev_created_at x <? ev_created_at e)%Z then e :: l
      else x :: insert_desc e xs
  end.

Fixpoint order_desc (l : list Evaluation) : list Evaluation :=
  match l with
  | [] => []
  | x :: xs => insert_desc x (order_desc xs)
  end.

Definition last_three (s : Store) (id : JsVal) : Reply (list Evaluation) :=
  match as_id id with
  | None => Error "invalid input syntax for type uuid"
  | Some i =>
      Data (firstn 3 (order_desc
              (filter (fun e => ev_employee_id e =? i)
                      (employee_weekly_evaluations s))))
  end.

(** [warning_letters_severity_check], [warning_letters_status_check] *)
Definition warning_letters_severity_check (severity : string) : bool :=
  existsb (String.eqb severity) ["low"; "medium"; "high"; "critical"].

Definition warning_letters_status_check (status : string) : bool :=
  existsb (String.eqb status) ["active"; "resolved"; "revoked"].

Definition add_warning (s : Store) (id : JsVal) (severity status : string)
  : Reply Store :=
  match as_id id with
  | None => Error "invalid input syntax for type uuid"
  | Some i =>
      if warning_letters_severity_check severity
         && warning_letters_status_check status
      then Data {| employees := employees s;
                   employee_weekly_evaluations := employee_weekly_evaluations s;
                   warning_letters :=
                     warning_letters s ++
                     [{| wl_employee_id := i; wl_severity := severity;
                         wl_status := status |}];
                   db_clock := (db_clock s + 1)%Z |}
      else Error "new row violates check constraint"
  end.

Definition active_warnings (s : Store) : list WarningLetter :=
  filter (fun l => wl_status l =? "active") (warning_letters s).

(* ================================================================== *)
(** ** Responses and the middleware chain *)

(** The JSON bodies the handlers send. *)
Inductive Body : Type :=
| Message (message : string)
| MessageDetail (message detail : string)
| MissingEnv (missing : list string)
| TokenBody (token : string)
| Success
| Ok
| Rows (rows : list (string * string))
| Text (text : string).

Record Response : Type := {
  status : nat;
  body : Body
}.

(** How a request ends: a response was sent, or the handler threw and
    nothing was sent by it. *)
Inductive Outcome : Type :=
| Sent (r : Response)
| Thrown (err : string).

(** A middleware either hands over to the next one ([next()]) or ends the
    request. *)
Inductive Step (A : Type) : Type :=
| Next (a : A)
| Stop (o : Outcome).
Arguments Next {A} a.
Arguments Stop {A} o.

Definition M (A : Type) : Type := World -> Step A * World.

Definition ret {A : Type} (a : A) : M A := fun w => (Next a, w).

Definition bind {A B : Type} (c : M A) (k : A -> M B) : M B :=
  fun w =>
    match c w with
    | (Next a, w') => k a w'
    | (Stop o, w') => (Stop o, w')
    end.

Notation "x <- c ;; k" := (bind c (fun x => k))
  (at level 61, c at next level, right associativity).
Notation "c ;;; k" := (bind c (fun _ => k))
  (at level 61, right associativity).

(** [return res.status(s).json(b)] *)
Definition respond {A : Type} (s : nat) (b : Body) : M A :=
  fun w => (Stop (Sent {| status := s; body := b |}), w).

Definition throw {A : Type} (err : string) : M A :=
  fun w => (Stop (Thrown err), w).

(** A route: a chain whose last handler never calls [next]. *)
Definition run (c : M Empty_set) (w : World) : Outcome * World :=
  match c w with
  | (Stop o, w') => (o, w')
  | (Next e, _) => match e with end
  end.

(** *** Store calls of the handlers *)

Section StoreCalls.

Variable F : Faults.

(** The answer to [from("employees").select(...).eq("id", id).single()]
    sent from call site [site] while the tables are [s]. *)
Definition lookup (site : Site) (s : Store) (id : JsVal) : Reply Employee :=
  match F site with
  | Some msg => Error msg
  | None => employee_by_id s id
  end.

Definition select_employee_by_id (site : Site) (id : JsVal) : M (Reply Employee) :=
  fun w => (Next (lookup site (store w) id), record (SelectEmployeeById site id) w).

Definition select_employee_by_email (email : string) : M (Reply Employee) :=
  fun w =>
    let w' := record (SelectEmployeeByEmail email) w in
    match F AtLogin with
    | Some msg => (Next (Error msg), w')
    | None => (Next (employee_by_email (store w) email), w')
    end.

Definition insert_evaluation (id : JsVal) (week_start : string) (score : JsVal)
  : M (Reply unit) :=
  fun w =>
    let w' := record (InsertEvaluation id week_start score) w in
    match F AtInsertEvaluation with
    | Some msg => (Next (Error msg), w')
    | None =>
        match add_evaluation (store w) id score week_start with
        | Data s' => (Next (Data tt), with_store s' w')
        | Error msg => (Next (Error msg), w')
        end
    end.

Definition select_last3 (id : JsVal) : M (Reply (list Evaluation)) :=
  fun w =>
    let w' := record (SelectLast3 id) w in
    match F AtLast3 with
    | Some msg => (Next (Error msg), w')
    | None => (Next (last_three (store w) id), w')
    end.

Definition insert_warning (id : JsVal) (severity status : string) : M (Reply unit) :=
  fun w =>
    let w' := record (InsertWarning id severity status) w in
    match F AtInsertWarning with
    | Some msg => (Next (Error msg), w')
    | None =>
        match add_warning (store w) id severity status with
        | Data s' => (Next (Data tt), with_store s' w')
        | Error msg => (Next (Error msg), w')
        end
    end.

Definition select_active_warnings : M (Reply (list WarningLetter)) :=
  fun w =>
    let w' := record SelectActiveWarnings w in
    match F AtRisk with
    | Some msg => (Next (Error msg), w')
    | None => (Next (Data (active_warnings (store w))), w')
    end.

End StoreCalls.

(** *** Library primitives

    [bcryptjs], the wire format of [jsonwebtoken] and the string built-ins
    are used through their contracts only. *)

(** A signed token: the claims and the key the signature was made with. *)
Record Token : Type := {
  tok_payload : JsObject;
  tok_key : string
}.

Class Runtime : Type := {
  bcrypt_compare : string -> string -> bool;
  jwt_encode : Token -> string;
  jwt_decode : string -> option Token;
  js_String : JsVal -> string;
  js_trim : string -> string;
  js_toLowerCase : string -> string
}.

Record Env : Type := {
  SUPABASE_URL : option string;
  SUPABASE_SERVICE_ROLE_KEY : option string;
  JWT_SECRET : option string
}.

Record Request : Type := {
  authorization : option string;
  req_body : JsObject
}.

(** [!process.env.X] *)
Definition unset (v : option string) : bool :=
  match v with
  | None => true
  | Some s => s =? ""
  end.

Definition secret_of (env : Env) : string :=
  match JWT_SECRET env with
  | Some s => s
  | None => ""
  end.

(** [expiresIn: "1h"], in seconds. *)
Definition expiresIn_1h : Z := 3600.

Section Handlers.

Context {RT : Runtime}.
Variable F : Faults.
Variable env : Env.
(** The wall clock read while the request is handled, in milliseconds. *)
Variable now : Z.

(** [jwt.sign(payload, secret, { expiresIn })]: the claims plus [iat] and
    [exp], both in seconds. *)
Definition jwt_sign (payload : JsObject) (secret : string) (expiresIn : Z) : string :=
  let iat := (now / 1000)%Z in
  jwt_encode
    {| tok_payload :=
         (payload ++ [("iat", JNum (inject_Z iat));
                      ("exp", JNum (inject_Z (iat + expiresIn)))])%list;
       tok_key := secret |}.

(** [jwt.verify(token, secret)]: the claims, or [None] where it throws
    (malformed, wrong signature, expired). *)
Definition jwt_verify (token secret : string) : option JsObject :=
  match jwt_decode token with
  | None => None
  | Some tok =>
      if tok_key tok =? secret then
        match obj_get (tok_payload tok) "exp" with
        | JUndefined => Some (tok_payload tok)
        | JNum e =>
            if Qle_bool e (inject_Z (now / 1000)) then None
            else Some (tok_payload tok)
        | JInfinity negative =>
            if negative then None else Some (tok_payload tok)
        | _ => None
        end
      else None
  end.

Definition normalizeEmail (email : JsVal) : string :=
  js_toLowerCase (js_trim (js_String (js_or email (JStr "")))).

(** The names of the missing variables; the empty list when all are set. *)
Definition missing_env : list string :=
  (if unset (SUPABASE_URL env) then ["SUPABASE_URL"] else []) ++
  (if unset (SUPABASE_SERVICE_ROLE_KEY env) then ["SUPABASE_SERVICE_ROLE_KEY"] else []) ++
  (if unset (JWT_SECRET env) then ["JWT_SECRET"] else []).

Definition assertEnv : M unit :=
  match missing_env with
  | [] => ret tt
  | missing => respond 500 (MissingEnv missing)
  end.

(** [auth]: on success [req.user] is the decoded token. *)
Definition auth (req : Request) : M JsObject :=
  assertEnv ;;;
  match authorization req with
  | None => respond 401 (Message "Unauthorized")
  | Some h =>
      match nth_error (split_space h) 1 with
      | None => respond 401 (Message "Unauthorized")
      | Some token =>
          if token =? "" then respond 401 (Message "Unauthorized")
          else match jwt_verify token (secret_of env) with
               | Some decoded => ret decoded
               | None => respond 401 (Message "Invalid token")
               end
      end
  end.

Definition manager_value (e : Employee) : JsVal :=
  match emp_manager_id e with
  | Some m => JStr m
  | None => JNull
  end.

(** [hydrateUser]: [req.user.role] and [req.user.manager_id] are
    overwritten with the row just read. *)
Definition hydrateUser (user : JsObject) : M JsObject :=
  r <- select_employee_by_id F AtHydrate (obj_get user "id") ;;
  match r with
  | Error _ => respond 401 (Message "Unauthorized")
  | Data fresh =>
      ret (obj_set (obj_set user "role" (JStr (emp_role fresh)))
                   "manager_id" (manager_value fresh))
  end.

(** [roles.includes(req.user.role)] *)
Definition includes (roles : list string) (v : JsVal) : bool :=
  existsb (fun r => strict_eq (JStr r) v) roles.

Definition requireRole (roles : list string) (user : JsObject) : M unit :=
  if negb (includes roles (obj_get user "role"))
  then respond 403 (Message "Forbidden")
  else ret tt.

(** [assertCanEvaluate(req, employeeId)] *)
Definition assertCanEvaluate (user : JsObject) (employeeId : JsVal) : M bool :=
  if strict_eq (obj_get user "role") (JStr "admin")
     || strict_eq (obj_get user "role") (JStr "hr")
  then ret true
  else if strict_eq (obj_get user "role") (JStr "supervisor") then
    r <- select_employee_by_id F AtTarget employeeId ;;
    match r with
    | Data emp => ret (strict_eq (manager_value emp) (obj_get user "id"))
    | Error _ => ret false
    end
  else ret false.

(** *** HEALTH *)

Definition get_health : World -> Outcome * World :=
  run (respond 200 Ok).

(** *** LOGIN *)

(** [rateLimit({ windowMs: 15 * 60 * 1000, max: 10 })]: the hits of the
    caller in the running window; the window's expiry is not modelled. *)
Definition loginLimiter : M unit :=
  fun w =>
    let hits := S (login_hits w) in
    let w' := {| store := store w; log := log w; login_hits := hits |} in
    if (10 <? hits)%nat
    then (Stop (Sent {| status := 429;
                        body := Text "Too many requests, please try again later." |}), w')
    else (Next tt, w').

Definition login_handler (req : Request) : M Empty_set :=
  assertEnv ;;;
  let email := normalizeEmail (obj_get (req_body req) "email") in
  let password := js_String (js_or (obj_get (req_body req) "password") (JStr "")) in
  r <- select_employee_by_email F email ;;
  match r with
  | Error _ => respond 400 (Message "Invalid credentials")
  | Data user =>
      if negb (bcrypt_compare password (emp_password_hash user))
      then respond 400 (Message "Invalid credentials")
      else
        let token := jwt_sign [("id", JStr (emp_id user))] (secret_of env) expiresIn_1h in
        respond 200 (TokenBody token)
  end.

Definition post_login (req : Request) : World -> Outcome * World :=
  run (loginLimiter ;;; login_handler req).

(** *** EVALUATIONS *)

(** [Number(v)] of a column value: [Number(null)] is [0]. *)
Definition js_Number (v : option Q) : Q :=
  match v with
  | Some q => q
  | None => 0
  end.

(** [Number(e.overall_score) <= 2.5] *)
Definition low_score (e : Evaluation) : bool :=
  Qle_bool (js_Number (ev_overall_score e)) (5 # 2).

Definition evaluations_handler (user : JsObject) (body : JsObject) : M Empty_set :=
  let employee_id := obj_get body "employee_id" in
  let overall_score := obj_get body "overall_score" in
  if negb (truthy employee_id) || negb (typeof overall_score =? "number")
  then respond 400 (Message "Invalid payload")
  else
    allowed <- assertCanEvaluate user employee_id ;;
    if negb allowed then respond 403 (Message "Forbidden")
    else
      match getWeekStartDate now with
      | None => throw "RangeError: Invalid time value"
      | Some week_start =>
          ins <- insert_evaluation F employee_id week_start overall_score ;;
          match ins with
          | Error detail => respond 500 (MessageDetail "Insert failed" detail)
          | Data _ =>
              sel <- select_last3 F employee_id ;;
              match sel with
              | Error _ =>
                  throw "TypeError: Cannot read properties of null (reading 'filter')"
              | Data last3 =>
                  let lowCount := List.length (filter low_score last3) in
                  (if (2 <=? lowCount)%nat then
                     let severity :=
                       if (3 <=? lowCount)%nat then "critical" else "high" in
                     insert_warning F employee_id severity "active" ;;; ret tt
                   else ret tt) ;;;
                  respond 200 Success
              end
          end
      end.

Definition post_evaluations (req : Request) : World -> Outcome * World :=
  run (user <- auth req ;;
       user <- hydrateUser user ;;
       requireRole ["supervisor"; "hr"; "admin"] user ;;;
       evaluations_handler user (req_body req)).

(** *** ANALYTICS *)

Definition risk_handler : M Empty_set :=
  r <- select_active_warnings F ;;
  match r with
  | Error detail => respond 500 (MessageDetail "Query failed" detail)
  | Data data =>
      respond 200 (Rows (map (fun l => (wl_employee_id l, wl_severity l)) data))
  end.

Definition get_department_risk (req : Request) : World -> Outcome * World :=
  run (user <- auth req ;;
       user <- hydrateUser user ;;
       requireRole ["hr"; "admin"] user ;;;
       risk_handler).

End Handlers.

(* ================================================================== *)
(** ** Vocabulary of the properties *)

Local Open Scope list_scope.
Local Open Scope Z_scope.

(** Day [m] is a Monday. *)
Definition is_monday (m : Z) : Prop := WeekDay (MakeDate m 0) = 1.

(** Instant [t] falls in the seven days, Monday to Sunday, that start
    with day [m]. *)
Definition in_week_of (m t : Z) : Prop :=
  m * msPerDay <= t < (m + 7) * msPerDay.

(** The Monday on or before day [d]. *)
Definition monday_of (d : Z) : Z := d - ((d + 4) mod 7 + 6) mod 7.

(** 0100-01-01T00:00:00.000Z, day number -683003: the first instant
    whose year [Date.UTC] does not read as a two-digit year. *)
Definition first_instant : Z := -59011459200000.

(** Day number of Monday 9999-12-27, the last Monday dated with a
    four-digit year. *)
Definition last_monday : Z := 2932892.

Local Close Scope Z_scope.

(** The table holds at most one evaluation per employee and week. *)
Definition one_per_week (rows : list Evaluation) : Prop :=
  NoDup (map (fun e => (ev_employee_id e, ev_week_start e)) rows).

(** Every row of the table was stamped before the store's clock. *)
Definition stamped_before (s : Store) : Prop :=
  forall e, In e (employee_weekly_evaluations s) -> (ev_created_at e < db_clock s)%Z.

(** [a] may stand before [b] in descending order of creation time. *)
Definition newer_first (a b : Evaluation) : Prop :=
  (ev_created_at b <= ev_created_at a)%Z.

(** [recent] are the [n] most recent of [rows], newest first: [rows]
    split into [recent] and the rows left out, none of which is newer
    than a row of [recent]. *)
Definition most_recent (n : nat) (rows recent : list Evaluation) : Prop :=
  exists older,
    Permutation rows (recent ++ older) /\
    Sorted newer_first recent /\
    List.length recent = Nat.min n (List.length rows) /\
    forall x e, In x recent -> In e older -> newer_first x e.

(** The overall score of the row is at most 2.5. A row without a score
    ([NULL]) counts: in a comparison with a number, [null] reads as 0. *)
Definition at_most_2_5 (e : Evaluation) : Prop :=
  match ev_overall_score e with
  | Some q => (q <= 5 # 2)%Q
  | None => True
  end.

(** [n] of the rows satisfy [P]. *)
Inductive counted (P : Evaluation -> Prop) : list Evaluation -> nat -> Prop :=
| counted_nil : counted P [] 0
| counted_in (e : Evaluation) (l : list Evaluation) (n : nat) :
    P e -> counted P l n -> counted P (e :: l) (S n)
| counted_out (e : Evaluation) (l : list Evaluation) (n : nat) :
    ~ P e -> counted P l n -> counted P (e :: l) n.

(** The column value [column] is what the store holds for the number [v]
    of a payload: the number itself, or [NULL] for a number that is not
    finite. *)
Definition stored_as (v : JsVal) (column : option Q) : Prop :=
  (exists q, v = JNum q /\ column = Some q) \/
  (exists negative, v = JInfinity negative /\ column = None).

(** The escalation rule in the words of the specification. *)
Definition escalation (lowCount : nat) : option string :=
  if (3 <=? lowCount)%nat then Some "critical"
  else if (2 <=? lowCount)%nat then Some "high"
  else None.

Definition escalated (i : string) (lowCount : nat) : list WarningLetter :=
  match escalation lowCount with
  | Some severity =>
      [{| wl_employee_id := i; wl_severity := severity; wl_status := "active" |}]
  | None => []
  end.

(** The payload test in the words of the specification: [employee_id] is
    missing or empty, [overall_score] is a number. *)
Definition missing_or_empty (v : JsVal) : Prop :=
  v = JUndefined \/ v = JNull \/ v = JStr "".

Definition numeric (v : JsVal) : Prop :=
  (exists q, v = JNum q) \/ (exists negative, v = JInfinity negative).

(** The payload test as the handler makes it. *)
Definition invalid_payload (body : JsObject) : bool :=
  negb (truthy (obj_get body "employee_id"))
  || negb (typeof (obj_get body "overall_score") =? "number").

(** The store calls that follow a successful insert: the read of the
    last three evaluations and the insert of a warning letter. *)
Definition is_last3_or_warning (e : Event) : bool :=
  match e with
  | SelectLast3 _ | InsertWarning _ _ _ => true
  | _ => false
  end.

(** A response sent with status [s] and JSON body [b]. *)
Definition response (s : nat) (b : Body) : Outcome :=
  Sent {| status := s; body := b |}.

(** No employee row carries this email. *)
Definition unknown_email (s : Store) (email : string) : Prop :=
  forall u, In u (employees s) -> emp_email u <> email.

(** The roles [POST /api/evaluations] is registered with. *)
Definition gates : list string := ["supervisor"; "hr"; "admin"].

(** The ways the submission handler can end, with the world each leaves
    behind: one constructor per [return], per [throw] and for the path
    that runs past the insert. *)
Inductive Ending (F : Faults) (now : Z) (user body : JsObject) (w : World)
  : Outcome -> World -> Prop :=
| EndInvalidPayload :
    invalid_payload body = true ->
    Ending F now user body w (response 400 (Message "Invalid payload")) w
| EndForbidden (w1 : World) :
    invalid_payload body = false ->
    assertCanEvaluate F user (obj_get body "employee_id") w = (Next false, w1) ->
    Ending F now user body w (response 403 (Message "Forbidden")) w1
| EndInvalidTime (w1 : World) :
    invalid_payload body = false ->
    assertCanEvaluate F user (obj_get body "employee_id") w = (Next true, w1) ->
    getWeekStartDate now = None ->
    Ending F now user body w (Thrown "RangeError: Invalid time value") w1
| EndInsertFailed (w1 w2 : World) (ws detail : string) :
    invalid_payload body = false ->
    assertCanEvaluate F user (obj_get body "employee_id") w = (Next true, w1) ->
    getWeekStartDate now = Some ws ->
    insert_evaluation F (obj_get body "employee_id") ws
      (obj_get body "overall_score") w1 = (Next (Error detail), w2) ->
    Ending F now user body w
      (response 500 (MessageDetail "Insert failed" detail)) w2
| EndCommitted (w1 w2 w' : World) (ws : string) (o : Outcome) (evs : list Event) :
    invalid_payload body = false ->
    assertCanEvaluate F user (obj_get body "employee_id") w = (Next true, w1) ->
    getWeekStartDate now = Some ws ->
    insert_evaluation F (obj_get body "employee_id") ws
      (obj_get body "overall_score") w1 = (Next (Data tt), w2) ->
    o = response 200 Success \/
    o = Thrown "TypeError: Cannot read properties of null (reading 'filter')" ->
    employees (store w') = employees (store w2) ->
    employee_weekly_evaluations (store w') = employee_weekly_evaluations (store w2) ->
    (db_clock (store w2) <= db_clock (store w'))%Z ->
    log w' = log w2 ++ SelectLast3 (obj_get body "employee_id") :: evs ->
    Ending F now user body w o w'.

(** What a run can do to the evaluations table: nothing, or one new row
    in a free slot, carrying the employee and the number of the payload
    as the store holds it, the week start computed from the clock and the
    store's timestamp. *)
Definition table_step (now : Z) (body : JsObject) (w w' : World) : Prop :=
  employee_weekly_evaluations (store w') = employee_weekly_evaluations (store w) \/
  exists i column ws,
    obj_get body "employee_id" = JStr i /\
    stored_as (obj_get body "overall_score") column /\
    getWeekStartDate now = Some ws /\
    uniq_eval_employee_week (employee_weekly_evaluations (store w)) i ws = true /\
    employee_weekly_evaluations (store w')
    = employee_weekly_evaluations (store w) ++
      [{| ev_employee_id := i; ev_week_start := ws; ev_overall_score := column;
          ev_created_at := db_clock (store w) |}].

(** [req.user] as [hydrateUser] leaves it. *)
Definition hydrated (claims : JsObject) (fresh : Employee) : JsObject :=
  obj_set (obj_set claims "role" (JStr (emp_role fresh)))
          "manager_id" (manager_value fresh).

(** The ways [POST /api/evaluations] can be served: by one of the three
    middlewares turning the request away, or by the handler. *)
Inductive Served {RT : Runtime} (F : Faults) (env : Env) (now : Z) (req : Request)
    (w : World) : Outcome -> World -> Prop :=
| ServedByAuth (o : Outcome) :
    auth env now req w = (Stop o, w) ->
    Served F env now req w o w
| ServedUnauthorized (claims : JsObject) (detail : string) :
    auth env now req w = (Next claims, w) ->
    lookup F AtHydrate (store w) (obj_get claims "id") = Error detail ->
    Served F env now req w (response 401 (Message "Unauthorized"))
      (record (SelectEmployeeById AtHydrate (obj_get claims "id")) w)
| ServedForbidden (claims : JsObject) (fresh : Employee) :
    auth env now req w = (Next claims, w) ->
    lookup F AtHydrate (store w) (obj_get claims "id") = Data fresh ->
    includes gates (JStr (emp_role fresh)) = false ->
    Served F env now req w (response 403 (Message "Forbidden"))
      (record (SelectEmployeeById AtHydrate (obj_get claims "id")) w)
| ServedByHandler (claims : JsObject) (fresh : Employee) (o : Outcome) (w' : World) :
    auth env now req w = (Next claims, w) ->
    lookup F AtHydrate (store w) (obj_get claims "id") = Data fresh ->
    includes gates (JStr (emp_role fresh)) = true ->
    run (evaluations_handler F now (hydrated claims fresh) (req_body req))
        (record (SelectEmployeeById AtHydrate (obj_get claims "id")) w) = (o, w') ->
    Served F env now req w o w'.

(** [!v]: absent, null, the empty string, false or zero. *)
Definition falsy (v : JsVal) : Prop :=
  missing_or_empty v \/ v = JBool false \/ exists q, v = JNum q /\ (q == 0)%Q.

(** The answer carries a generic message and the store's own message. *)
Definition reports (o : Outcome) (detail : string) : Prop :=
  exists s message, o = response s (MessageDetail message detail).

(* ================================================================== *)
(** ** A small deployment used to run the handlers on concrete requests *)

Module Fixture.

(** Tuesday 2026-11-03T00:00:00Z; its week starts on day 20759. *)
Definition now0 : Z := 1793664000000.
Definition monday0 : Z := 20759.

Definition secret : string := "secret".

Definition token_of (i : string) : Token :=
  {| tok_payload := [("id", JStr i);
                     ("iat", JNum (inject_Z 1793664000));
                     ("exp", JNum (inject_Z 1793667600))];
     tok_key := secret |}.

(** Stand-ins for the libraries: a hash is the password behind a prefix,
    a token is the holder's id behind a prefix. *)
Definition runtime : Runtime := {|
  bcrypt_compare := fun password hash => ("hash:" ++ password)%string =? hash;
  jwt_encode := fun tok =>
    match obj_get (tok_payload tok) "id" with
    | JStr i => ("jwt:" ++ i)%string
    | _ => "jwt:"
    end;
  jwt_decode := fun s =>
    if prefix "jwt:" s then Some (token_of (substring 4 (String.length s - 4) s))
    else None;
  js_String := fun v => match v with JStr s => s | _ => "" end;
  js_trim := fun s => s;
  js_toLowerCase := fun s => s
|}.

Definition env : Env := {|
  SUPABASE_URL := Some "https://db.sims.test";
  SUPABASE_SERVICE_ROLE_KEY := Some "service-role-key";
  JWT_SECRET := Some secret
|}.

Definition employee (i role : string) (manager : option string) : Employee :=
  {| emp_id := i; emp_email := (i ++ "@sims.test")%string; emp_role := role;
     emp_manager_id := manager; emp_password_hash := ("hash:pw-" ++ i)%string |}.

Definition staff : list Employee :=
  [ employee "a1" "admin" None;
    employee "h1" "hr" None;
    employee "s1" "supervisor" (Some "h1");
    employee "s2" "supervisor" (Some "h1");
    employee "e1" "operator" (Some "s1");
    employee "e2" "operator" (Some "s2") ].

(** [e1] already has one low evaluation, from the week before. *)
Definition store0 : Store := {|
  employees := staff;
  employee_weekly_evaluations :=
    [{| ev_employee_id := "e1"; ev_week_start := "2026-10-26";
        ev_overall_score := Some 2; ev_created_at := 10 |}];
  warning_letters := [];
  db_clock := 100
|}.

Definition world0 : World := {| store := store0; log := []; login_hits := 0 |}.

(** [req.user] of supervisor [s1] after [auth] and [hydrateUser]. *)
Definition claims_s1 : JsObject := tok_payload (token_of "s1").

Definition hydrated_s1 : JsObject :=
  [("id", JStr "s1");
   ("iat", JNum (inject_Z 1793664000));
   ("exp", JNum (inject_Z 1793667600));
   ("role", JStr "supervisor");
   ("manager_id", JStr "h1")].

(** [req.user] of admin [a1] after [auth] and [hydrateUser]. *)
Definition hydrated_a1 : JsObject :=
  [("id", JStr "a1");
   ("iat", JNum (inject_Z 1793664000));
   ("exp", JNum (inject_Z 1793667600));
   ("role", JStr "admin");
   ("manager_id", JNull)].

Definition bearer (i : string) : option string := Some ("Bearer jwt:" ++ i)%string.

Definition submission (caller : string) (employee_id overall_score : JsVal) : Request :=
  {| authorization := bearer caller;
     req_body := [("employee_id", employee_id); ("overall_score", overall_score)] |}.

Definition credentials (email password : string) : Request :=
  {| authorization := None;
     req_body := [("email", JStr email); ("password", JStr password)] |}.

(** The service fails on the insert into [warning_letters] only. *)
Definition warning_outage : Faults :=
  fun site =>
    match site with
    | AtInsertWarning => Some "upstream request timeout"
    | _ => None
    end.

(** The service fails on the hydration lookup only. *)
Definition hydrate_outage : Faults :=
  fun site =>
    match site with
    | AtHydrate => Some "upstream request timeout"
    | _ => None
    end.

(** The world after admin [a1] has submitted a score for [e1] at [now0]. *)
Definition evaluated (score : Q) : World :=
  snd (post_evaluations (RT := runtime) no_faults env now0
         (submission "a1" (JStr "e1") (JNum score)) world0).

(** Sunday 2026-11-08T23:59:59.999Z, the last instant of the same week. *)
Definition sunday0 : Z := 1794182399999.

(** [world0] with another employees table. *)
Definition restaffed (es : list Employee) : World :=
  {| store := {| employees := es;
                 employee_weekly_evaluations := employee_weekly_evaluations store0;
                 warning_letters := warning_letters store0;
                 db_clock := db_clock store0 |};
     log := []; login_hits := 0 |}.

(** [e1] moved from the team of [s1] to that of [s2]. *)
Definition staff_e1_moved : list Employee :=
  [ employee "a1" "admin" None;
    employee "h1" "hr" None;
    employee "s1" "supervisor" (Some "h1");
    employee "s2" "supervisor" (Some "h1");
    employee "e1" "operator" (Some "s2");
    employee "e2" "operator" (Some "s2") ].

(** [s1] demoted to operator. *)
Definition staff_s1_demoted : list Employee :=
  [ employee "a1" "admin" None;
    employee "h1" "hr" None;
    employee "s1" "operator" (Some "h1");
    employee "s2" "supervisor" (Some "h1");
    employee "e1" "operator" (Some "s1");
    employee "e2" "operator" (Some "s2") ].

(** Admin [a1] scores [e2] in week [k] after [now0]; the world after it. *)
Definition week (k : Z) : Z := (now0 + k * 7 * msPerDay)%Z.

Definition scored (k : Z) (score : Q) (w : World) : World :=
  snd (run (evaluations_handler no_faults (week k) hydrated_a1
              [("employee_id", JStr "e2"); ("overall_score", JNum score)]) w).

End Fixture.

(* ================================================================== *)
(** ** The rest of [api.js], the reference server and the client *)

(** *** The mount point of the function

    app.use((req, _res, next) => {
      if (req.url.startsWith("/.netlify/functions/api")) {
        req.url = req.url.replace("/.netlify/functions/api", "") || "/";
      }
      next();
    }); *)

(** [s] without its first [n] characters. *)
Fixpoint drop (n : nat) (s : string) : string :=
  match n, s with
  | O, _ => s
  | S _, EmptyString => EmptyString
  | S n', String _ s' => drop n' s'
  end.

(** [s.replace(pattern, replacement)] for a string pattern and a
    replacement without [$]: the first occurrence is replaced, the rest
    of [s] stays. *)
Fixpoint replace_first (pattern replacement s : string) : string :=
  if prefix pattern s
  then (replacement ++ drop (String.length pattern) s)%string
  else match s with
       | EmptyString => EmptyString
       | String c s' => String c (replace_first pattern replacement s')
       end.

Definition mount : string := "/.netlify/functions/api".

Definition rewrite_url (url : string) : string :=
  if prefix mount url
  then let rest := replace_first mount "" url in
       if rest =? "" then "/" else rest
  else url.

(** *** The reference server, [server.js]

    The Express original of the function: the same [hydrateUser],
    [requireRole], [assertCanEvaluate] and route handlers, but [auth] and
    the login handler do not call [assertEnv]. [JWT_SECRET] is the value
    of the environment variable, taken to be set. *)

Module Server.

Section Reference.

Context {RT : Runtime}.
Variable F : Faults.
Variable JWT_SECRET : string.
Variable now : Z.

Definition auth (req : Request) : M JsObject :=
  match authorization req with
  | None => respond 401 (Message "Unauthorized")
  | Some h =>
      match nth_error (split_space h) 1 with
      | None => respond 401 (Message "Unauthorized")
      | Some token =>
          if token =? "" then respond 401 (Message "Unauthorized")
          else match jwt_verify now token JWT_SECRET with
               | Some decoded => ret decoded
               | None => respond 401 (Message "Invalid token")
               end
      end
  end.

Definition login_handler (req : Request) : M Empty_set :=
  let email := normalizeEmail (obj_get (req_body req) "email") in
  let password := js_String (js_or (obj_get (req_body req) "password") (JStr "")) in
  r <- select_employee_by_email F email ;;
  match r with
  | Error _ => respond 400 (Message "Invalid credentials")
  | Data user =>
      if negb (bcrypt_compare password (emp_password_hash user))
      then respond 400 (Message "Invalid credentials")
      else
        let token := jwt_sign now [("id", JStr (emp_id user))] JWT_SECRET expiresIn_1h in
        respond 200 (TokenBody token)
  end.

Definition post_login (req : Request) : World -> Outcome * World :=
  run (loginLimiter ;;; login_handler req).

Definition post_evaluations (req : Request) : World -> Outcome * World :=
  run (user <- auth req ;;
       user <- hydrateUser F user ;;
       requireRole ["supervisor"; "hr"; "admin"] user ;;;
       evaluations_handler F now user (req_body req)).

Definition get_department_risk (req : Request) : World -> Outcome * World :=
  run (user <- auth req ;;
       user <- hydrateUser F user ;;
       requireRole ["hr"; "admin"] user ;;;
       risk_handler F).

End Reference.

End Server.

(** *** The client, [App.jsx] *)

Module Client.

(** The [Authorization] header [apiFetch] sends: none without a token.

    ...(token ? { Authorization: `Bearer ${token}` } : {}) *)
Definition authorization_header (token : string) : option string :=
  if token =? "" then None else Some ("Bearer " ++ token)%string.

(** The tally of [RiskPage]:

    const c = { low: 0, high: 0, critical: 0, unknown: 0 };
    for (const r of rows) {
      if (r.severity === "high") c.high++;
      else if (r.severity === "critical") c.critical++;
      else if (r.severity === "low") c.low++;
      else c.unknown++;
    } *)
Record Counts : Type := {
  low : nat;
  high : nat;
  critical : nat;
  unknown : nat
}.

Definition tally (c : Counts) (severity : string) : Counts :=
  if severity =? "high"
  then {| low := low c; high := S (high c); critical := critical c; unknown := unknown c |}
  else if severity =? "critical"
  then {| low := low c; high := high c; critical := S (critical c); unknown := unknown c |}
  else if severity =? "low"
  then {| low := S (low c); high := high c; critical := critical c; unknown := unknown c |}
  else {| low := low c; high := high c; critical := critical c; unknown := S (unknown c) |}.

Definition counts (rows : list (string * string)) : Counts :=
  fold_left (fun c r => tally c (snd r)) rows
            {| low := 0; high := 0; critical := 0; unknown := 0 |}.

End Client.

(** *** Vocabulary of the further properties *)

(** No space occurs in [s]. *)
Fixpoint spaceless (s : string) : bool :=
  match s with
  | EmptyString => true
  | String c s' => negb (Ascii.eqb c " "%char) && spaceless s'
  end.

(** The rows of the table satisfy the two check constraints of
    [schema.sql] on [warning_letters]. *)
Definition letters_admissible (letters : list WarningLetter) : Prop :=
  forall l, In l letters ->
    warning_letters_severity_check (wl_severity l) = true /\
    warning_letters_status_check (wl_status l) = true.

(** How many rows have this severity. *)
Definition with_severity (severity : string) (rows : list (string * string)) : nat :=
  List.length (filter (fun r => snd r =? severity) rows).

(** The submission handler's runs in full: what was answered and the
    world left behind, store call by store call. *)
Inductive Submitted (F : Faults) (now : Z) (user body : JsObject) (w : World)
  : Outcome -> World -> Prop :=
| SubInvalid :
    invalid_payload body = true ->
    Submitted F now user body w (response 400 (Message "Invalid payload")) w
| SubRefused (w1 : World) :
    invalid_payload body = false ->
    assertCanEvaluate F user (obj_get body "employee_id") w = (Next false, w1) ->
    Submitted F now user body w (response 403 (Message "Forbidden")) w1
| SubInvalidTime (w1 : World) :
    invalid_payload body = false ->
    assertCanEvaluate F user (obj_get body "employee_id") w = (Next true, w1) ->
    getWeekStartDate now = None ->
    Submitted F now user body w (Thrown "RangeError: Invalid time value") w1
| SubInsertFailed (w1 w2 : World) (ws detail : string) :
    invalid_payload body = false ->
    assertCanEvaluate F user (obj_get body "employee_id") w = (Next true, w1) ->
    getWeekStartDate now = Some ws ->
    insert_evaluation F (obj_get body "employee_id") ws
      (obj_get body "overall_score") w1 = (Next (Error detail), w2) ->
    Submitted F now user body w
      (response 500 (MessageDetail "Insert failed" detail)) w2
| SubReadFailed (w1 w2 w3 : World) (ws detail : string) :
    invalid_payload body = false ->
    assertCanEvaluate F user (obj_get body "employee_id") w = (Next true, w1) ->
    getWeekStartDate now = Some ws ->
    insert_evaluation F (obj_get body "employee_id") ws
      (obj_get body "overall_score") w1 = (Next (Data tt), w2) ->
    select_last3 F (obj_get body "employee_id") w2 = (Next (Error detail), w3) ->
    Submitted F now user body w
      (Thrown "TypeError: Cannot read properties of null (reading 'filter')") w3
| SubQuiet (w1 w2 w3 : World) (ws : string) (last3 : list Evaluation) :
    invalid_payload body = false ->
    assertCanEvaluate F user (obj_get body "employee_id") w = (Next true, w1) ->
    getWeekStartDate now = Some ws ->
    insert_evaluation F (obj_get body "employee_id") ws
      (obj_get body "overall_score") w1 = (Next (Data tt), w2) ->
    select_last3 F (obj_get body "employee_id") w2 = (Next (Data last3), w3) ->
    (List.length (filter low_score last3) < 2)%nat ->
    Submitted F now user body w (response 200 Success) w3
| SubEscalated (w1 w2 w3 w4 : World) (ws severity : string)
    (last3 : list Evaluation) (r : Reply unit) :
    invalid_payload body = false ->
    assertCanEvaluate F user (obj_get body "employee_id") w = (Next true, w1) ->
    getWeekStartDate now = Some ws ->
    insert_evaluation F (obj_get body "employee_id") ws
      (obj_get body "overall_score") w1 = (Next (Data tt), w2) ->
    select_last3 F (obj_get body "employee_id") w2 = (Next (Data last3), w3) ->
    (2 <= List.length (filter low_score last3))%nat ->
    severity = (if (3 <=? List.length (filter low_score last3))%nat
                then "critical" else "high") ->
    insert_warning F (obj_get body "employee_id") severity "active" w3 = (Next r, w4) ->
    Submitted F now user body w (response 200 Success) w4.

(** What a submission leaves in the store: nothing, with an answer that
    is neither the success nor the error of the read; or the new row, and
    with it no letter or one letter whose severity is read off the three
    most recent rows of the employee. *)
Definition store_effect (now : Z) (body : JsObject) (w : World) (o : Outcome)
    (w' : World) : Prop :=
  (store w' = store w /\
   o <> response 200 Success /\
   o <> Thrown "TypeError: Cannot read properties of null (reading 'filter')") \/
  (exists i column ws,
     obj_get body "employee_id" = JStr i /\
     stored_as (obj_get body "overall_score") column /\
     getWeekStartDate now = Some ws /\
     employees (store w') = employees (store w) /\
     employee_weekly_evaluations (store w')
     = employee_weekly_evaluations (store w) ++
       [{| ev_employee_id := i; ev_week_start := ws; ev_overall_score := column;
           ev_created_at := db_clock (store w) |}] /\
     (((o = response 200 Success \/
        o = Thrown "TypeError: Cannot read properties of null (reading 'filter')") /\
       warning_letters (store w') = warning_letters (store w)) \/
      (o = response 200 Success /\
       exists severity,
         warning_letters (store w')
         = warning_letters (store w) ++
           [{| wl_employee_id := i; wl_severity := severity; wl_status := "active" |}] /\
         let recent :=
           firstn 3 (order_desc
             (filter (fun e => ev_employee_id e =? i)
                     (employee_weekly_evaluations (store w')))) in
         (2 <= List.length (filter low_score recent))%nat /\
         severity = (if (3 <=? List.length (filter low_score recent))%nat
                     then "critical" else "high")%string))).

(* ================================================================== *)
(** * Properties *)

(** ** Calendar arithmetic *)

Module DateFacts.

Local Open Scope Z_scope.

Ltac zdiv := Z.div_mod_to_equations; lia.

Lemma Day_of_MakeDate (d r : Z) :
  0 <= r < msPerDay -> Day (MakeDate d r) = d.
Proof.
  unfold Day, MakeDate, msPerDay. intros H. zdiv.
Qed.

Lemma TimeWithinDay_of_MakeDate (d r : Z) :
  0 <= r < msPerDay -> TimeWithinDay (MakeDate d r) = r.
Proof.
  unfold TimeWithinDay, MakeDate, msPerDay. intros H. zdiv.
Qed.

(** The year computed from the estimate is the year ECMA-262 asks for:
    the one whose first day is the last not after [d]. *)
Lemma YearFromDay_spec (d : Z) :
  DayFromYear (YearFromDay d) <= d < DayFromYear (YearFromDay d + 1).
Proof.
  unfold YearFromDay.
  set (y := 1970 + d * 400 / 146097).
  assert (Hlo : DayFromYear (y - 1) <= d).
  { unfold DayFromYear, y. zdiv. }
  assert (Hhi : d < DayFromYear (y + 1 + 1)).
  { unfold DayFromYear, y. zdiv. }
  destruct (Z.ltb_spec d (DayFromYear y)).
  - replace (y - 1 + 1) with y by lia. lia.
  - destruct (Z.leb_spec (DayFromYear (y + 1)) d); lia.
Qed.

Lemma YearFromDay_lower (d y : Z) : DayFromYear y <= d -> y <= YearFromDay d.
Proof.
  intros Hd. pose proof (YearFromDay_spec d) as [_ H].
  unfold DayFromYear in *. zdiv.
Qed.

Lemma YearFromDay_upper (d y : Z) : d < DayFromYear (y + 1) -> YearFromDay d <= y.
Proof.
  intros Hd. pose proof (YearFromDay_spec d) as [H _].
  unfold DayFromYear in *. zdiv.
Qed.

Lemma DayFromYear_next (y : Z) : DayFromYear (y + 1) = DayFromYear y + DaysInYear y.
Proof.
  unfold DayFromYear, DaysInYear.
  destruct (Z.eqb_spec (y mod 4) 0);
    destruct (Z.eqb_spec (y mod 100) 0);
    destruct (Z.eqb_spec (y mod 400) 0); cbn [negb]; zdiv.
Qed.

(** The day within the year is a day of that year, and the date a day of
    the month. *)
Lemma DayWithinYear_range (t : Z) :
  0 <= DayWithinYear t < DaysInYear (YearFromTime t).
Proof.
  unfold DayWithinYear, YearFromTime.
  pose proof (YearFromDay_spec (Day t)) as H.
  rewrite DayFromYear_next in H. lia.
Qed.

Lemma DaysInYear_cases (y : Z) : DaysInYear y = 365 \/ DaysInYear y = 366.
Proof.
  unfold DaysInYear.
  repeat match goal with |- context [if ?b then _ else _] => destruct b end; auto.
Qed.

Lemma DateFromTime_range (t : Z) : 1 <= DateFromTime t <= 31.
Proof.
  pose proof (DayWithinYear_range t) as H.
  unfold DateFromTime, MonthFromTime, InLeapYear.
  destruct (DaysInYear_cases (YearFromTime t)) as [E | E]; rewrite E in *;
    simpl (_ =? _);
    repeat match goal with
           | |- context [if (?a <? ?b) then _ else _] => destruct (Z.ltb_spec a b)
           end; cbn [MonthStart]; lia.
Qed.

Lemma MonthFromTime_range (t : Z) : 0 <= MonthFromTime t <= 11.
Proof.
  unfold MonthFromTime.
  repeat match goal with |- context [if ?b then _ else _] => destruct b end; lia.
Qed.

(** Reading year, month and date off a time value and putting them back
    together gives its day number; a different date of the month moves
    the day number by the difference. *)
Lemma MakeDay_of_fields (t dt : Z) :
  MakeDay (YearFromTime t) (MonthFromTime t) dt = Day t - DateFromTime t + dt.
Proof.
  pose proof (MonthFromTime_range t) as Hm.
  unfold MakeDay.
  replace (MonthFromTime t / 12) with 0 by zdiv.
  replace (MonthFromTime t mod 12) with (MonthFromTime t) by zdiv.
  rewrite Z.add_0_r.
  unfold DateFromTime, DayWithinYear, InLeapYear. lia.
Qed.

Lemma TimeClip_in_range (t : Z) : - maxTime <= t <= maxTime -> TimeClip t = Some t.
Proof.
  intros H. unfold TimeClip.
  destruct (Z.leb_spec (Z.abs t) maxTime); [reflexivity | lia].
Qed.

Lemma setUTCDate_midnight (d k : Z) :
  - maxTime <= (d - k) * msPerDay <= maxTime ->
  setUTCDate (MakeDate d 0) (DateFromTime (MakeDate d 0) - k)
  = Some (MakeDate (d - k) 0).
Proof.
  intros H. unfold setUTCDate.
  rewrite MakeDay_of_fields.
  rewrite Day_of_MakeDate, TimeWithinDay_of_MakeDate by (unfold msPerDay; lia).
  replace (d - DateFromTime (MakeDate d 0) + (DateFromTime (MakeDate d 0) - k))
    with (d - k) by lia.
  apply TimeClip_in_range. unfold MakeDate. lia.
Qed.

Lemma DayFromYear_100 : DayFromYear 100 = -683003.
Proof. reflexivity. Qed.

Lemma Date_UTC_of_fields (t : Z) :
  first_instant <= t <= maxTime ->
  Date_UTC (YearFromTime t) (MonthFromTime t) (DateFromTime t)
  = Some (MakeDate (Day t) 0).
Proof.
  intros H. unfold Date_UTC.
  assert (Hd : DayFromYear 100 <= Day t)
    by (rewrite DayFromYear_100; unfold Day, msPerDay, first_instant in *; zdiv).
  pose proof (YearFromDay_lower (Day t) 100 Hd) as Hy. fold (YearFromTime t) in Hy.
  replace ((0 <=? YearFromTime t) && (YearFromTime t <=? 99)) with false
    by (symmetry; apply andb_false_iff; right; apply Z.leb_gt; lia).
  rewrite MakeDay_of_fields.
  replace (Day t - DateFromTime t + DateFromTime t) with (Day t) by lia.
  apply TimeClip_in_range.
  unfold MakeDate, Day, msPerDay, maxTime, first_instant in *. zdiv.
Qed.

Lemma getWeekStartDate_monday (t : Z) :
  first_instant <= t <= maxTime ->
  getWeekStartDate t
  = Some (substring 0 10 (toISOString (MakeDate (monday_of (Day t)) 0))).
Proof.
  intros H. unfold getWeekStartDate.
  rewrite Date_UTC_of_fields by assumption.
  assert (Hd : -683003 <= Day t <= 100000000)
    by (unfold Day, msPerDay, maxTime, first_instant in *; zdiv).
  unfold WeekDay. rewrite Day_of_MakeDate by (unfold msPerDay; lia).
  rewrite setUTCDate_midnight; [reflexivity |].
  unfold msPerDay, maxTime. zdiv.
Qed.

(** Every instant of the seven days that start with Monday [m] is sent
    back to [m]. *)
Lemma monday_of_span (m t : Z) :
  (m + 4) mod 7 = 1 ->
  m * msPerDay <= t < (m + 7) * msPerDay ->
  monday_of (Day t) = m.
Proof.
  unfold monday_of, Day, msPerDay. intros Hm Ht. zdiv.
Qed.

Lemma length_append (a b : string) :
  String.length (a ++ b) = (String.length a + String.length b)%nat.
Proof.
  induction a as [| c a IH]; simpl; [reflexivity | now rewrite IH].
Qed.

Lemma length_pad (w : nat) (n : Z) : String.length (pad w n) = w.
Proof.
  revert n. induction w as [| w IH]; intros n; simpl; [reflexivity |].
  rewrite length_append, IH. simpl. lia.
Qed.

Lemma substring_prefix (a b : string) :
  substring 0 (String.length a) (a ++ b) = a.
Proof.
  induction a as [| c a IH]; simpl.
  - destruct b; reflexivity.
  - now rewrite IH.
Qed.

Lemma append_assoc (a b c : string) : ((a ++ b) ++ c = a ++ (b ++ c))%string.
Proof.
  induction a as [| x a IH]; simpl; [reflexivity | now rewrite IH].
Qed.

(** The first ten characters of the ISO string of a date in the years
    0 to 9999 are its calendar date. *)
Lemma slice_toISOString (d : Z) :
  0 <= YearFromTime (MakeDate d 0) <= 9999 ->
  substring 0 10 (toISOString (MakeDate d 0)) = isoDate d.
Proof.
  intros Hy. unfold toISOString, isoYear, isoDate.
  replace (d * msPerDay) with (MakeDate d 0) by (unfold MakeDate; lia).
  replace ((0 <=? YearFromTime (MakeDate d 0))
           && (YearFromTime (MakeDate d 0) <=? 9999)) with true
    by (symmetry; apply andb_true_iff; split; apply Z.leb_le; lia).
  set (t := MakeDate d 0).
  set (ymd := (pad 4 (YearFromTime t) ++ "-" ++ pad 2 (MonthFromTime t + 1)
               ++ "-" ++ pad 2 (DateFromTime t))%string).
  assert (Hlen : String.length ymd = 10%nat).
  { unfold ymd. repeat rewrite length_append. repeat rewrite length_pad.
    reflexivity. }
  rewrite <- Hlen.
  match goal with
  | |- substring 0 _ ?s = _ =>
      replace s with (ymd ++ ("T" ++ pad 2 (HourFromTime t) ++ ":"
                      ++ pad 2 (MinFromTime t) ++ ":" ++ pad 2 (SecFromTime t)
                      ++ "." ++ pad 3 (msFromTime t) ++ "Z"))%string
  end.
  - apply substring_prefix.
  - unfold ymd. repeat rewrite append_assoc. reflexivity.
Qed.

Lemma year_of_monday (m : Z) :
  -683009 <= m <= last_monday -> 0 <= YearFromTime (MakeDate m 0) <= 9999.
Proof.
  intros H. unfold YearFromTime.
  rewrite Day_of_MakeDate by (unfold msPerDay; lia).
  split.
  - apply (Z.le_trans _ 99); [lia |].
    apply YearFromDay_lower. unfold DayFromYear. zdiv.
  - apply YearFromDay_upper. unfold DayFromYear, last_monday in *. zdiv.
Qed.

(** [getWeekStartDate] on any instant of the week of Monday [m]. *)
Lemma getWeekStartDate_of_week (m t : Z) :
  (m + 4) mod 7 = 1 ->
  m <= last_monday ->
  first_instant <= t ->
  m * msPerDay <= t < (m + 7) * msPerDay ->
  getWeekStartDate t = Some (isoDate m).
Proof.
  intros Hm Hlast H0 Ht.
  assert (Hr : first_instant <= t <= maxTime)
    by (unfold msPerDay, maxTime, last_monday in *; lia).
  rewrite getWeekStartDate_monday by assumption.
  rewrite (monday_of_span m t Hm Ht).
  rewrite slice_toISOString; [reflexivity |].
  apply year_of_monday. unfold msPerDay, first_instant in *. lia.
Qed.

Lemma week_start_in_week (m t : Z) :
  is_monday m ->
  m <= last_monday ->
  first_instant <= t ->
  in_week_of m t ->
  getWeekStartDate t = Some (isoDate m).
Proof.
  unfold is_monday, in_week_of, WeekDay. intros Hm Hl H0 Hw.
  rewrite Day_of_MakeDate in Hm by (unfold msPerDay; lia).
  now apply getWeekStartDate_of_week.
Qed.

End DateFacts.

(** ** Objects and the middleware chain *)

Lemma obj_get_set_same (o : JsObject) (k : string) (v : JsVal) :
  obj_get (obj_set o k v) k = v.
Proof.
  induction o as [| [k' v'] o IH]; simpl.
  - now rewrite String.eqb_refl.
  - destruct (k' =? k) eqn:E; simpl.
    + now rewrite String.eqb_refl.
    + now rewrite E.
Qed.

Lemma obj_get_set_other (o : JsObject) (k k' : string) (v : JsVal) :
  k <> k' -> obj_get (obj_set o k v) k' = obj_get o k'.
Proof.
  intros Hk. induction o as [| [k0 v0] o IH]; simpl.
  - apply String.eqb_neq in Hk. now rewrite Hk.
  - destruct (k0 =? k) eqn:E; simpl.
    + apply String.eqb_eq in E. subst k0.
      apply String.eqb_neq in Hk. now rewrite Hk.
    + now rewrite IH.
Qed.

Lemma filter_id_sound (es : list Employee) (i : string) (e : Employee) :
  single (filter (fun x => emp_id x =? i) es) = Data e -> emp_id e = i /\ In e es.
Proof.
  unfold single.
  destruct (filter (fun x => emp_id x =? i) es) as [| r [| r' rs]] eqn:E;
    try discriminate.
  intros H; injection H as <-.
  assert (Hin : In r (filter (fun x => emp_id x =? i) es)) by (rewrite E; now left).
  apply filter_In in Hin as [Hin Hi]. apply String.eqb_eq in Hi. now split.
Qed.

(** What a successful hydration leaves in [req.user]: the id the token
    carried, and role and manager of the one row with that id. *)
Lemma hydrateUser_next (F : Faults) (user0 user : JsObject) (w0 w1 : World) :
  hydrateUser F user0 w0 = (Next user, w1) ->
  exists fresh cid,
    lookup F AtHydrate (store w0) (obj_get user0 "id") = Data fresh /\
    obj_get user0 "id" = JStr cid /\
    emp_id fresh = cid /\
    user = obj_set (obj_set user0 "role" (JStr (emp_role fresh)))
                   "manager_id" (manager_value fresh) /\
    w1 = record (SelectEmployeeById AtHydrate (obj_get user0 "id")) w0.
Proof.
  unfold hydrateUser, bind, select_employee_by_id.
  destruct (lookup F AtHydrate (store w0) (obj_get user0 "id")) as [fresh | msg] eqn:E;
    simpl; [| discriminate].
  intros H; injection H as <- <-.
  pose proof E as E0.
  unfold lookup in E. destruct (F AtHydrate); [discriminate |].
  unfold employee_by_id in E.
  destruct (obj_get user0 "id") as [| | | | | cid |] eqn:Hid; simpl in E;
    try discriminate.
  exists fresh, cid. apply filter_id_sound in E as [Hi _].
  repeat split; assumption || reflexivity.
Qed.

Lemma hydrated_fields (user0 : JsObject) (role : string) (m : JsVal) :
  let user := obj_set (obj_set user0 "role" (JStr role)) "manager_id" m in
  obj_get user "role" = JStr role /\ obj_get user "id" = obj_get user0 "id".
Proof.
  simpl. split.
  - rewrite obj_get_set_other by discriminate. apply obj_get_set_same.
  - now rewrite !obj_get_set_other by discriminate.
Qed.

Lemma lookup_data_id (F : Faults) (site : Site) (s : Store) (id : JsVal)
    (fresh : Employee) :
  lookup F site s id = Data fresh -> id = JStr (emp_id fresh).
Proof.
  unfold lookup. destruct (F site); [discriminate |].
  unfold employee_by_id. destruct id; simpl; try discriminate.
  intros H. apply filter_id_sound in H as [-> _]. reflexivity.
Qed.

(** ** The relationship gate *)

Lemma assertCanEvaluate_supervisor (F : Faults) (user : JsObject) (cid : string)
    (target : JsVal) (w : World) :
  obj_get user "role" = JStr "supervisor" ->
  obj_get user "id" = JStr cid ->
  exists allowed,
    assertCanEvaluate F user target w
    = (Next allowed, record (SelectEmployeeById AtTarget target) w) /\
    (allowed = true <->
     exists emp, lookup F AtTarget (store w) target = Data emp /\
                 emp_manager_id emp = Some cid).
Proof.
  intros Hr Hi. unfold assertCanEvaluate. rewrite Hr, Hi. simpl.
  unfold bind, select_employee_by_id.
  destruct (lookup F AtTarget (store w) target) as [emp | msg] eqn:E; simpl.
  - eexists; split; [reflexivity |]. split.
    + intros Hm. exists emp. split; [reflexivity |].
      unfold manager_value in Hm. destruct (emp_manager_id emp); simpl in Hm;
        [| discriminate].
      apply String.eqb_eq in Hm. now subst.
    + intros (emp' & He & Hm). injection He as <-.
      unfold manager_value. rewrite Hm. simpl. apply String.eqb_refl.
  - eexists; split; [reflexivity |]. split; [discriminate |].
    intros (emp' & He & _). discriminate.
Qed.

(** The gate reads the role and the id of the caller and nothing else. *)
Lemma assertCanEvaluate_reads (F : Faults) (user user' : JsObject) (target : JsVal) :
  obj_get user' "role" = obj_get user "role" ->
  obj_get user' "id" = obj_get user "id" ->
  assertCanEvaluate F user' target = assertCanEvaluate F user target.
Proof. intros Hr Hi. unfold assertCanEvaluate. now rewrite Hr, Hi. Qed.

(** C1. The relationship gate of a hydrated caller: admin and hr are
    always let through; a supervisor is let through exactly when the
    lookup of the target made at that moment returns a row whose manager
    is the caller; every other role is turned away; and the submission
    handler answers a refusal with 403 Forbidden. *)
Theorem relationship_gate (F : Faults) (user0 user : JsObject) (w0 w1 : World) :
  hydrateUser F user0 w0 = (Next user, w1) ->
  exists role cid,
    obj_get user "role" = JStr role /\
    obj_get user "id" = JStr cid /\
    forall (target : JsVal) (w : World),
      (role = "admin" \/ role = "hr" ->
         assertCanEvaluate F user target w = (Next true, w)) /\
      (role = "supervisor" ->
         exists allowed,
           assertCanEvaluate F user target w
           = (Next allowed, record (SelectEmployeeById AtTarget target) w) /\
           (allowed = true <->
            exists emp, lookup F AtTarget (store w) target = Data emp /\
                        emp_manager_id emp = Some cid)) /\
      (role <> "admin" -> role <> "hr" -> role <> "supervisor" ->
         assertCanEvaluate F user target w = (Next false, w)) /\
      (forall now body w',
         invalid_payload body = false ->
         assertCanEvaluate F user (obj_get body "employee_id") w = (Next false, w') ->
         run (evaluations_handler F now user body) w
         = (response 403 (Message "Forbidden"), w')).
Proof.
  intros Hh.
  apply hydrateUser_next in Hh as (fresh & cid & _ & Hid & _ & -> & _).
  destruct (hydrated_fields user0 (emp_role fresh) (manager_value fresh)) as [Hr Hi].
  simpl in Hr, Hi. rewrite Hid in Hi.
  exists (emp_role fresh), cid. split; [exact Hr |]. split; [exact Hi |].
  intros target w.
  set (user := obj_set _ "manager_id" _) in *.
  repeat split.
  - intros [Ha | Ha]; unfold assertCanEvaluate; rewrite Hr, Ha; reflexivity.
  - intros Hs. rewrite Hs in Hr.
    exact (assertCanEvaluate_supervisor F user cid target w Hr Hi).
  - intros Ha Hhr Hs. unfold assertCanEvaluate. rewrite Hr. simpl.
    apply String.eqb_neq in Ha, Hhr, Hs.
    now rewrite Ha, Hhr, Hs.
  - intros now body w' Hp Hd. unfold evaluations_handler.
    fold (invalid_payload body). rewrite Hp.
    unfold run, bind. rewrite Hd. reflexivity.
Qed.

Lemma relationship_gate_witness :
  hydrateUser no_faults Fixture.claims_s1 Fixture.world0
  = (Next Fixture.hydrated_s1,
     record (SelectEmployeeById AtHydrate (JStr "s1")) Fixture.world0) /\
  exists role cid,
    obj_get Fixture.hydrated_s1 "role" = JStr role /\
    obj_get Fixture.hydrated_s1 "id" = JStr cid /\
    forall (target : JsVal) (w : World),
      (role = "admin" \/ role = "hr" ->
         assertCanEvaluate no_faults Fixture.hydrated_s1 target w = (Next true, w)) /\
      (role = "supervisor" ->
         exists allowed,
           assertCanEvaluate no_faults Fixture.hydrated_s1 target w
           = (Next allowed, record (SelectEmployeeById AtTarget target) w) /\
           (allowed = true <->
            exists emp, lookup no_faults AtTarget (store w) target = Data emp /\
                        emp_manager_id emp = Some cid)) /\
      (role <> "admin" -> role <> "hr" -> role <> "supervisor" ->
         assertCanEvaluate no_faults Fixture.hydrated_s1 target w = (Next false, w)) /\
      (forall now body w',
         invalid_payload body = false ->
         assertCanEvaluate no_faults Fixture.hydrated_s1 (obj_get body "employee_id") w
         = (Next false, w') ->
         run (evaluations_handler no_faults now Fixture.hydrated_s1 body) w
         = (response 403 (Message "Forbidden"), w')).
Proof.
  split; [reflexivity |].
  apply (relationship_gate no_faults Fixture.claims_s1 Fixture.hydrated_s1
           Fixture.world0
           (record (SelectEmployeeById AtHydrate (JStr "s1")) Fixture.world0)).
  reflexivity.
Defined.

(** ** The week start *)

(** C5. Two instants of the same Monday-to-Sunday span get the same week
    start, the calendar date (YYYY-MM-DD, in UTC) of that span's Monday,
    whatever the time of day and the day of the week. The instants range
    over the time values from the year 100 on and the weeks over those
    whose Monday has a four-digit year, which covers every reading of the
    wall clock the handler can pass; outside, [Date.UTC] reads the years 0
    to 99 as 1900 to 1999 and [toISOString] writes years over 9999 with a
    sign and six digits. *)
Theorem getWeekStartDate_same_week (m t1 t2 : Z) :
  is_monday m ->
  (m <= last_monday)%Z ->
  (first_instant <= t1)%Z ->
  (first_instant <= t2)%Z ->
  in_week_of m t1 ->
  in_week_of m t2 ->
  getWeekStartDate t1 = getWeekStartDate t2 /\
  getWeekStartDate t1 = Some (isoDate m).
Proof.
  intros Hm Hl H1 H2 Hw1 Hw2.
  rewrite (DateFacts.week_start_in_week m t1) by assumption.
  rewrite (DateFacts.week_start_in_week m t2) by assumption.
  split; reflexivity.
Qed.

Lemma getWeekStartDate_same_week_witness :
  (* Tuesday 00:00:00.000 and Sunday 23:59:59.999 of the week of 2026-11-02 *)
  getWeekStartDate 1793664000000 = getWeekStartDate 1794182399999 /\
  getWeekStartDate 1793664000000 = Some (isoDate Fixture.monday0).
Proof.
  apply (getWeekStartDate_same_week Fixture.monday0 1793664000000 1794182399999).
  - reflexivity.
  - unfold Fixture.monday0, last_monday. lia.
  - unfold first_instant. lia.
  - unfold first_instant. lia.
  - unfold in_week_of, Fixture.monday0, msPerDay. lia.
  - unfold in_week_of, Fixture.monday0, msPerDay. lia.
Defined.

(** ** Login *)

Lemma unknown_email_no_row (s : Store) (email : string) :
  unknown_email s email ->
  exists msg, employee_by_email s email = Error msg.
Proof.
  intros Hu. unfold employee_by_email.
  replace (filter (fun e => emp_email e =? email) (employees s)) with (@nil Employee).
  - eexists. reflexivity.
  - symmetry. unfold unknown_email in Hu.
    induction (employees s) as [| e es IH]; simpl; [reflexivity |].
    destruct (emp_email e =? email) eqn:E.
    + apply String.eqb_eq in E. exfalso. apply (Hu e); [now left | exact E].
    + apply IH. intros u Hin. apply Hu. now right.
Qed.

(** C7. A login with an email no employee has and a login with a known
    email and a wrong password are answered alike, whatever else the two
    requests and stores hold; past the rate limiter and the environment
    check the answer is status 400 with body {message: "Invalid
    credentials"}. *)
Theorem login_failures_indistinguishable {RT : Runtime} (F1 F2 : Faults) (env : Env)
    (now1 now2 : Z) (req1 req2 : Request) (w1 w2 : World) (u : Employee) :
  login_hits w1 = login_hits w2 ->
  unknown_email (store w1) (normalizeEmail (obj_get (req_body req1) "email")) ->
  employee_by_email (store w2) (normalizeEmail (obj_get (req_body req2) "email"))
  = Data u ->
  bcrypt_compare (js_String (js_or (obj_get (req_body req2) "password") (JStr "")))
                 (emp_password_hash u) = false ->
  fst (post_login F1 env now1 req1 w1) = fst (post_login F2 env now2 req2 w2) /\
  ((login_hits w1 < 10)%nat ->
   missing_env env = [] ->
   fst (post_login F1 env now1 req1 w1) = response 400 (Message "Invalid credentials")).
Proof.
  intros Hh Hu Hk Hp.
  apply unknown_email_no_row in Hu as [msg Hu].
  assert (E1 : fst (post_login F1 env now1 req1 w1)
               = if (10 <? S (login_hits w1))%nat
                 then response 429 (Text "Too many requests, please try again later.")
                 else match missing_env env with
                      | [] => response 400 (Message "Invalid credentials")
                      | missing => response 500 (MissingEnv missing)
                      end).
  { unfold post_login, run, bind, loginLimiter, login_handler, bind, assertEnv.
    destruct (10 <? S (login_hits w1))%nat; [reflexivity |].
    destruct (missing_env env); [| reflexivity].
    unfold ret, select_employee_by_email. simpl.
    destruct (F1 AtLogin); [reflexivity |]. simpl. rewrite Hu. reflexivity. }
  assert (E2 : fst (post_login F2 env now2 req2 w2)
               = if (10 <? S (login_hits w2))%nat
                 then response 429 (Text "Too many requests, please try again later.")
                 else match missing_env env with
                      | [] => response 400 (Message "Invalid credentials")
                      | missing => response 500 (MissingEnv missing)
                      end).
  { unfold post_login, run, bind, loginLimiter, login_handler, bind, assertEnv.
    destruct (10 <? S (login_hits w2))%nat; [reflexivity |].
    destruct (missing_env env); [| reflexivity].
    unfold ret, select_employee_by_email. simpl.
    destruct (F2 AtLogin); [reflexivity |]. simpl. rewrite Hk, Hp. reflexivity. }
  split.
  - rewrite E1, E2, Hh. reflexivity.
  - intros Hlt He. rewrite E1, He.
    destruct (Nat.ltb_spec 10 (S (login_hits w1))); [lia | reflexivity].
Qed.

Lemma login_failures_indistinguishable_witness :
  fst (post_login (RT := Fixture.runtime) no_faults Fixture.env Fixture.now0
         (Fixture.credentials "nobody@sims.test" "pw-s1") Fixture.world0)
  = fst (post_login (RT := Fixture.runtime) no_faults Fixture.env Fixture.now0
           (Fixture.credentials "s1@sims.test" "guess") Fixture.world0) /\
  ((login_hits Fixture.world0 < 10)%nat ->
   missing_env Fixture.env = [] ->
   fst (post_login (RT := Fixture.runtime) no_faults Fixture.env Fixture.now0
          (Fixture.credentials "nobody@sims.test" "pw-s1") Fixture.world0)
   = response 400 (Message "Invalid credentials")).
Proof.
  apply (login_failures_indistinguishable (RT := Fixture.runtime)
           no_faults no_faults Fixture.env Fixture.now0 Fixture.now0
           (Fixture.credentials "nobody@sims.test" "pw-s1")
           (Fixture.credentials "s1@sims.test" "guess")
           Fixture.world0 Fixture.world0
           (Fixture.employee "s1" "supervisor" (Some "h1"))).
  - reflexivity.
  - intros u Hin. simpl in Hin.
    repeat (destruct Hin as [<- | Hin]; [discriminate |]). destruct Hin.
  - reflexivity.
  - reflexivity.
Defined.

(** ** Store calls *)

Section StoreFacts.

Variable F : Faults.

Lemma insert_desc_newest (e : Evaluation) (l : list Evaluation) :
  (forall x, In x l -> (ev_created_at x < ev_created_at e)%Z) ->
  insert_desc e l = e :: l.
Proof.
  destruct l as [| x xs]; simpl; [reflexivity |].
  intros H. specialize (H x (or_introl eq_refl)).
  destruct (Z.ltb_spec (ev_created_at x) (ev_created_at e)); [reflexivity | lia].
Qed.

Lemma insert_desc_older (e x : Evaluation) (l : list Evaluation) :
  (ev_created_at e < ev_created_at x)%Z ->
  insert_desc e (x :: l) = x :: insert_desc e l.
Proof.
  intros H. simpl.
  destruct (Z.ltb_spec (ev_created_at x) (ev_created_at e)); [lia | reflexivity].
Qed.

(** A row stamped after all others comes first in descending order. *)
Lemma order_desc_newest (e : Evaluation) (l : list Evaluation) :
  (forall x, In x l -> (ev_created_at x < ev_created_at e)%Z) ->
  order_desc (l ++ [e]) = e :: order_desc l.
Proof.
  induction l as [| a l IH]; intros H; simpl; [reflexivity |].
  rewrite IH by (intros x Hx; apply H; now right).
  apply insert_desc_older. apply H. now left.
Qed.

Lemma insert_desc_perm (e : Evaluation) (l : list Evaluation) :
  Permutation (e :: l) (insert_desc e l).
Proof.
  induction l as [| x xs IH]; simpl; [apply Permutation_refl |].
  destruct (ev_created_at x <? ev_created_at e)%Z; [apply Permutation_refl |].
  eapply perm_trans; [apply perm_swap |]. now apply perm_skip.
Qed.

(** The ordering returns the rows it was given, ... *)
Lemma order_desc_perm (l : list Evaluation) : Permutation l (order_desc l).
Proof.
  induction l as [| x xs IH]; simpl; [constructor |].
  eapply perm_trans; [apply perm_skip, IH | apply insert_desc_perm].
Qed.

Lemma insert_desc_hd (a e : Evaluation) (l : list Evaluation) :
  newer_first a e -> HdRel newer_first a l -> HdRel newer_first a (insert_desc e l).
Proof.
  intros Hae Hal. destruct l as [| x xs]; simpl; [now constructor |].
  destruct (ev_created_at x <? ev_created_at e)%Z; constructor;
    [exact Hae | now inversion Hal].
Qed.

Lemma insert_desc_sorted (e : Evaluation) (l : list Evaluation) :
  Sorted newer_first l -> Sorted newer_first (insert_desc e l).
Proof.
  induction l as [| x xs IH]; intros Hs; simpl.
  - repeat constructor.
  - destruct (Z.ltb_spec (ev_created_at x) (ev_created_at e)).
    + constructor; [exact Hs |]. constructor. unfold newer_first. lia.
    + inversion Hs as [| ? ? Hxs Hhd]; subst. constructor; [now apply IH |].
      apply insert_desc_hd; [unfold newer_first; lia | exact Hhd].
Qed.

(** ... newest first. *)
Lemma order_desc_sorted (l : list Evaluation) : Sorted newer_first (order_desc l).
Proof.
  induction l as [| x xs IH]; simpl; [constructor |].
  now apply insert_desc_sorted.
Qed.

Lemma add_evaluation_stamped (s s' : Store) (id score : JsVal) (ws : string) :
  add_evaluation s id score ws = Data s' ->
  stamped_before s -> stamped_before s'.
Proof.
  unfold add_evaluation, stamped_before.
  destruct (as_id id); [| discriminate].
  destruct (json_number score); [| discriminate].
  destruct (uniq_eval_employee_week _ _ _); [| discriminate].
  intros H Hs; injection H as <-. simpl. intros e Hin.
  apply in_app_or in Hin as [Hin | [<- | []]].
  - specialize (Hs e Hin). lia.
  - simpl. lia.
Qed.

Lemma insert_evaluation_stamped (id score : JsVal) (ws : string) (w w2 : World)
    (r : Reply unit) :
  insert_evaluation F id ws score w = (Next r, w2) ->
  stamped_before (store w) -> stamped_before (store w2).
Proof.
  unfold insert_evaluation.
  destruct (F AtInsertEvaluation); [now intros H; injection H as _ <- |].
  destruct (add_evaluation (store w) id score ws) as [s' | msg] eqn:E;
    intros H; injection H as _ <-; simpl; [| auto].
  now apply (add_evaluation_stamped _ _ _ _ _ E).
Qed.

(** The store holds a finite number as it is and [NULL] for one that is
    not finite. *)
Lemma json_number_stored_as (v : JsVal) (column : option Q) :
  json_number v = Some column <-> stored_as v column.
Proof.
  unfold stored_as. split.
  - destruct v as [| | | q | negative | |]; simpl; try discriminate;
      intros H; injection H as <-; [left | right]; eexists; split; reflexivity.
  - intros [(q & -> & ->) | (negative & -> & ->)]; reflexivity.
Qed.

Lemma insert_evaluation_ok (id score : JsVal) (ws : string) (w w2 : World) :
  insert_evaluation F id ws score w = (Next (Data tt), w2) ->
  exists i column,
    id = JStr i /\ stored_as score column /\
    F AtInsertEvaluation = None /\
    uniq_eval_employee_week (employee_weekly_evaluations (store w)) i ws = true /\
    employees (store w2) = employees (store w) /\
    employee_weekly_evaluations (store w2)
    = employee_weekly_evaluations (store w) ++
      [{| ev_employee_id := i; ev_week_start := ws; ev_overall_score := column;
          ev_created_at := db_clock (store w) |}] /\
    warning_letters (store w2) = warning_letters (store w) /\
    log w2 = log w ++ [InsertEvaluation id ws score].
Proof.
  unfold insert_evaluation.
  destruct (F AtInsertEvaluation); [discriminate |].
  unfold add_evaluation.
  destruct id as [| | | | | i |]; simpl; try discriminate.
  destruct (json_number score) as [column |] eqn:Hc; [| discriminate].
  apply json_number_stored_as in Hc.
  destruct (uniq_eval_employee_week _ i ws) eqn:Hu; [| discriminate].
  intros H; injection H as <-. exists i, column. simpl.
  repeat split; reflexivity || assumption.
Qed.

(** Whatever the insert answers, the table is the old one or the old one
    with one row for a free (employee, week) slot. *)
Lemma insert_evaluation_cases (id score : JsVal) (ws : string) (w : World) :
  exists r w2,
    insert_evaluation F id ws score w = (Next r, w2) /\
    log w2 = log w ++ [InsertEvaluation id ws score] /\
    login_hits w2 = login_hits w /\
    ((exists msg, r = Error msg /\ store w2 = store w) \/
     (r = Data tt)).
Proof.
  unfold insert_evaluation.
  destruct (F AtInsertEvaluation) as [msg |].
  - do 2 eexists. split; [reflexivity |]. repeat split. left. now exists msg.
  - destruct (add_evaluation (store w) id score ws) as [s' | msg] eqn:E.
    + do 2 eexists. split; [reflexivity |]. repeat split. now right.
    + do 2 eexists. split; [reflexivity |]. repeat split. left. now exists msg.
Qed.

Lemma insert_evaluation_duplicate (i ws : string) (score : JsVal) (w : World) :
  uniq_eval_employee_week (employee_weekly_evaluations (store w)) i ws = false ->
  exists msg,
    insert_evaluation F (JStr i) ws score w
    = (Next (Error msg), record (InsertEvaluation (JStr i) ws score) w).
Proof.
  intros Hu. unfold insert_evaluation.
  destruct (F AtInsertEvaluation) as [msg |]; [now exists msg |].
  unfold add_evaluation. simpl. rewrite Hu.
  destruct score; eexists; reflexivity.
Qed.

Lemma assertCanEvaluate_world (user : JsObject) (target : JsVal) (w w1 : World)
    (allowed : bool) :
  assertCanEvaluate F user target w = (Next allowed, w1) ->
  store w1 = store w /\ login_hits w1 = login_hits w /\
  (w1 = w \/ w1 = record (SelectEmployeeById AtTarget target) w).
Proof.
  unfold assertCanEvaluate, bind, select_employee_by_id, ret.
  destruct (strict_eq (obj_get user "role") (JStr "admin")
            || strict_eq (obj_get user "role") (JStr "hr")).
  - intros H; injection H as <- <-. repeat split. now left.
  - destruct (strict_eq (obj_get user "role") (JStr "supervisor")).
    + destruct (lookup F AtTarget (store w) target);
        intros H; injection H as <- <-; repeat split; now right.
    + intros H; injection H as <- <-. repeat split. now left.
Qed.

Lemma assertCanEvaluate_total (user : JsObject) (target : JsVal) (w : World) :
  exists allowed w1, assertCanEvaluate F user target w = (Next allowed, w1).
Proof.
  unfold assertCanEvaluate, bind, select_employee_by_id, ret.
  destruct (strict_eq (obj_get user "role") (JStr "admin")
            || strict_eq (obj_get user "role") (JStr "hr")).
  - now do 2 eexists.
  - destruct (strict_eq (obj_get user "role") (JStr "supervisor")).
    + destruct (lookup F AtTarget (store w) target); now do 2 eexists.
    + now do 2 eexists.
Qed.

End StoreFacts.

Lemma insert_evaluation_failed (F : Faults) (id score : JsVal) (ws detail : string)
    (w w2 : World) :
  insert_evaluation F id ws score w = (Next (Error detail), w2) ->
  w2 = record (InsertEvaluation id ws score) w.
Proof.
  unfold insert_evaluation.
  destruct (F AtInsertEvaluation); [now intros H; injection H as _ <- |].
  destruct (add_evaluation (store w) id score ws); [discriminate |].
  now intros H; injection H as _ <-.
Qed.

Lemma slot_taken (rows : list Evaluation) (e : Evaluation) :
  In e rows ->
  uniq_eval_employee_week rows (ev_employee_id e) (ev_week_start e) = false.
Proof.
  intros Hin. unfold uniq_eval_employee_week. apply negb_false_iff.
  apply existsb_exists. exists e. split; [exact Hin |].
  unfold same_week_slot. now rewrite !String.eqb_refl.
Qed.

Lemma slot_free (rows : list Evaluation) (i ws : string) :
  uniq_eval_employee_week rows i ws = true ->
  ~ In (i, ws) (map (fun e => (ev_employee_id e, ev_week_start e)) rows).
Proof.
  intros Hu Hin. apply in_map_iff in Hin as (e & He & Hin).
  injection He as <- <-. rewrite slot_taken in Hu by assumption. discriminate.
Qed.

Lemma one_per_week_add (rows : list Evaluation) (e : Evaluation) :
  one_per_week rows ->
  uniq_eval_employee_week rows (ev_employee_id e) (ev_week_start e) = true ->
  one_per_week (rows ++ [e]).
Proof.
  unfold one_per_week. intros Hn Hu. rewrite map_app. simpl.
  apply NoDup_app; [exact Hn | | ].
  - constructor; [intros [] | constructor].
  - intros x Hx [<- | []]. now apply (slot_free rows _ _ Hu).
Qed.

(** ** Running a chain *)

Lemma run_bind {A : Type} (c : M A) (k : A -> M Empty_set) (w w1 : World) (a : A) :
  c w = (Next a, w1) -> run (bind c k) w = run (k a) w1.
Proof. intros H. unfold run, bind. now rewrite H. Qed.

Lemma run_bind_stop {A : Type} (c : M A) (k : A -> M Empty_set) (w w1 : World)
    (o : Outcome) :
  c w = (Stop o, w1) -> run (bind c k) w = (o, w1).
Proof. intros H. unfold run, bind. now rewrite H. Qed.

Lemma run_respond (s : nat) (b : Body) (w : World) :
  run (respond s b) w = (response s b, w).
Proof. reflexivity. Qed.

Lemma run_throw (err : string) (w : World) : run (throw err) w = (Thrown err, w).
Proof. reflexivity. Qed.

(** ** Evaluation submission *)

Section Submission.

Variable F : Faults.
Variable now : Z.

(** The handler from the insert on: once the payload is accepted, the
    gate is open and the insert went through, the answer is
    {success: true} whatever the insert into [warning_letters] returns. *)
Lemma handler_committed (user body : JsObject) (w w1 w2 : World) (ws i : string) :
  invalid_payload body = false ->
  assertCanEvaluate F user (obj_get body "employee_id") w = (Next true, w1) ->
  getWeekStartDate now = Some ws ->
  insert_evaluation F (obj_get body "employee_id") ws (obj_get body "overall_score") w1
  = (Next (Data tt), w2) ->
  F AtLast3 = None ->
  obj_get body "employee_id" = JStr i ->
  let recent :=
    firstn 3 (order_desc (filter (fun e => ev_employee_id e =? i)
                                 (employee_weekly_evaluations (store w2)))) in
  let lowCount := List.length (filter low_score recent) in
  run (evaluations_handler F now user body) w
  = (response 200 Success,
     if (2 <=? lowCount)%nat
     then snd (insert_warning F (JStr i)
                 (if (3 <=? lowCount)%nat then "critical" else "high") "active"
                 (record (SelectLast3 (JStr i)) w2))
     else record (SelectLast3 (JStr i)) w2).
Proof.
  intros Hp Hg Hws Hins HF Hid recent lowCount.
  unfold evaluations_handler. fold (invalid_payload body). rewrite Hp.
  rewrite (run_bind _ _ _ _ _ Hg). cbn [negb]. rewrite Hws.
  rewrite (run_bind _ _ _ _ _ Hins).
  assert (Hsel : select_last3 F (obj_get body "employee_id") w2
                 = (Next (Data recent), record (SelectLast3 (JStr i)) w2)).
  { unfold select_last3. rewrite HF. unfold last_three. rewrite Hid. reflexivity. }
  rewrite (run_bind _ _ _ _ _ Hsel). rewrite Hid. fold lowCount.
  destruct (2 <=? lowCount)%nat.
  - destruct (insert_warning F (JStr i) (if (3 <=? lowCount)%nat then "critical" else "high")
                "active" (record (SelectLast3 (JStr i)) w2)) as [[r | o] w'] eqn:E.
    + unfold run, bind, ret. rewrite E. reflexivity.
    + exfalso. unfold insert_warning in E.
      destruct (F AtInsertWarning); [discriminate |].
      destruct (add_warning _ _ _ _); discriminate.
  - reflexivity.
Qed.

Lemma insert_warning_ok (i severity : string) (w : World) :
  F AtInsertWarning = None ->
  severity = "critical" \/ severity = "high" ->
  let w' := snd (insert_warning F (JStr i) severity "active" w) in
  employees (store w') = employees (store w) /\
  employee_weekly_evaluations (store w') = employee_weekly_evaluations (store w) /\
  warning_letters (store w')
  = warning_letters (store w) ++
    [{| wl_employee_id := i; wl_severity := severity; wl_status := "active" |}] /\
  log w' = log w ++ [InsertWarning (JStr i) severity "active"].
Proof.
  intros HF Hs. unfold insert_warning. rewrite HF.
  destruct Hs as [-> | ->]; simpl; repeat split; reflexivity.
Qed.

(** Counting with the handler's test is counting the rows whose score is
    at most 2.5. *)
Lemma low_score_iff (e : Evaluation) : low_score e = true <-> at_most_2_5 e.
Proof.
  unfold low_score, at_most_2_5, js_Number.
  destruct (ev_overall_score e) as [q |].
  - apply Qle_bool_iff.
  - split; [trivial | reflexivity].
Qed.

Lemma counted_low_score (l : list Evaluation) :
  counted at_most_2_5 l (List.length (filter low_score l)).
Proof.
  induction l as [| e l IH]; simpl; [constructor |].
  destruct (low_score e) eqn:He.
  - simpl. apply counted_in; [now apply low_score_iff | exact IH].
  - apply counted_out; [| exact IH].
    intros H. apply low_score_iff in H. congruence.
Qed.

Lemma counted_fun (P : Evaluation -> Prop) (l : list Evaluation) (n m : nat) :
  counted P l n -> counted P l m -> n = m.
Proof.
  intros Hn. revert m.
  induction Hn as [| e l n He Hn IH | e l n He Hn IH]; intros m Hm;
    inversion Hm; subst; try contradiction; auto.
Qed.

Lemma newer_first_trans : Relations_1.Transitive newer_first.
Proof. intros a b c Hab Hbc. unfold newer_first in *. lia. Qed.

Lemma strongly_sorted_app (l1 l2 : list Evaluation) :
  StronglySorted newer_first (l1 ++ l2) ->
  StronglySorted newer_first l1 /\
  forall x e, In x l1 -> In e l2 -> newer_first x e.
Proof.
  induction l1 as [| a l1 IH]; simpl; intros H.
  - split; [constructor | intros x e []].
  - inversion H as [| a' l' Hs Hall]; subst.
    destruct (IH Hs) as [Hs1 Hx]. split.
    + constructor; [exact Hs1 |].
      rewrite Forall_forall in *. intros x Hin. apply Hall, in_or_app. now left.
    + intros x e [<- | Hin] He; [| now apply Hx].
      rewrite Forall_forall in Hall. apply Hall, in_or_app. now right.
Qed.

(** The store's answer to the read: the [n] most recent rows. *)
Lemma most_recent_firstn (n : nat) (rows : list Evaluation) :
  most_recent n rows (firstn n (order_desc rows)).
Proof.
  exists (skipn n (order_desc rows)).
  pose proof (order_desc_sorted rows) as Hs.
  apply Sorted_StronglySorted in Hs; [| exact newer_first_trans].
  rewrite <- (firstn_skipn n (order_desc rows)) in Hs.
  apply strongly_sorted_app in Hs as [Hs1 Hx].
  split; [rewrite firstn_skipn; apply order_desc_perm |].
  split; [now apply StronglySorted_Sorted |].
  split; [| exact Hx].
  rewrite length_firstn. now rewrite (Permutation_length (order_desc_perm rows)).
Qed.

(** C2. After a successful insert the handler reads the three most
    recent evaluations of the employee, newest first, the row just
    inserted being the first of them. It counts those whose score is at
    most 2.5, a row stored without a score (the payload's number was not
    finite) counting as one, and adds one warning letter with status
    active and severity critical for a count of three, high for a count
    of two, and none for a smaller count. *)
Theorem escalation_after_insert (user body : JsObject) (w w1 w2 : World) (ws : string) :
  invalid_payload body = false ->
  assertCanEvaluate F user (obj_get body "employee_id") w = (Next true, w1) ->
  getWeekStartDate now = Some ws ->
  insert_evaluation F (obj_get body "employee_id") ws (obj_get body "overall_score") w1
  = (Next (Data tt), w2) ->
  F AtLast3 = None ->
  F AtInsertWarning = None ->
  stamped_before (store w1) ->
  exists (i : string) (column : option Q) (recent : list Evaluation)
         (lowCount : nat) (w' : World),
    obj_get body "employee_id" = JStr i /\
    stored_as (obj_get body "overall_score") column /\
    last_three (store w2) (JStr i) = Data recent /\
    most_recent 3
      (filter (fun e => ev_employee_id e =? i)
              (employee_weekly_evaluations (store w2))) recent /\
    hd_error recent
    = Some {| ev_employee_id := i; ev_week_start := ws;
              ev_overall_score := column; ev_created_at := db_clock (store w1) |} /\
    counted at_most_2_5 recent lowCount /\
    run (evaluations_handler F now user body) w = (response 200 Success, w') /\
    employee_weekly_evaluations (store w') = employee_weekly_evaluations (store w2) /\
    warning_letters (store w') = warning_letters (store w1) ++ escalated i lowCount /\
    log w'
    = log w2 ++ SelectLast3 (JStr i)
        :: map (fun l => InsertWarning (JStr i) (wl_severity l) (wl_status l))
               (escalated i lowCount).
Proof.
  intros Hp Hg Hws Hins HF3 HFw Hst.
  pose proof (insert_evaluation_ok F _ _ _ _ _ Hins)
    as (i & column & Hid & Hq & _ & _ & _ & Hev & Hwl & Hlog).
  pose proof (handler_committed user body w w1 w2 ws i Hp Hg Hws Hins HF3 Hid) as Hrun.
  cbv zeta in Hrun.
  set (recent := firstn 3 (order_desc (filter (fun e => ev_employee_id e =? i)
                    (employee_weekly_evaluations (store w2))))) in *.
  set (lowCount := List.length (filter low_score recent)) in *.
  exists i, column, recent, lowCount. eexists.
  split; [exact Hid |]. split; [exact Hq |]. split; [reflexivity |].
  split; [apply most_recent_firstn |].
  split; [| split; [apply counted_low_score | split; [exact Hrun |]]].
  - unfold recent. rewrite Hev, filter_app. simpl. rewrite String.eqb_refl.
    rewrite order_desc_newest.
    + reflexivity.
    + intros x Hx. apply filter_In in Hx as [Hx _]. simpl. now apply Hst.
  - unfold escalated, escalation.
    destruct (3 <=? lowCount)%nat eqn:H3.
    + replace (2 <=? lowCount)%nat with true
        by (symmetry; apply Nat.leb_le; apply Nat.leb_le in H3; lia).
      destruct (insert_warning_ok i "critical" (record (SelectLast3 (JStr i)) w2) HFw
                  (or_introl eq_refl)) as (_ & He & Hw & Hl).
      rewrite He, Hw, Hl. simpl. rewrite Hwl, <- app_assoc. repeat split.
    + destruct (2 <=? lowCount)%nat eqn:H2.
      * destruct (insert_warning_ok i "high" (record (SelectLast3 (JStr i)) w2) HFw
                    (or_intror eq_refl)) as (_ & He & Hw & Hl).
        rewrite He, Hw, Hl. simpl. rewrite Hwl, <- app_assoc. repeat split.
      * simpl. rewrite Hwl, app_nil_r. repeat split.
Qed.

Lemma insert_warning_world (id : JsVal) (severity status : string) (w : World) :
  exists r w3,
    insert_warning F id severity status w = (Next r, w3) /\
    employees (store w3) = employees (store w) /\
    employee_weekly_evaluations (store w3) = employee_weekly_evaluations (store w) /\
    (db_clock (store w) <= db_clock (store w3))%Z /\
    log w3 = log w ++ [InsertWarning id severity status].
Proof.
  unfold insert_warning.
  destruct (F AtInsertWarning);
    [do 2 eexists; repeat split; simpl; lia |].
  unfold add_warning. destruct (as_id id);
    [| do 2 eexists; repeat split; simpl; lia].
  destruct (warning_letters_severity_check severity
            && warning_letters_status_check status);
    do 2 eexists; repeat split; simpl; lia.
Qed.

(** The handler always ends, in one of the ways of [Ending]. *)
Lemma handler_cases (user body : JsObject) (w : World) :
  exists o w',
    run (evaluations_handler F now user body) w = (o, w') /\
    Ending F now user body w o w'.
Proof.
  unfold evaluations_handler. fold (invalid_payload body).
  set (eid := obj_get body "employee_id").
  set (score := obj_get body "overall_score").
  destruct (invalid_payload body) eqn:Hp.
  { do 2 eexists. split; [apply run_respond |]. now constructor. }
  destruct (assertCanEvaluate_total F user eid w) as (allowed & w1 & Hg).
  rewrite (run_bind _ _ _ _ _ Hg).
  destruct allowed; cbn [negb].
  2:{ do 2 eexists. split; [apply run_respond |]. now apply EndForbidden. }
  destruct (getWeekStartDate now) as [ws |] eqn:Hws.
  2:{ do 2 eexists. split; [apply run_throw |]. now apply EndInvalidTime. }
  destruct (insert_evaluation_cases F eid score ws w1)
    as (r & w2 & Hins & _ & _ & Hr).
  rewrite (run_bind _ _ _ _ _ Hins).
  destruct r as [[] | detail].
  2:{ do 2 eexists. split; [apply run_respond |].
      now apply (EndInsertFailed F now user body w w1 w2 ws detail). }
  assert (Hsel : exists r3, select_last3 F eid w2
                            = (Next r3, record (SelectLast3 eid) w2)).
  { unfold select_last3. destruct (F AtLast3); eexists; reflexivity. }
  destruct Hsel as [r3 Hsel]. rewrite (run_bind _ _ _ _ _ Hsel).
  destruct r3 as [last3 | msg].
  2:{ do 2 eexists. split; [apply run_throw |].
      apply (EndCommitted F now user body w w1 w2 _ ws _ []); auto. simpl; lia. }
  destruct (2 <=? List.length (filter low_score last3))%nat.
  - destruct (insert_warning_world eid
                (if (3 <=? List.length (filter low_score last3))%nat
                 then "critical" else "high") "active"
                (record (SelectLast3 eid) w2)) as (rw & w3 & Hw & He & Hv & Hc & Hl).
    do 2 eexists. split.
    + unfold run, bind, ret. rewrite Hw. reflexivity.
    + apply (EndCommitted F now user body w w1 w2 _ ws _
               [InsertWarning eid
                  (if (3 <=? List.length (filter low_score last3))%nat
                   then "critical" else "high") "active"]); auto.
      rewrite Hl. simpl. now rewrite <- app_assoc.
  - do 2 eexists. split; [reflexivity |].
    apply (EndCommitted F now user body w w1 w2 _ ws _ []); auto. simpl; lia.
Qed.

Lemma handler_ending (user body : JsObject) (w w' : World) (o : Outcome) :
  run (evaluations_handler F now user body) w = (o, w') ->
  Ending F now user body w o w'.
Proof.
  intros H. destruct (handler_cases user body w) as (o0 & w0 & Hrun & He).
  rewrite H in Hrun. now injection Hrun as <- <-.
Qed.

Lemma ending_table (user body : JsObject) (w w' : World) (o : Outcome) :
  Ending F now user body w o w' -> table_step now body w w'.
Proof.
  intros He. unfold table_step.
  inversion He as [Hp | w1 Hp Hg | w1 Hp Hg Hws | w1 w2 ws detail Hp Hg Hws Hins
                   | w1 w2 w0' ws o0 evs Hp Hg Hws Hins Ho Hemp Hev Hck Hlog]; subst.
  - now left.
  - left. apply assertCanEvaluate_world in Hg as (-> & _). reflexivity.
  - left. apply assertCanEvaluate_world in Hg as (-> & _). reflexivity.
  - left. apply insert_evaluation_failed in Hins as ->.
    apply assertCanEvaluate_world in Hg as (<- & _). reflexivity.
  - right. apply insert_evaluation_ok in Hins
      as (i & q & Hid & Hq & _ & Hu & _ & Hrows & _).
    apply assertCanEvaluate_world in Hg as (Hs & _). rewrite Hs in *.
    exists i, q, ws. repeat split; try assumption. now rewrite Hev.
Qed.

(** With the slot of this employee and week taken, a run changes no table
    and reads or writes nothing after the insert it attempts. *)
Lemma ending_duplicate (user body : JsObject) (w w' : World) (o : Outcome)
    (i ws : string) (e : Evaluation) :
  Ending F now user body w o w' ->
  obj_get body "employee_id" = JStr i ->
  getWeekStartDate now = Some ws ->
  In e (employee_weekly_evaluations (store w)) ->
  ev_employee_id e = i ->
  ev_week_start e = ws ->
  store w' = store w /\
  exists evs,
    log w' = log w ++ evs /\
    existsb is_last3_or_warning evs = false /\
    (In (InsertEvaluation (JStr i) ws (obj_get body "overall_score")) evs ->
     exists detail, o = response 500 (MessageDetail "Insert failed" detail)).
Proof.
  intros He Hid Hws Hin Hi Hw.
  assert (Hgate : forall allowed w1,
            assertCanEvaluate F user (obj_get body "employee_id") w = (Next allowed, w1) ->
            store w1 = store w /\
            exists evs, log w1 = log w ++ evs /\
                        existsb is_last3_or_warning evs = false /\
                        forall v, ~ In (InsertEvaluation (JStr i) ws v) evs).
  { intros allowed w1 Hg. apply assertCanEvaluate_world in Hg as (Hs & _ & [-> | ->]).
    - split; [reflexivity |]. exists []. rewrite app_nil_r. repeat split. intros v [].
    - split; [reflexivity |]. eexists. split; [reflexivity |]. split; [reflexivity |].
      intros v [H | []]. discriminate. }
  inversion He as [Hp | w1 Hp Hg | w1 Hp Hg Hws' | w1 w2 ws' detail Hp Hg Hws' Hins
                   | w1 w2 w0' ws' o0 evs Hp Hg Hws' Hins Ho Hemp Hev Hck Hlog]; subst.
  - split; [reflexivity |]. exists []. rewrite app_nil_r. repeat split. intros [].
  - destruct (Hgate _ _ Hg) as (Hs & evs & Hl & Hn & Hv).
    split; [exact Hs |]. exists evs. repeat split; try assumption.
    intros Hc. now apply Hv in Hc.
  - congruence.
  - rewrite Hws in Hws'. injection Hws' as <-.
    destruct (Hgate _ _ Hg) as (Hs & evs & Hl & Hn & Hv).
    apply insert_evaluation_failed in Hins as ->.
    split; [exact Hs |].
    exists (evs ++ [InsertEvaluation (obj_get body "employee_id")
                      (ev_week_start e) (obj_get body "overall_score")]).
    simpl. rewrite Hl, <- app_assoc. split; [reflexivity |]. split.
    + rewrite existsb_app, Hn. reflexivity.
    + intros _. now exists detail.
  - exfalso. rewrite Hws in Hws'. injection Hws' as <-.
    apply insert_evaluation_ok in Hins as (i' & q & Hid' & _ & _ & Hu & _).
    rewrite Hid in Hid'. injection Hid' as <-.
    apply assertCanEvaluate_world in Hg as (Hs & _). rewrite Hs in Hu.
    rewrite slot_taken in Hu by assumption. discriminate.
Qed.

(** Timestamps stay behind the store's clock. *)
Lemma ending_stamped (user body : JsObject) (w w' : World) (o : Outcome) :
  Ending F now user body w o w' ->
  stamped_before (store w) -> stamped_before (store w').
Proof.
  intros He Hs.
  inversion He as [Hp | w1 Hp Hg | w1 Hp Hg Hws | w1 w2 ws detail Hp Hg Hws Hins
                   | w1 w2 w0' ws o0 evs Hp Hg Hws Hins Ho Hemp Hev Hck Hlog]; subst;
    try assumption;
    apply assertCanEvaluate_world in Hg as (Hst & _); rewrite <- Hst in Hs;
    try assumption.
  - now apply (insert_evaluation_stamped F _ _ _ _ _ _ Hins).
  - apply (insert_evaluation_stamped F _ _ _ _ _ _ Hins) in Hs.
    unfold stamped_before in *. rewrite Hev. intros e Hin.
    specialize (Hs e Hin). lia.
Qed.

Lemma ending_payload (user body : JsObject) (w w' : World) (o : Outcome) :
  Ending F now user body w o w' ->
  (invalid_payload body = true ->
   o = response 400 (Message "Invalid payload") /\ w' = w) /\
  (invalid_payload body = false -> o <> response 400 (Message "Invalid payload")).
Proof.
  intros He.
  inversion He as [Hp | w1 Hp Hg | w1 Hp Hg Hws | w1 w2 ws detail Hp Hg Hws Hins
                   | w1 w2 w0' ws o0 evs Hp Hg Hws Hins Ho Hemp Hev Hck Hlog]; subst;
    split; intros Hp'; try congruence; try discriminate.
  - now split.
  - destruct Ho as [-> | ->]; discriminate.
Qed.

(** The handler reads two properties of the body and nothing else. *)
Lemma handler_reads_two_fields (user body body' : JsObject) :
  obj_get body' "employee_id" = obj_get body "employee_id" ->
  obj_get body' "overall_score" = obj_get body "overall_score" ->
  evaluations_handler F now user body' = evaluations_handler F now user body.
Proof.
  intros H1 H2. unfold evaluations_handler. now rewrite H1, H2.
Qed.

(** C10. The rule does not wait for three evaluations: when the employee
    has one earlier evaluation, with a low score, and the row just
    inserted is low as well, the read returns those two rows only, the
    count is two, and a warning letter with severity high and status
    active is added. *)
Theorem two_low_evaluations_escalate (user body : JsObject) (w w1 w2 : World)
    (ws i : string) (q : Q) (prior : Evaluation) :
  invalid_payload body = false ->
  obj_get body "employee_id" = JStr i ->
  obj_get body "overall_score" = JNum q ->
  assertCanEvaluate F user (JStr i) w = (Next true, w1) ->
  getWeekStartDate now = Some ws ->
  insert_evaluation F (JStr i) ws (JNum q) w1 = (Next (Data tt), w2) ->
  F AtLast3 = None ->
  F AtInsertWarning = None ->
  stamped_before (store w1) ->
  filter (fun e => ev_employee_id e =? i) (employee_weekly_evaluations (store w1))
  = [prior] ->
  low_score prior = true ->
  (q <= 5 # 2)%Q ->
  let row := {| ev_employee_id := i; ev_week_start := ws;
                ev_overall_score := Some q; ev_created_at := db_clock (store w1) |} in
  last_three (store w2) (JStr i) = Data [row; prior] /\
  List.length (filter low_score [row; prior]) = 2%nat /\
  exists w',
    run (evaluations_handler F now user body) w = (response 200 Success, w') /\
    warning_letters (store w')
    = warning_letters (store w1) ++
      [{| wl_employee_id := i; wl_severity := "high"; wl_status := "active" |}] /\
    log w' = log w2 ++ [SelectLast3 (JStr i); InsertWarning (JStr i) "high" "active"].
Proof.
  intros Hp Hid Hq Hg Hws Hins HF3 HFw Hst Hone Hlow Hq25 row.
  pose proof (insert_evaluation_ok F _ _ _ _ _ Hins)
    as (i' & column & Hi' & Hq' & _ & _ & _ & Hev & Hwl & Hlog).
  injection Hi' as <-.
  destruct Hq' as [(q' & Hq' & ->) | (negative & Hq' & _)]; [| discriminate].
  injection Hq' as <-. fold row in Hev.
  assert (Hrecent :
            firstn 3 (order_desc (filter (fun e => ev_employee_id e =? i)
                                         (employee_weekly_evaluations (store w2))))
            = [row; prior]).
  { assert (Hrow : filter (fun e => ev_employee_id e =? i) [row] = [row])
      by (simpl; now rewrite String.eqb_refl).
    rewrite Hev, filter_app, Hone, Hrow.
    rewrite order_desc_newest; [reflexivity |].
    intros x [<- | []]. simpl. apply Hst.
    assert (Hin : In prior [prior]) by now left.
    rewrite <- Hone in Hin. now apply filter_In in Hin. }
  assert (Hcount : List.length (filter low_score [row; prior]) = 2%nat).
  { simpl. rewrite Hlow. unfold low_score at 1. simpl.
    apply Qle_bool_iff in Hq25. rewrite Hq25. reflexivity. }
  split; [unfold last_three; cbn [as_id]; now rewrite Hrecent |].
  split; [exact Hcount |].
  rewrite <- Hid, <- Hq in Hins. rewrite <- Hid in Hg.
  pose proof (handler_committed user body w w1 w2 ws i Hp Hg Hws Hins HF3 Hid) as Hrun.
  cbv zeta in Hrun. rewrite Hrecent, Hcount in Hrun. simpl in Hrun.
  eexists. split; [exact Hrun |].
  destruct (insert_warning_ok i "high" (record (SelectLast3 (JStr i)) w2) HFw
              (or_intror eq_refl)) as (_ & _ & Hw & Hl).
  rewrite Hw, Hl. simpl. rewrite Hwl, <- app_assoc. split; reflexivity.
Qed.

Lemma ending_forbidden_iff (user body : JsObject) (w w' : World) (o : Outcome) :
  Ending F now user body w o w' ->
  invalid_payload body = false ->
  (o = response 403 (Message "Forbidden") <->
   fst (assertCanEvaluate F user (obj_get body "employee_id") w) = Next false).
Proof.
  intros He Hv.
  inversion He as [Hp | w1 Hp Hg | w1 Hp Hg Hws | w1 w2 ws detail Hp Hg Hws Hins
                   | w1 w2 w0' ws o0 evs Hp Hg Hws Hins Ho Hemp Hev Hck Hlog]; subst;
    try congruence; rewrite Hg; simpl; split; try discriminate; try reflexivity.
  destruct Ho as [-> | ->]; discriminate.
Qed.

(** A payload that passes the test carries a number. *)
Lemma valid_payload_number (body : JsObject) :
  invalid_payload body = false ->
  exists column, json_number (obj_get body "overall_score") = Some column.
Proof.
  unfold invalid_payload. intros H. apply orb_false_iff in H as [_ H].
  apply negb_false_iff in H.
  destruct (obj_get body "overall_score"); simpl in H; try discriminate;
    eexists; reflexivity.
Qed.

(** With the slot of this employee and week taken, a request that is let
    through to the insert attempts it, is answered 500 "Insert failed"
    with the store's message, and does nothing after it. *)
Lemma handler_duplicate (user body : JsObject) (w w1 : World) (i ws : string)
    (e : Evaluation) :
  invalid_payload body = false ->
  obj_get body "employee_id" = JStr i ->
  assertCanEvaluate F user (JStr i) w = (Next true, w1) ->
  getWeekStartDate now = Some ws ->
  In e (employee_weekly_evaluations (store w)) ->
  ev_employee_id e = i ->
  ev_week_start e = ws ->
  exists detail,
    run (evaluations_handler F now user body) w
    = (response 500 (MessageDetail "Insert failed" detail),
       record (InsertEvaluation (JStr i) ws (obj_get body "overall_score")) w1) /\
    (F AtInsertEvaluation = None ->
     detail = "duplicate key value violates unique constraint uniq_eval_employee_week") /\
    (forall msg, F AtInsertEvaluation = Some msg -> detail = msg).
Proof.
  intros Hp Hid Hg Hws Hin Hi Hw.
  destruct (valid_payload_number body Hp) as [column Hc].
  assert (Hins : exists detail,
            insert_evaluation F (JStr i) ws (obj_get body "overall_score") w1
            = (Next (Error detail),
               record (InsertEvaluation (JStr i) ws (obj_get body "overall_score")) w1) /\
            (F AtInsertEvaluation = None ->
             detail = "duplicate key value violates unique constraint uniq_eval_employee_week") /\
            (forall msg, F AtInsertEvaluation = Some msg -> detail = msg)).
  { unfold insert_evaluation. destruct (F AtInsertEvaluation) as [msg |].
    - exists msg. split; [reflexivity |]. split; [discriminate |].
      intros msg' H. now injection H.
    - unfold add_evaluation. cbn [as_id]. rewrite Hc.
      apply assertCanEvaluate_world in Hg as (Hst & _). rewrite Hst.
      subst i ws. rewrite (slot_taken _ _ Hin).
      eexists. split; [reflexivity |]. split; [reflexivity | discriminate]. }
  destruct Hins as (detail & Hins & Hd).
  exists detail. split; [| exact Hd].
  unfold evaluations_handler. fold (invalid_payload body). rewrite Hp, Hid.
  rewrite (run_bind _ _ _ _ _ Hg). cbn [negb]. rewrite Hws.
  rewrite (run_bind _ _ _ _ _ Hins). apply run_respond.
Qed.

(** With the slot free and the store answering, a request that is let
    through leaves the row in the table, holding the number of the
    payload as the store takes it, whatever that number is. *)
Lemma handler_persists (user body : JsObject) (w w1 : World) (i ws : string)
    (column : option Q) :
  invalid_payload body = false ->
  obj_get body "employee_id" = JStr i ->
  stored_as (obj_get body "overall_score") column ->
  assertCanEvaluate F user (JStr i) w = (Next true, w1) ->
  getWeekStartDate now = Some ws ->
  F AtInsertEvaluation = None ->
  uniq_eval_employee_week (employee_weekly_evaluations (store w)) i ws = true ->
  employee_weekly_evaluations
    (store (snd (run (evaluations_handler F now user body) w)))
  = employee_weekly_evaluations (store w) ++
    [{| ev_employee_id := i; ev_week_start := ws; ev_overall_score := column;
        ev_created_at := db_clock (store w) |}].
Proof.
  intros Hp Hid Hc Hg Hws HF Hu.
  apply json_number_stored_as in Hc.
  pose proof (assertCanEvaluate_world F _ _ _ _ _ Hg) as (Hst & _).
  assert (Hins : exists w2,
            insert_evaluation F (JStr i) ws (obj_get body "overall_score") w1
            = (Next (Data tt), w2) /\
            employee_weekly_evaluations (store w2)
            = employee_weekly_evaluations (store w) ++
              [{| ev_employee_id := i; ev_week_start := ws;
                  ev_overall_score := column;
                  ev_created_at := db_clock (store w) |}]).
  { unfold insert_evaluation. rewrite HF. unfold add_evaluation. cbn [as_id].
    rewrite Hc, Hst, Hu. eexists. split; reflexivity. }
  destruct Hins as (w2 & Hins & Hrows).
  destruct (handler_cases user body w) as (o & w' & Hrun & He).
  rewrite Hrun. cbn [snd].
  inversion He as [Hp' | w1' Hp' Hg' | w1' Hp' Hg' Hws' | w1' w2' ws' detail Hp' Hg' Hws' Hins'
                   | w1' w2' w0' ws' o0 evs Hp' Hg' Hws' Hins' Ho Hemp Hev Hck Hlog];
    subst; congruence.
Qed.

Lemma handler_reads_user (user user' body : JsObject) :
  obj_get user' "role" = obj_get user "role" ->
  obj_get user' "id" = obj_get user "id" ->
  evaluations_handler F now user' body = evaluations_handler F now user body.
Proof.
  intros Hr Hi. unfold evaluations_handler.
  now rewrite (assertCanEvaluate_reads F user user' _ Hr Hi).
Qed.

End Submission.

(** ** The route as a whole *)

Section Route.

Context {RT : Runtime}.
Variable F : Faults.
Variable env : Env.
Variable now : Z.

Ltac break_match :=
  match goal with
  | |- context [match ?x with _ => _ end] => destruct x eqn:?
  end.

(** [auth] reads the environment and the header only. *)
Lemma auth_world (req : Request) (w w' : World) (s : Step JsObject) :
  auth env now req w = (s, w') -> w' = w.
Proof.
  unfold auth, bind, assertEnv, respond, ret.
  destruct (missing_env env).
  - repeat break_match; intros H; inversion H; subst; reflexivity.
  - intros H; inversion H; subst; reflexivity.
Qed.

(** The chain of [POST /api/evaluations], stage by stage. *)
Lemma post_evaluations_stages (req : Request) (w : World) :
  post_evaluations F env now req w
  = match auth env now req w with
    | (Stop o, _) => (o, w)
    | (Next claims, _) =>
        let w1 := record (SelectEmployeeById AtHydrate (obj_get claims "id")) w in
        match lookup F AtHydrate (store w) (obj_get claims "id") with
        | Error _ => (response 401 (Message "Unauthorized"), w1)
        | Data fresh =>
            let user := obj_set (obj_set claims "role" (JStr (emp_role fresh)))
                                "manager_id" (manager_value fresh) in
            if includes gates (JStr (emp_role fresh))
            then run (evaluations_handler F now user (req_body req)) w1
            else (response 403 (Message "Forbidden"), w1)
        end
    end.
Proof.
  unfold post_evaluations.
  destruct (auth env now req w) as [[claims | o] w'] eqn:Ha;
    pose proof (auth_world _ _ _ _ Ha) as ->.
  - rewrite (run_bind _ _ _ _ _ Ha).
    unfold hydrateUser at 1, select_employee_by_id.
    unfold run at 1, bind at 1, bind at 1.
    destruct (lookup F AtHydrate (store w) (obj_get claims "id")) as [fresh | msg];
      [| reflexivity].
    cbv zeta. unfold ret. unfold requireRole, bind.
    destruct (hydrated_fields claims (emp_role fresh) (manager_value fresh)) as [Hr _].
    cbv zeta in Hr. rewrite Hr. fold gates.
    destruct (includes gates (JStr (emp_role fresh))); reflexivity.
  - now rewrite (run_bind_stop _ _ _ _ _ Ha).
Qed.

Lemma post_evaluations_served (req : Request) (w : World) :
  Served F env now req w (fst (post_evaluations F env now req w))
                         (snd (post_evaluations F env now req w)).
Proof.
  rewrite post_evaluations_stages.
  destruct (auth env now req w) as [[claims | o] wa] eqn:Ha;
    pose proof (auth_world _ _ _ _ Ha) as ->.
  2:{ now apply ServedByAuth. }
  cbv zeta.
  destruct (lookup F AtHydrate (store w) (obj_get claims "id")) as [fresh | msg] eqn:Hl.
  2:{ now apply (ServedUnauthorized F env now req w claims msg). }
  destruct (includes gates (JStr (emp_role fresh))) eqn:Hr.
  2:{ now apply (ServedForbidden F env now req w claims fresh). }
  fold (hydrated claims fresh).
  apply (ServedByHandler F env now req w claims fresh); try assumption.
  apply surjective_pairing.
Qed.

Lemma auth_reads_header (req req' : Request) :
  authorization req' = authorization req ->
  auth env now req' = auth env now req.
Proof. intros H. unfold auth. now rewrite H. Qed.

Lemma served_table (req : Request) (w w' : World) (o : Outcome) :
  Served F env now req w o w' -> table_step now (req_body req) w w'.
Proof.
  intros Hs. destruct Hs as [o Ha | claims msg Ha Hl | claims fresh Ha Hl Hr
                             | claims fresh o w' Ha Hl Hr He]; try now left.
  apply handler_ending, ending_table in He. exact He.
Qed.

Lemma post_evaluations_stamped (req : Request) (w : World) :
  stamped_before (store w) ->
  stamped_before (store (snd (post_evaluations F env now req w))).
Proof.
  intros Hs.
  destruct (post_evaluations_served req w)
    as [o Ha | claims msg Ha Hl | claims fresh Ha Hl Hr
        | claims fresh o w' Ha Hl Hr He]; try assumption.
  apply handler_ending, ending_stamped in He; assumption.
Qed.

Lemma post_evaluations_table (req : Request) (w : World) :
  table_step now (req_body req) w (snd (post_evaluations F env now req w)).
Proof. exact (served_table _ _ _ _ (post_evaluations_served req w)). Qed.

(** *** Payload *)

Lemma truthy_false_iff (v : JsVal) : truthy v = false <-> falsy v.
Proof.
  unfold falsy, missing_or_empty. split.
  - destruct v as [| | b | q | negative | s |]; simpl; intros H;
      try discriminate; auto.
    + destruct b; [discriminate | auto].
    + right. right. exists q. split; [reflexivity |].
      apply negb_false_iff in H. now apply Qeq_bool_iff.
    + apply negb_false_iff, String.eqb_eq in H. subst. auto.
  - intros [[-> | [-> | ->]] | [-> | (q & -> & Hq)]]; try reflexivity.
    simpl. apply negb_false_iff. now apply Qeq_bool_iff.
Qed.

Lemma typeof_number_iff (v : JsVal) : (typeof v =? "number") = true <-> numeric v.
Proof.
  unfold numeric. split.
  - destruct v; simpl; intros H; try discriminate; [left | right]; now eexists.
  - intros [[q ->] | [negative ->]]; reflexivity.
Qed.

Lemma invalid_payload_iff (body : JsObject) :
  invalid_payload body = true <->
  falsy (obj_get body "employee_id") \/ ~ numeric (obj_get body "overall_score").
Proof.
  unfold invalid_payload. rewrite orb_true_iff, !negb_true_iff.
  rewrite truthy_false_iff. rewrite <- typeof_number_iff.
  split; (intros [H | H]; [now left | right]).
  - now rewrite H.
  - now destruct (typeof (obj_get body "overall_score") =? "number").
Qed.

(** C6, as the code has it. On [POST /api/evaluations] the three
    middlewares answer first, whatever the payload: a request stopped by
    [auth], by a failed hydration (401) or by the role gate (403) gets that
    answer. Behind them the answer is 400 "Invalid payload" exactly when
    [employee_id] is falsy (absent, null, the empty string, false or the
    number zero) or [overall_score] is not of type number, and in that
    case the only store call of the request is the hydration lookup of the
    caller: the target is never looked up and no table changes. *)
Theorem payload_check_position (req : Request) (w : World) :
  let out := post_evaluations F env now req w in
  let eid := obj_get (req_body req) "employee_id" in
  let score := obj_get (req_body req) "overall_score" in
  (forall o, auth env now req w = (Stop o, w) -> out = (o, w)) /\
  (forall claims,
     auth env now req w = (Next claims, w) ->
     let w1 := record (SelectEmployeeById AtHydrate (obj_get claims "id")) w in
     (forall detail,
        lookup F AtHydrate (store w) (obj_get claims "id") = Error detail ->
        out = (response 401 (Message "Unauthorized"), w1)) /\
     (forall fresh,
        lookup F AtHydrate (store w) (obj_get claims "id") = Data fresh ->
        (includes gates (JStr (emp_role fresh)) = false ->
         out = (response 403 (Message "Forbidden"), w1)) /\
        (includes gates (JStr (emp_role fresh)) = true ->
         (fst out = response 400 (Message "Invalid payload") <->
          falsy eid \/ ~ numeric score) /\
         (falsy eid \/ ~ numeric score -> snd out = w1)))).
Proof.
  cbv zeta. rewrite post_evaluations_stages. split.
  - intros o Ha. now rewrite Ha.
  - intros claims Ha. rewrite Ha. cbv zeta. split.
    + intros detail Hl. now rewrite Hl.
    + intros fresh Hl. rewrite Hl. split; intros Hr; rewrite Hr; [reflexivity |].
      fold (hydrated claims fresh).
      destruct (handler_cases F now (hydrated claims fresh) (req_body req)
                  (record (SelectEmployeeById AtHydrate (obj_get claims "id")) w))
        as (o & w' & Hrun & Hend).
      rewrite Hrun. simpl fst. simpl snd.
      apply ending_payload in Hend as [Hinv Hval].
      rewrite <- invalid_payload_iff.
      destruct (invalid_payload (req_body req)).
      * destruct (Hinv eq_refl) as [-> ->]. repeat split.
      * split; [split; [intros Ho; now apply Hval in Ho | discriminate] | discriminate].
Qed.

(** *** The evaluations table *)

(** The handler is reached with the world the hydration lookup leaves. *)
Lemma post_evaluations_handler (req : Request) (w : World) (claims : JsObject)
    (fresh : Employee) :
  auth env now req w = (Next claims, w) ->
  lookup F AtHydrate (store w) (obj_get claims "id") = Data fresh ->
  includes gates (JStr (emp_role fresh)) = true ->
  post_evaluations F env now req w
  = run (evaluations_handler F now (hydrated claims fresh) (req_body req))
        (record (SelectEmployeeById AtHydrate (obj_get claims "id")) w).
Proof.
  intros Ha Hl Hr. rewrite post_evaluations_stages, Ha. cbv zeta.
  now rewrite Hl, Hr.
Qed.

(** C9, as the code has it. A submission leaves the evaluations table as
    it was or adds one row, and that row holds the number of the payload
    as the store takes it: the number itself when it is finite, no score
    when it is not. No range is enforced: whatever the number, a request
    that is let through with a free slot, the store answering, leaves
    the row with that number in the table. *)
Theorem persisted_score_is_payload (req : Request) (w : World) :
  let out := post_evaluations F env now req w in
  (employee_weekly_evaluations (store (snd out))
   = employee_weekly_evaluations (store w) \/
   exists i ws column,
     stored_as (obj_get (req_body req) "overall_score") column /\
     employee_weekly_evaluations (store (snd out))
     = employee_weekly_evaluations (store w) ++
       [{| ev_employee_id := i; ev_week_start := ws; ev_overall_score := column;
           ev_created_at := db_clock (store w) |}]) /\
  (forall (claims : JsObject) (fresh : Employee) (w1 : World) (i ws : string)
          (column : option Q),
     auth env now req w = (Next claims, w) ->
     lookup F AtHydrate (store w) (obj_get claims "id") = Data fresh ->
     includes gates (JStr (emp_role fresh)) = true ->
     invalid_payload (req_body req) = false ->
     obj_get (req_body req) "employee_id" = JStr i ->
     stored_as (obj_get (req_body req) "overall_score") column ->
     assertCanEvaluate F (hydrated claims fresh) (JStr i)
       (record (SelectEmployeeById AtHydrate (obj_get claims "id")) w)
     = (Next true, w1) ->
     getWeekStartDate now = Some ws ->
     F AtInsertEvaluation = None ->
     uniq_eval_employee_week (employee_weekly_evaluations (store w)) i ws = true ->
     employee_weekly_evaluations (store (snd out))
     = employee_weekly_evaluations (store w) ++
       [{| ev_employee_id := i; ev_week_start := ws; ev_overall_score := column;
           ev_created_at := db_clock (store w) |}]).
Proof.
  cbv zeta. split.
  - destruct (post_evaluations_table req w)
      as [H | (i & column & ws & _ & Hq & _ & _ & H)]; [now left | right].
    now exists i, ws, column.
  - intros claims fresh w1 i ws column Ha Hl Hr Hp Hid Hc Hg Hws HF Hu.
    rewrite (post_evaluations_handler req w claims fresh Ha Hl Hr).
    exact (handler_persists F now _ _ _ w1 i ws column Hp Hid Hc Hg Hws HF Hu).
Qed.

(** Login and the risk query write to no table. *)
Lemma post_login_store (req : Request) (w : World) :
  store (snd (post_login F env now req w)) = store w.
Proof.
  unfold post_login, run, bind, loginLimiter, login_handler, bind, assertEnv,
    select_employee_by_email, respond, ret.
  destruct (10 <? S (login_hits w))%nat; [reflexivity |].
  destruct (missing_env env); [| reflexivity]. simpl.
  destruct (F AtLogin); [reflexivity |].
  destruct (employee_by_email _ _); [| reflexivity].
  destruct (bcrypt_compare _ _); reflexivity.
Qed.

Lemma get_department_risk_store (req : Request) (w : World) :
  store (snd (get_department_risk F env now req w)) = store w.
Proof.
  unfold get_department_risk.
  destruct (auth env now req w) as [[claims | o] wa] eqn:Ha;
    pose proof (auth_world _ _ _ _ Ha) as ->.
  2:{ now rewrite (run_bind_stop _ _ _ _ _ Ha). }
  rewrite (run_bind _ _ _ _ _ Ha).
  unfold hydrateUser, select_employee_by_id, requireRole, risk_handler,
    select_active_warnings, run, bind, respond, ret.
  destruct (lookup F AtHydrate (store w) (obj_get claims "id")); [| reflexivity].
  destruct (negb (includes _ _)); [reflexivity |].
  destruct (F AtRisk); reflexivity.
Qed.

Lemma served_duplicate (req : Request) (w w' : World) (o : Outcome)
    (i ws : string) (e : Evaluation) :
  Served F env now req w o w' ->
  obj_get (req_body req) "employee_id" = JStr i ->
  getWeekStartDate now = Some ws ->
  In e (employee_weekly_evaluations (store w)) ->
  ev_employee_id e = i ->
  ev_week_start e = ws ->
  store w' = store w /\
  exists evs,
    log w' = log w ++ evs /\
    existsb is_last3_or_warning evs = false /\
    (In (InsertEvaluation (JStr i) ws (obj_get (req_body req) "overall_score")) evs ->
     exists detail, o = response 500 (MessageDetail "Insert failed" detail)).
Proof.
  intros Hs Hid Hws Hin Hi Hw.
  destruct Hs as [o Ha | claims msg Ha Hl | claims fresh Ha Hl Hr
                  | claims fresh o w' Ha Hl Hr He].
  - split; [reflexivity |]. exists []. rewrite app_nil_r. repeat split. intros [].
  - split; [reflexivity |]. eexists. split; [reflexivity |]. split; [reflexivity |].
    intros [H | []]. discriminate.
  - split; [reflexivity |]. eexists. split; [reflexivity |]. split; [reflexivity |].
    intros [H | []]. discriminate.
  - apply handler_ending in He.
    destruct (ending_duplicate F now _ _ _ _ _ i ws e He Hid Hws Hin Hi Hw)
      as (Hst & evs & Hlog & Hno & H500).
    split; [exact Hst |].
    exists (SelectEmployeeById AtHydrate (obj_get claims "id") :: evs).
    split; [rewrite Hlog; simpl; now rewrite <- app_assoc |].
    split; [exact Hno |].
    intros [H | H]; [discriminate | now apply H500].
Qed.

(** C3. For every employee and week at most one evaluation is kept. A
    submission preserves the invariant that no two rows share employee and
    week start; the row it adds, if any, goes to a free slot and carries
    the week start computed from the server's clock, so two requests that
    differ only in other properties of the body (a week start of the
    client's, say) are served alike. When the table already holds a row
    of the employee for the running week, stamped at any instant of that
    week, no request changes the store or reads or writes anything after
    the insert; and a request that is let through to the insert attempts
    it with the Monday of the running week, is answered 500 "Insert
    failed" with the store's message, and the insert is the last call it
    makes. The other routes write to no table. *)
Theorem one_evaluation_per_week (req : Request) (w : World) :
  let out := post_evaluations F env now req w in
  (one_per_week (employee_weekly_evaluations (store w)) ->
   one_per_week (employee_weekly_evaluations (store (snd out)))) /\
  (store (snd (post_login F env now req w)) = store w /\
   store (snd (get_department_risk F env now req w)) = store w /\
   store (snd (get_health w)) = store w) /\
  table_step now (req_body req) w (snd out) /\
  (forall req',
     authorization req' = authorization req ->
     obj_get (req_body req') "employee_id" = obj_get (req_body req) "employee_id" ->
     obj_get (req_body req') "overall_score" = obj_get (req_body req) "overall_score" ->
     post_evaluations F env now req' w = out) /\
  (forall (m earlier : Z) (i : string) (e : Evaluation),
     is_monday m ->
     (m <= last_monday)%Z ->
     (first_instant <= earlier)%Z ->
     (first_instant <= now)%Z ->
     in_week_of m earlier ->
     in_week_of m now ->
     obj_get (req_body req) "employee_id" = JStr i ->
     In e (employee_weekly_evaluations (store w)) ->
     ev_employee_id e = i ->
     getWeekStartDate earlier = Some (ev_week_start e) ->
     (store (snd out) = store w /\
      exists evs,
        log (snd out) = log w ++ evs /\
        existsb is_last3_or_warning evs = false) /\
     (forall (claims : JsObject) (fresh : Employee) (w1 : World),
        auth env now req w = (Next claims, w) ->
        lookup F AtHydrate (store w) (obj_get claims "id") = Data fresh ->
        includes gates (JStr (emp_role fresh)) = true ->
        invalid_payload (req_body req) = false ->
        assertCanEvaluate F (hydrated claims fresh) (JStr i)
          (record (SelectEmployeeById AtHydrate (obj_get claims "id")) w)
        = (Next true, w1) ->
        exists detail,
          out = (response 500 (MessageDetail "Insert failed" detail),
                 record (InsertEvaluation (JStr i) (isoDate m)
                           (obj_get (req_body req) "overall_score")) w1) /\
          (F AtInsertEvaluation = None ->
           detail
           = "duplicate key value violates unique constraint uniq_eval_employee_week") /\
          (forall msg, F AtInsertEvaluation = Some msg -> detail = msg))).
Proof.
  cbv zeta. pose proof (post_evaluations_table req w) as Ht.
  split; [| split; [| split; [exact Ht | split]]].
  2:{ split; [apply post_login_store |].
      split; [apply get_department_risk_store | reflexivity]. }
  - intros Hone. destruct Ht as [-> | (i & q & ws & _ & _ & _ & Hu & ->)];
      [exact Hone |].
    now apply one_per_week_add.
  - intros req' Hauth H1 H2. rewrite !post_evaluations_stages.
    rewrite (auth_reads_header req req' Hauth).
    destruct (auth env now req w) as [[claims | o] wa]; [| reflexivity].
    cbv zeta.
    destruct (lookup F AtHydrate (store w) (obj_get claims "id")); [| reflexivity].
    destruct (includes gates (JStr (emp_role data))); [| reflexivity].
    now rewrite (handler_reads_two_fields F now _ (req_body req) (req_body req')).
  - intros m earlier i e Hm Hl H0e H0n Hwe Hwn Hid Hin Hi Hse.
    rewrite (DateFacts.week_start_in_week m earlier Hm Hl H0e Hwe) in Hse.
    injection Hse as Hse.
    pose proof (DateFacts.week_start_in_week m now Hm Hl H0n Hwn) as Hws.
    split.
    + destruct (served_duplicate req w _ _ i (isoDate m) e
                  (post_evaluations_served req w)) as (Hst & evs & Hlog & Hno & _);
        auto.
      split; [exact Hst |]. now exists evs.
    + intros claims fresh w1 Ha Hlk Hr Hp Hg.
      rewrite (post_evaluations_handler req w claims fresh Ha Hlk Hr).
      apply (handler_duplicate F now _ _ _ w1 i (isoDate m) e); auto.
Qed.

(** *** The risk query *)

(** Without a store error the risk query answers with employee and
    severity of the letters whose status is active, and of no others. *)
Lemma risk_rows_active (w : World) (i severity : string) :
  F AtRisk = None ->
  exists rows,
    run (risk_handler F) w = (response 200 (Rows rows), record SelectActiveWarnings w) /\
    (In (i, severity) rows <->
     In {| wl_employee_id := i; wl_severity := severity; wl_status := "active" |}
        (warning_letters (store w))).
Proof.
  intros HF. unfold risk_handler, run, bind, select_active_warnings. rewrite HF.
  eexists. split; [reflexivity |]. unfold active_warnings.
  rewrite in_map_iff. split.
  - intros ([i' s' st] & Heq & Hin). simpl in Heq. injection Heq as -> ->.
    apply filter_In in Hin as [Hin Hst]. simpl in Hst.
    apply String.eqb_eq in Hst. now subst.
  - intros Hin. eexists. split; [| apply filter_In; split; [exact Hin | reflexivity]].
    reflexivity.
Qed.

(** *** Store errors *)

(** C8, as the code has it. An error of the evaluation insert is answered
    500 with the message "Insert failed" and the store's message as
    detail, an error of the risk query 500 with "Query failed" and the
    store's message. A lookup that fails is answered without the store's
    message: 401 "Unauthorized" in [hydrateUser] on both protected routes,
    403 "Forbidden" in the relationship gate of a supervisor, 400 "Invalid
    credentials" at login. *)
Theorem store_errors_answered :
  (forall user body w w1 w2 ws detail,
     invalid_payload body = false ->
     assertCanEvaluate F user (obj_get body "employee_id") w = (Next true, w1) ->
     getWeekStartDate now = Some ws ->
     insert_evaluation F (obj_get body "employee_id") ws
       (obj_get body "overall_score") w1 = (Next (Error detail), w2) ->
     run (evaluations_handler F now user body) w
     = (response 500 (MessageDetail "Insert failed" detail), w2)) /\
  (forall w detail,
     F AtRisk = Some detail ->
     run (risk_handler F) w
     = (response 500 (MessageDetail "Query failed" detail),
        record SelectActiveWarnings w)) /\
  (forall req w claims detail,
     auth env now req w = (Next claims, w) ->
     lookup F AtHydrate (store w) (obj_get claims "id") = Error detail ->
     fst (post_evaluations F env now req w) = response 401 (Message "Unauthorized") /\
     fst (get_department_risk F env now req w) = response 401 (Message "Unauthorized")) /\
  (forall user body w detail,
     invalid_payload body = false ->
     obj_get user "role" = JStr "supervisor" ->
     lookup F AtTarget (store w) (obj_get body "employee_id") = Error detail ->
     run (evaluations_handler F now user body) w
     = (response 403 (Message "Forbidden"),
        record (SelectEmployeeById AtTarget (obj_get body "employee_id")) w)) /\
  (forall req w detail,
     (login_hits w < 10)%nat ->
     missing_env env = [] ->
     F AtLogin = Some detail ->
     fst (post_login F env now req w) = response 400 (Message "Invalid credentials")).
Proof.
  split; [| split; [| split; [| split]]].
  - intros user body w w1 w2 ws detail Hp Hg Hws Hins.
    unfold evaluations_handler. fold (invalid_payload body). rewrite Hp.
    rewrite (run_bind _ _ _ _ _ Hg). cbn [negb]. rewrite Hws.
    now rewrite (run_bind _ _ _ _ _ Hins).
  - intros w detail HF. unfold risk_handler, run, bind, select_active_warnings.
    now rewrite HF.
  - intros req w claims detail Ha Hl. split.
    + rewrite post_evaluations_stages. rewrite Ha. cbv zeta. now rewrite Hl.
    + unfold get_department_risk. rewrite (run_bind _ _ _ _ _ Ha).
      unfold hydrateUser, select_employee_by_id, run, bind. now rewrite Hl.
  - intros user body w detail Hp Hr Hl.
    unfold evaluations_handler. fold (invalid_payload body). rewrite Hp.
    unfold assertCanEvaluate. rewrite Hr. simpl.
    unfold run, bind, select_employee_by_id. now rewrite Hl.
  - intros req w detail Hh He HF.
    unfold post_login, run, bind, loginLimiter, login_handler, bind, assertEnv.
    destruct (Nat.ltb_spec 10 (S (login_hits w))); [lia |].
    rewrite He. unfold ret, select_employee_by_email. simpl. now rewrite HF.
Qed.

End Route.

(** ** Tokens *)

Lemma Qle_bool_inject_Z (a b : Z) : Qle_bool (inject_Z a) (inject_Z b) = (a <=? b)%Z.
Proof. unfold Qle_bool, inject_Z. simpl. now rewrite !Z.mul_1_r. Qed.

Lemma lookup_employees (F : Faults) (site : Site) (s1 s2 : Store) (id : JsVal) :
  employees s1 = employees s2 -> lookup F site s1 id = lookup F site s2 id.
Proof. intros H. unfold lookup, employee_by_id. now rewrite H. Qed.

Lemma assertCanEvaluate_employees (F : Faults) (user : JsObject) (target : JsVal)
    (w1 w2 : World) :
  employees (store w1) = employees (store w2) ->
  fst (assertCanEvaluate F user target w1) = fst (assertCanEvaluate F user target w2).
Proof.
  intros H. unfold assertCanEvaluate, bind, select_employee_by_id, ret.
  destruct (strict_eq (obj_get user "role") (JStr "admin")
            || strict_eq (obj_get user "role") (JStr "hr")); [reflexivity |].
  destruct (strict_eq (obj_get user "role") (JStr "supervisor")); [| reflexivity].
  rewrite (lookup_employees F AtTarget _ _ target H).
  now destruct (lookup F AtTarget (store w2) target).
Qed.

Lemma ending_not_unauthorized (F : Faults) (now : Z) (user body : JsObject)
    (w w' : World) (o : Outcome) :
  Ending F now user body w o w' -> o <> response 401 (Message "Unauthorized").
Proof.
  intros He.
  inversion He as [Hp | w1 Hp Hg | w1 Hp Hg Hws | w1 w2 ws detail Hp Hg Hws Hins
                   | w1 w2 w0' ws o0 evs Hp Hg Hws Hins Ho Hemp Hev Hck Hlog]; subst;
    try discriminate.
  destruct Ho as [-> | ->]; discriminate.
Qed.

(** C4. The token issued at login carries the employee id, the time of
    issue and an expiry 3600 seconds later, and nothing else; once that
    hour is over it no longer verifies. On a protected request role and
    manager come from the employees table as it is at that moment: two
    requests whose tokens verify to claims with the same id are served
    alike on the same store, whatever else the claims hold; a caller whose
    row has a role outside supervisor, hr and admin is answered 403; a
    supervisor with a valid payload is answered 403 exactly when the
    lookup of the target made during the request does not return a row
    managed by the caller; and the same token presented at two moments is
    refused (401 or 403) at both or at neither whenever the employees
    table is the same at both, whatever else has changed. *)
Theorem token_carries_identity_only {RT : Runtime} (F : Faults) (env : Env) (now : Z)
    (w : World) :
  (forall req u,
     (login_hits w < 10)%nat ->
     missing_env env = [] ->
     F AtLogin = None ->
     employee_by_email (store w) (normalizeEmail (obj_get (req_body req) "email"))
     = Data u ->
     bcrypt_compare (js_String (js_or (obj_get (req_body req) "password") (JStr "")))
                    (emp_password_hash u) = true ->
     let tok := {| tok_payload :=
                     [("id", JStr (emp_id u));
                      ("iat", JNum (inject_Z (now / 1000)));
                      ("exp", JNum (inject_Z (now / 1000 + 3600)))];
                   tok_key := secret_of env |} in
     fst (post_login F env now req w) = response 200 (TokenBody (jwt_encode tok)) /\
     forall later token,
       jwt_decode token = Some tok ->
       jwt_verify later token (secret_of env)
       = if (now / 1000 + 3600 <=? later / 1000)%Z then None
         else Some (tok_payload tok)) /\
  (forall req1 req2 claims1 claims2,
     auth env now req1 w = (Next claims1, w) ->
     auth env now req2 w = (Next claims2, w) ->
     obj_get claims1 "id" = obj_get claims2 "id" ->
     req_body req1 = req_body req2 ->
     post_evaluations F env now req1 w = post_evaluations F env now req2 w) /\
  (forall req claims fresh,
     auth env now req w = (Next claims, w) ->
     lookup F AtHydrate (store w) (obj_get claims "id") = Data fresh ->
     let out := post_evaluations F env now req w in
     (includes gates (JStr (emp_role fresh)) = false ->
      fst out = response 403 (Message "Forbidden")) /\
     (emp_role fresh = "supervisor" ->
      invalid_payload (req_body req) = false ->
      (fst out = response 403 (Message "Forbidden") <->
       ~ exists emp,
           lookup F AtTarget (store w) (obj_get (req_body req) "employee_id")
           = Data emp /\
           emp_manager_id emp = Some (emp_id fresh)))) /\
  (forall req claims later w',
     auth env now req w = (Next claims, w) ->
     auth env later req w' = (Next claims, w') ->
     employees (store w) = employees (store w') ->
     invalid_payload (req_body req) = false ->
     let out := post_evaluations F env now req w in
     let out' := post_evaluations F env later req w' in
     (fst out = response 401 (Message "Unauthorized") <->
      fst out' = response 401 (Message "Unauthorized")) /\
     (fst out = response 403 (Message "Forbidden") <->
      fst out' = response 403 (Message "Forbidden"))).
Proof.
  split; [| split; [| split]].
  - intros req u Hh He HF Hu Hb tok. split.
    + unfold post_login, run, bind, loginLimiter, login_handler, bind, assertEnv.
      destruct (Nat.ltb_spec 10 (S (login_hits w))); [lia |].
      rewrite He. unfold ret, select_employee_by_email. simpl.
      rewrite HF. simpl. rewrite Hu, Hb. reflexivity.
    + intros later token Hd. unfold jwt_verify. rewrite Hd. simpl.
      rewrite String.eqb_refl. now rewrite Qle_bool_inject_Z.
  - intros req1 req2 c1 c2 Ha1 Ha2 Hid Hb. rewrite !post_evaluations_stages.
    rewrite Ha1, Ha2, Hid, Hb. cbv zeta.
    destruct (lookup F AtHydrate (store w) (obj_get c2 "id")) as [fresh | msg];
      [| reflexivity].
    destruct (includes gates (JStr (emp_role fresh))); [| reflexivity].
    destruct (hydrated_fields c1 (emp_role fresh) (manager_value fresh)) as [Hr1 Hi1].
    destruct (hydrated_fields c2 (emp_role fresh) (manager_value fresh)) as [Hr2 Hi2].
    cbv zeta in Hr1, Hi1, Hr2, Hi2.
    rewrite (handler_reads_user F now
               (obj_set (obj_set c2 "role" (JStr (emp_role fresh))) "manager_id"
                        (manager_value fresh))
               (obj_set (obj_set c1 "role" (JStr (emp_role fresh))) "manager_id"
                        (manager_value fresh))); [reflexivity | |]; congruence.
  - intros req claims fresh Ha Hl out. subst out.
    rewrite post_evaluations_stages. rewrite Ha. cbv zeta. rewrite Hl.
    split.
    + intros Hr. now rewrite Hr.
    + intros Hs Hp.
      assert (Hinc : includes gates (JStr (emp_role fresh)) = true)
        by (rewrite Hs; reflexivity).
      rewrite Hinc. fold (hydrated claims fresh).
      set (w1 := record (SelectEmployeeById AtHydrate (obj_get claims "id")) w).
      destruct (handler_cases F now (hydrated claims fresh) (req_body req) w1)
        as (o & w' & Hrun & Hend).
      rewrite Hrun. simpl fst.
      rewrite (ending_forbidden_iff F now _ _ _ _ _ Hend Hp).
      destruct (hydrated_fields claims (emp_role fresh) (manager_value fresh))
        as [Hr Hi].
      cbv zeta in Hr, Hi. fold (hydrated claims fresh) in Hr, Hi.
      rewrite Hs in Hr. rewrite (lookup_data_id _ _ _ _ _ Hl) in Hi.
      destruct (assertCanEvaluate_supervisor F (hydrated claims fresh) (emp_id fresh)
                  (obj_get (req_body req) "employee_id") w1 Hr Hi)
        as (allowed & Hg & Hiff).
      rewrite Hg. simpl fst. change (store w1) with (store w) in Hiff.
      rewrite <- Hiff. destruct allowed; split; congruence.
  - intros req claims later w' Ha Ha' Hemp Hp out out'. subst out out'.
    rewrite !post_evaluations_stages. rewrite Ha, Ha'. cbv zeta.
    rewrite (lookup_employees F AtHydrate _ _ (obj_get claims "id") Hemp).
    destruct (lookup F AtHydrate (store w') (obj_get claims "id")) as [fresh | msg].
    2:{ split; split; intros H; (reflexivity || discriminate). }
    destruct (includes gates (JStr (emp_role fresh))).
    2:{ split; split; intros H; (reflexivity || discriminate). }
    fold (hydrated claims fresh).
    set (w1 := record (SelectEmployeeById AtHydrate (obj_get claims "id")) w).
    set (w1' := record (SelectEmployeeById AtHydrate (obj_get claims "id")) w').
    destruct (handler_cases F now (hydrated claims fresh) (req_body req) w1)
      as (o & w2 & Hrun & Hend).
    destruct (handler_cases F later (hydrated claims fresh) (req_body req) w1')
      as (o' & w2' & Hrun' & Hend').
    rewrite Hrun, Hrun'. simpl fst. split.
    + pose proof (ending_not_unauthorized _ _ _ _ _ _ _ Hend).
      pose proof (ending_not_unauthorized _ _ _ _ _ _ _ Hend').
      split; intros; contradiction.
    + rewrite (ending_forbidden_iff F now _ _ _ _ _ Hend Hp).
      rewrite (ending_forbidden_iff F later _ _ _ _ _ Hend' Hp).
      now rewrite (assertCanEvaluate_employees F (hydrated claims fresh)
                     (obj_get (req_body req) "employee_id") w1 w1' Hemp).
Qed.


(* ================================================================== *)
(** ** The theorems at work on the sample deployment *)

(** Admin [a1] scores [e1] with 2 at [now0]; [e1] has one earlier row,
    scored 2 as well. *)
Lemma escalation_after_insert_witness :
  exists (w' : World),
    let prior := {| ev_employee_id := "e1"; ev_week_start := "2026-10-26";
                    ev_overall_score := Some 2; ev_created_at := 10 |} in
    let row := {| ev_employee_id := "e1"; ev_week_start := "2026-11-02";
                  ev_overall_score := Some 2; ev_created_at := 100 |} in
    last_three
      (store (snd (insert_evaluation no_faults (JStr "e1") "2026-11-02" (JNum 2)
                     Fixture.world0))) (JStr "e1")
    = Data [row; prior] /\
    counted at_most_2_5 [row; prior] 2 /\
    run (evaluations_handler no_faults Fixture.now0 Fixture.hydrated_a1
           (req_body (Fixture.submission "a1" (JStr "e1") (JNum 2)))) Fixture.world0
    = (response 200 Success, w') /\
    warning_letters (store w')
    = [{| wl_employee_id := "e1"; wl_severity := "high"; wl_status := "active" |}] /\
    log w'
    = [InsertEvaluation (JStr "e1") "2026-11-02" (JNum 2);
       SelectLast3 (JStr "e1");
       InsertWarning (JStr "e1") "high" "active"].
Proof.
  assert (H3 : getWeekStartDate Fixture.now0 = Some "2026-11-02"%string)
    by (vm_compute; reflexivity).
  assert (H7 : stamped_before (store Fixture.world0))
    by (intros e [<- | []]; simpl; lia).
  destruct (escalation_after_insert no_faults Fixture.now0 Fixture.hydrated_a1
              (req_body (Fixture.submission "a1" (JStr "e1") (JNum 2)))
              Fixture.world0 Fixture.world0
              (snd (insert_evaluation no_faults (JStr "e1") "2026-11-02" (JNum 2)
                      Fixture.world0))
              "2026-11-02" eq_refl eq_refl H3 eq_refl eq_refl eq_refl H7)
    as (i & column & recent & lowCount & w' & Hid & _ & Hread & _ & _ & Hcount
        & Hrun & _ & Hwl & Hlog).
  assert (Hi : i = "e1"%string) by (vm_compute in Hid; congruence).
  subst i.
  assert (Hrecent : recent
                    = [{| ev_employee_id := "e1"; ev_week_start := "2026-11-02";
                          ev_overall_score := Some 2; ev_created_at := 100 |};
                       {| ev_employee_id := "e1"; ev_week_start := "2026-10-26";
                          ev_overall_score := Some 2; ev_created_at := 10 |}])
    by (vm_compute in Hread; congruence).
  subst recent.
  assert (Hn : lowCount = 2%nat)
    by (exact (counted_fun _ _ _ _ Hcount (counted_low_score _))).
  subst lowCount.
  exists w'. cbv zeta.
  split; [exact Hread |]. split; [exact Hcount |]. split; [exact Hrun |].
  split; [exact Hwl | exact Hlog].
Defined.

Lemma two_low_evaluations_escalate_witness :
  let prior := {| ev_employee_id := "e1"; ev_week_start := "2026-10-26";
                  ev_overall_score := Some 2; ev_created_at := 10 |} in
  let row := {| ev_employee_id := "e1"; ev_week_start := "2026-11-02";
                ev_overall_score := Some (5 # 2); ev_created_at := 100 |} in
  let w2 := snd (insert_evaluation no_faults (JStr "e1") "2026-11-02"
                   (JNum (5 # 2)) Fixture.world0) in
  last_three (store w2) (JStr "e1") = Data [row; prior] /\
  List.length (filter low_score [row; prior]) = 2%nat /\
  exists w',
    run (evaluations_handler no_faults Fixture.now0 Fixture.hydrated_a1
           (req_body (Fixture.submission "a1" (JStr "e1") (JNum (5 # 2)))))
        Fixture.world0
    = (response 200 Success, w') /\
    warning_letters (store w')
    = warning_letters (store Fixture.world0) ++
      [{| wl_employee_id := "e1"; wl_severity := "high"; wl_status := "active" |}] /\
    log w' = log w2 ++ [SelectLast3 (JStr "e1"); InsertWarning (JStr "e1") "high" "active"].
Proof.
  apply (two_low_evaluations_escalate no_faults Fixture.now0 Fixture.hydrated_a1
           (req_body (Fixture.submission "a1" (JStr "e1") (JNum (5 # 2))))
           Fixture.world0 Fixture.world0
           (snd (insert_evaluation no_faults (JStr "e1") "2026-11-02"
                   (JNum (5 # 2)) Fixture.world0))
           "2026-11-02" "e1" (5 # 2)
           {| ev_employee_id := "e1"; ev_week_start := "2026-10-26";
              ev_overall_score := Some 2; ev_created_at := 10 |}).
  - reflexivity.
  - reflexivity.
  - reflexivity.
  - reflexivity.
  - vm_compute. reflexivity.
  - reflexivity.
  - reflexivity.
  - reflexivity.
  - intros e [<- | []]. simpl. lia.
  - reflexivity.
  - reflexivity.
  - apply Qle_refl.
Defined.

(** Half an hour after admin [a1] has scored [e1], supervisor [s1], whose
    report [e1] is, submits a score for [e1]: the insert is attempted and
    refused, and nothing follows it. *)
Lemma one_evaluation_per_week_witness :
  let req := Fixture.submission "s1" (JStr "e1") (JNum 4) in
  let out := post_evaluations (RT := Fixture.runtime) no_faults Fixture.env
               (Fixture.now0 + 1800000) req (Fixture.evaluated 2) in
  fst out
  = response 500
      (MessageDetail "Insert failed"
         "duplicate key value violates unique constraint uniq_eval_employee_week") /\
  store (snd out) = store (Fixture.evaluated 2) /\
  log (snd out)
  = log (Fixture.evaluated 2) ++
    [SelectEmployeeById AtHydrate (JStr "s1");
     SelectEmployeeById AtTarget (JStr "e1");
     InsertEvaluation (JStr "e1") "2026-11-02" (JNum 4)].
Proof.
  cbv zeta.
  destruct (one_evaluation_per_week (RT := Fixture.runtime) no_faults Fixture.env
              (Fixture.now0 + 1800000) (Fixture.submission "s1" (JStr "e1") (JNum 4))
              (Fixture.evaluated 2)) as (_ & _ & _ & _ & H).
  assert (Hm : is_monday Fixture.monday0) by reflexivity.
  assert (Hl : (Fixture.monday0 <= last_monday)%Z)
    by (unfold Fixture.monday0, last_monday; lia).
  assert (H0e : (first_instant <= Fixture.now0)%Z)
    by (unfold Fixture.now0, first_instant; lia).
  assert (H0n : (first_instant <= Fixture.now0 + 1800000)%Z)
    by (unfold Fixture.now0, first_instant; lia).
  assert (Hwe : in_week_of Fixture.monday0 Fixture.now0)
    by (unfold in_week_of, Fixture.monday0, Fixture.now0, msPerDay; lia).
  assert (Hwn : in_week_of Fixture.monday0 (Fixture.now0 + 1800000))
    by (unfold in_week_of, Fixture.monday0, Fixture.now0, msPerDay; lia).
  assert (Hin : In {| ev_employee_id := "e1"; ev_week_start := "2026-11-02";
                      ev_overall_score := Some 2; ev_created_at := 100 |}
                   (employee_weekly_evaluations (store (Fixture.evaluated 2))))
    by (vm_compute; right; left; reflexivity).
  assert (Hse : getWeekStartDate Fixture.now0 = Some "2026-11-02"%string)
    by (vm_compute; reflexivity).
  destruct (H Fixture.monday0 Fixture.now0 "e1"
              {| ev_employee_id := "e1"; ev_week_start := "2026-11-02";
                 ev_overall_score := Some 2; ev_created_at := 100 |}
              Hm Hl H0e H0n Hwe Hwn eq_refl Hin eq_refl Hse) as [_ Hlet].
  assert (Ha : auth (RT := Fixture.runtime) Fixture.env (Fixture.now0 + 1800000)
                 (Fixture.submission "s1" (JStr "e1") (JNum 4)) (Fixture.evaluated 2)
               = (Next Fixture.claims_s1, Fixture.evaluated 2))
    by (vm_compute; reflexivity).
  assert (Hlk : lookup no_faults AtHydrate (store (Fixture.evaluated 2))
                  (obj_get Fixture.claims_s1 "id")
                = Data (Fixture.employee "s1" "supervisor" (Some "h1"%string)))
    by (vm_compute; reflexivity).
  assert (Hg : assertCanEvaluate no_faults
                 (hydrated Fixture.claims_s1
                    (Fixture.employee "s1" "supervisor" (Some "h1"%string)))
                 (JStr "e1")
                 (record (SelectEmployeeById AtHydrate (obj_get Fixture.claims_s1 "id"))
                    (Fixture.evaluated 2))
               = (Next true,
                  record (SelectEmployeeById AtTarget (JStr "e1"))
                    (record (SelectEmployeeById AtHydrate (JStr "s1"))
                       (Fixture.evaluated 2))))
    by (vm_compute; reflexivity).
  destruct (Hlet Fixture.claims_s1
              (Fixture.employee "s1" "supervisor" (Some "h1"%string)) _
              Ha Hlk eq_refl eq_refl Hg) as (detail & Hout & Hd & _).
  rewrite Hout, (Hd eq_refl). cbn [fst snd].
  split; [reflexivity |]. split; [reflexivity |].
  cbn [log record]. rewrite <- !app_assoc. vm_compute. reflexivity.
Defined.

(** Admin [a1] scores [e2] with -3, and with a number that is not
    finite: the table holds the row as sent, and without a score. *)
Lemma persisted_score_is_payload_witness :
  employee_weekly_evaluations
    (store (snd (post_evaluations (RT := Fixture.runtime) no_faults Fixture.env
                   Fixture.now0 (Fixture.submission "a1" (JStr "e2") (JNum (-3)))
                   Fixture.world0)))
  = employee_weekly_evaluations (store Fixture.world0) ++
    [{| ev_employee_id := "e2"; ev_week_start := "2026-11-02";
        ev_overall_score := Some (-3); ev_created_at := 100 |}] /\
  employee_weekly_evaluations
    (store (snd (post_evaluations (RT := Fixture.runtime) no_faults Fixture.env
                   Fixture.now0 (Fixture.submission "a1" (JStr "e2") (JInfinity false))
                   Fixture.world0)))
  = employee_weekly_evaluations (store Fixture.world0) ++
    [{| ev_employee_id := "e2"; ev_week_start := "2026-11-02";
        ev_overall_score := None; ev_created_at := 100 |}].
Proof.
  assert (Hws : getWeekStartDate Fixture.now0 = Some "2026-11-02"%string)
    by (vm_compute; reflexivity).
  split.
  - apply (proj2 (persisted_score_is_payload (RT := Fixture.runtime) no_faults
                    Fixture.env Fixture.now0
                    (Fixture.submission "a1" (JStr "e2") (JNum (-3))) Fixture.world0)
             (tok_payload (Fixture.token_of "a1"))
             (Fixture.employee "a1" "admin" None)
             (record (SelectEmployeeById AtHydrate (JStr "a1")) Fixture.world0)
             "e2" "2026-11-02" (Some (-3)));
      try reflexivity; try exact Hws.
    left. exists (-3). split; reflexivity.
  - apply (proj2 (persisted_score_is_payload (RT := Fixture.runtime) no_faults
                    Fixture.env Fixture.now0
                    (Fixture.submission "a1" (JStr "e2") (JInfinity false))
                    Fixture.world0)
             (tok_payload (Fixture.token_of "a1"))
             (Fixture.employee "a1" "admin" None)
             (record (SelectEmployeeById AtHydrate (JStr "a1")) Fixture.world0)
             "e2" "2026-11-02" None);
      try reflexivity; try exact Hws.
    right. exists false. split; reflexivity.
Defined.

Lemma payload_check_position_witness :
  let out := post_evaluations (RT := Fixture.runtime) no_faults Fixture.env
               Fixture.now0 (Fixture.submission "s1" (JStr "") (JNum 3))
               Fixture.world0 in
  fst out = response 400 (Message "Invalid payload") /\
  snd out = record (SelectEmployeeById AtHydrate (JStr "s1")) Fixture.world0.
Proof.
  cbv zeta.
  destruct (payload_check_position (RT := Fixture.runtime) no_faults Fixture.env
              Fixture.now0 (Fixture.submission "s1" (JStr "") (JNum 3))
              Fixture.world0) as [_ H].
  destruct (H Fixture.claims_s1 eq_refl) as [_ Hf].
  destruct (Hf (Fixture.employee "s1" "supervisor" (Some "h1")) eq_refl) as [_ Hg].
  destruct (Hg eq_refl) as [Hiff Hw].
  assert (Hfalsy : falsy (JStr "") \/ ~ numeric (JNum 3))
    by (left; left; right; right; reflexivity).
  split; [apply Hiff | apply Hw]; exact Hfalsy.
Defined.

Lemma store_errors_answered_witness :
  fst (post_evaluations (RT := Fixture.runtime) Fixture.hydrate_outage Fixture.env
         Fixture.now0 (Fixture.submission "a1" (JStr "e1") (JNum 2)) Fixture.world0)
  = response 401 (Message "Unauthorized") /\
  fst (get_department_risk (RT := Fixture.runtime) Fixture.hydrate_outage Fixture.env
         Fixture.now0 (Fixture.submission "a1" (JStr "e1") (JNum 2)) Fixture.world0)
  = response 401 (Message "Unauthorized").
Proof.
  destruct (store_errors_answered (RT := Fixture.runtime) Fixture.hydrate_outage
              Fixture.env Fixture.now0) as (_ & _ & H & _).
  apply (H (Fixture.submission "a1" (JStr "e1") (JNum 2)) Fixture.world0
           (tok_payload (Fixture.token_of "a1")) "upstream request timeout").
  - reflexivity.
  - reflexivity.
Defined.

(** Login of [s1]; the token of [s1] used on [e2], who reports to [s2];
    and the same token used again a minute later, after an evaluation has
    been stored in between. *)
Lemma token_carries_identity_only_witness :
  let req := Fixture.submission "s1" (JStr "e2") (JNum 4) in
  let out := post_evaluations (RT := Fixture.runtime) no_faults Fixture.env
               Fixture.now0 req Fixture.world0 in
  let out' := post_evaluations (RT := Fixture.runtime) no_faults Fixture.env
                (Fixture.now0 + 60000) req (Fixture.evaluated 2) in
  fst (post_login (RT := Fixture.runtime) no_faults Fixture.env Fixture.now0
         (Fixture.credentials "s1@sims.test" "pw-s1") Fixture.world0)
  = response 200 (TokenBody "jwt:s1") /\
  (fst out = response 403 (Message "Forbidden") <->
   ~ exists emp,
       lookup no_faults AtTarget (store Fixture.world0) (JStr "e2") = Data emp /\
       emp_manager_id emp = Some "s1") /\
  (fst out = response 403 (Message "Forbidden") <->
   fst out' = response 403 (Message "Forbidden")).
Proof.
  cbv zeta.
  destruct (token_carries_identity_only (RT := Fixture.runtime) no_faults Fixture.env
              Fixture.now0 Fixture.world0) as (Hlogin & _ & Hstore & Hlater).
  split; [| split].
  - apply (Hlogin (Fixture.credentials "s1@sims.test" "pw-s1")
             (Fixture.employee "s1" "supervisor" (Some "h1")));
      try reflexivity.
    simpl. lia.
  - destruct (Hstore (Fixture.submission "s1" (JStr "e2") (JNum 4))
                Fixture.claims_s1
                (Fixture.employee "s1" "supervisor" (Some "h1"))
                eq_refl eq_refl) as [_ H].
    exact (H eq_refl eq_refl).
  - assert (Hauth : auth (RT := Fixture.runtime) Fixture.env (Fixture.now0 + 60000)
                      (Fixture.submission "s1" (JStr "e2") (JNum 4))
                      (Fixture.evaluated 2)
                    = (Next Fixture.claims_s1, Fixture.evaluated 2))
      by (vm_compute; reflexivity).
    destruct (Hlater (Fixture.submission "s1" (JStr "e2") (JNum 4))
                Fixture.claims_s1 (Fixture.now0 + 60000)%Z (Fixture.evaluated 2)
                eq_refl Hauth eq_refl eq_refl) as [_ H].
    exact H.
Defined.

(** ** Where the code departs from the specification's wording *)

(** C6 as worded fails: a payload whose [employee_id] is the number 0 is
    neither missing nor empty and its [overall_score] is a number, yet it
    is answered 400 "Invalid payload". *)
Lemma payload_check_counterexample :
  fst (post_evaluations (RT := Fixture.runtime) no_faults Fixture.env Fixture.now0
         (Fixture.submission "a1" (JNum 0) (JNum 3)) Fixture.world0)
  = response 400 (Message "Invalid payload") /\
  ~ (missing_or_empty (JNum 0) \/ ~ numeric (JNum 3)).
Proof.
  split; [vm_compute; reflexivity |].
  intros [[H | [H | H]] | H]; try discriminate.
  apply H. left. now exists 3.
Qed.

(** C8 as worded fails: with the hydration lookup failing the answer is
    401 "Unauthorized" without the store's message; and with the insert
    into [warning_letters] failing, after two low scores, no letter is
    stored and the answer is still {success: true}. *)
Lemma store_errors_counterexample :
  let req := Fixture.submission "a1" (JStr "e1") (JNum 2) in
  let out1 := post_evaluations (RT := Fixture.runtime) Fixture.hydrate_outage
                Fixture.env Fixture.now0 req Fixture.world0 in
  let out2 := post_evaluations (RT := Fixture.runtime) Fixture.warning_outage
                Fixture.env Fixture.now0 req Fixture.world0 in
  (Fixture.hydrate_outage AtHydrate = Some "upstream request timeout" /\
   fst out1 = response 401 (Message "Unauthorized") /\
   ~ reports (fst out1) "upstream request timeout") /\
  (Fixture.warning_outage AtInsertWarning = Some "upstream request timeout" /\
   In (InsertWarning (JStr "e1") "high" "active") (log (snd out2)) /\
   warning_letters (store (snd out2)) = [] /\
   fst out2 = response 200 Success /\
   ~ reports (fst out2) "upstream request timeout").
Proof.
  cbv zeta. split.
  - split; [reflexivity |]. split; [vm_compute; reflexivity |].
    intros (s & m & H). vm_compute in H. discriminate.
  - split; [reflexivity |].
    split; [vm_compute; do 3 right; left; reflexivity |].
    split; [vm_compute; reflexivity |].
    split; [vm_compute; reflexivity |].
    intros (s & m & H). vm_compute in H. discriminate.
Qed.

(** C9 as worded fails: a score of 7 is stored as it comes. *)
Lemma score_range_counterexample :
  fst (post_evaluations (RT := Fixture.runtime) no_faults Fixture.env Fixture.now0
         (Fixture.submission "a1" (JStr "e1") (JNum 7)) Fixture.world0)
  = response 200 Success /\
  employee_weekly_evaluations (store (Fixture.evaluated 7))
  = employee_weekly_evaluations Fixture.store0 ++
    [{| ev_employee_id := "e1"; ev_week_start := "2026-11-02";
        ev_overall_score := Some 7; ev_created_at := 100 |}] /\
  ~ (0 <= 7 /\ 7 <= 5)%Q.
Proof.
  split; [vm_compute; reflexivity | split; [vm_compute; reflexivity |]].
  intros [_ H]. revert H. apply Qlt_not_le. reflexivity.
Qed.

(* ================================================================== *)
(** * Further properties *)

(** ** The week start, continued *)

Module WeekFacts.

Local Open Scope Z_scope.

Ltac zdiv := Z.div_mod_to_equations; lia.

Lemma monday_of_is_monday (d : Z) : is_monday (monday_of d).
Proof.
  unfold is_monday, WeekDay.
  rewrite DateFacts.Day_of_MakeDate by (unfold msPerDay; lia).
  unfold monday_of. zdiv.
Qed.

Lemma monday_of_week (t : Z) : in_week_of (monday_of (Day t)) t.
Proof. unfold in_week_of, monday_of, Day, msPerDay. zdiv. Qed.

Lemma monday_of_last (t : Z) :
  t < (last_monday + 7) * msPerDay -> monday_of (Day t) <= last_monday.
Proof. unfold monday_of, Day, msPerDay, last_monday. intros H. zdiv. Qed.

Lemma length_isoDate (d : Z) : String.length (isoDate d) = 10%nat.
Proof.
  unfold isoDate. cbv zeta.
  repeat rewrite DateFacts.length_append. repeat rewrite DateFacts.length_pad.
  reflexivity.
Qed.

Lemma append_inj_length (a a' b b' : string) :
  String.length a = String.length a' ->
  (a ++ b)%string = (a' ++ b')%string -> a = a' /\ b = b'.
Proof.
  revert a'. induction a as [| c a IH]; intros [| c' a'] Hl H; simpl in *;
    try discriminate.
  - now split.
  - injection H as -> H. injection Hl as Hl.
    destruct (IH a' Hl H) as [-> ->]. now split.
Qed.

Lemma digit_inj (n n' : Z) : digit n = digit n' -> n mod 10 = n' mod 10.
Proof.
  unfold digit. intros H.
  assert (Hn : 0 <= n mod 10 < 10) by (apply Z.mod_pos_bound; lia).
  assert (Hn' : 0 <= n' mod 10 < 10) by (apply Z.mod_pos_bound; lia).
  apply (f_equal nat_of_ascii) in H.
  rewrite !nat_ascii_embedding in H by lia. lia.
Qed.

(** Zero-padded numbers of one width are equal only for equal numbers. *)
Lemma pad_inj (w : nat) (n n' : Z) :
  0 <= n < 10 ^ Z.of_nat w ->
  0 <= n' < 10 ^ Z.of_nat w ->
  pad w n = pad w n' -> n = n'.
Proof.
  revert n n'. induction w as [| w IH]; intros n n' Hn Hn' H.
  - simpl in *. lia.
  - rewrite Nat2Z.inj_succ, Z.pow_succ_r in Hn, Hn' by lia.
    simpl in H.
    apply append_inj_length in H as [Hhi Hlo];
      [| now rewrite !DateFacts.length_pad].
    injection Hlo as Hlo. apply digit_inj in Hlo.
    assert (Hq : n / 10 = n' / 10) by (apply IH; [zdiv | zdiv | exact Hhi]).
    zdiv.
Qed.

(** A day number is recovered from its year, month and date. *)
Lemma Day_of_fields (t : Z) :
  Day t = MakeDay (YearFromTime t) (MonthFromTime t) (DateFromTime t).
Proof. rewrite DateFacts.MakeDay_of_fields. lia. Qed.

(** Two days of the four-digit years with the same written date are the
    same day. *)
Lemma isoDate_inj (d d' : Z) :
  -683009 <= d <= last_monday ->
  -683009 <= d' <= last_monday ->
  isoDate d = isoDate d' -> d = d'.
Proof.
  intros Hd Hd' H. unfold isoDate in H. cbv zeta in H.
  replace (d * msPerDay) with (MakeDate d 0) in H by (unfold MakeDate; lia).
  replace (d' * msPerDay) with (MakeDate d' 0) in H by (unfold MakeDate; lia).
  set (t := MakeDate d 0) in *. set (t' := MakeDate d' 0) in *.
  pose proof (DateFacts.year_of_monday d Hd) as Hy. fold t in Hy.
  pose proof (DateFacts.year_of_monday d' Hd') as Hy'. fold t' in Hy'.
  apply append_inj_length in H as [Hyear H];
    [| now rewrite !DateFacts.length_pad].
  apply (append_inj_length "-" "-") in H as [_ H]; [| reflexivity].
  apply append_inj_length in H as [Hmonth H];
    [| now rewrite !DateFacts.length_pad].
  apply (append_inj_length "-" "-") in H as [_ Hdate]; [| reflexivity].
  pose proof (DateFacts.MonthFromTime_range t) as Hm.
  pose proof (DateFacts.MonthFromTime_range t') as Hm'.
  pose proof (DateFacts.DateFromTime_range t) as Hdt.
  pose proof (DateFacts.DateFromTime_range t') as Hdt'.
  apply pad_inj in Hyear; [| simpl; lia | simpl; lia].
  apply pad_inj in Hmonth; [| simpl; lia | simpl; lia].
  apply pad_inj in Hdate; [| simpl; lia | simpl; lia].
  assert (HD : Day t = Day t').
  { rewrite (Day_of_fields t), (Day_of_fields t').
    rewrite Hyear, Hdate. replace (MonthFromTime t) with (MonthFromTime t') by lia.
    reflexivity. }
  unfold t, t' in HD.
  rewrite !DateFacts.Day_of_MakeDate in HD by (unfold msPerDay; lia).
  exact HD.
Qed.

End WeekFacts.

(** X1. For every instant from the year 100 to the end of the week of
    Monday 9999-12-27, [getWeekStartDate] returns, without throwing, the
    date of a Monday: the one that starts the seven days the instant lies
    in. The answer is ten characters long. *)
Theorem week_start_is_the_monday (t : Z) :
  (first_instant <= t < (last_monday + 7) * msPerDay)%Z ->
  exists m,
    is_monday m /\
    in_week_of m t /\
    getWeekStartDate t = Some (isoDate m) /\
    String.length (isoDate m) = 10%nat.
Proof.
  intros [Hlo Hhi]. exists (monday_of (Day t)).
  split; [apply WeekFacts.monday_of_is_monday |].
  split; [apply WeekFacts.monday_of_week |].
  split; [| apply WeekFacts.length_isoDate].
  apply DateFacts.week_start_in_week.
  - apply WeekFacts.monday_of_is_monday.
  - now apply WeekFacts.monday_of_last.
  - exact Hlo.
  - apply WeekFacts.monday_of_week.
Qed.

Lemma week_start_is_the_monday_witness :
  exists m,
    is_monday m /\
    in_week_of m Fixture.sunday0 /\
    getWeekStartDate Fixture.sunday0 = Some (isoDate m) /\
    String.length (isoDate m) = 10%nat.
Proof.
  apply (week_start_is_the_monday Fixture.sunday0).
  unfold Fixture.sunday0, first_instant, last_monday, msPerDay. lia.
Defined.

(** X2. Instants of different weeks get different week starts: for two
    instants in the weeks of the Mondays [m1] and [m2], the answers of
    [getWeekStartDate] are equal exactly when [m1] and [m2] are the same
    Monday. *)
Theorem week_start_tells_weeks_apart (m1 m2 t1 t2 : Z) :
  is_monday m1 ->
  is_monday m2 ->
  (m1 <= last_monday)%Z ->
  (m2 <= last_monday)%Z ->
  (first_instant <= t1)%Z ->
  (first_instant <= t2)%Z ->
  in_week_of m1 t1 ->
  in_week_of m2 t2 ->
  (getWeekStartDate t1 = getWeekStartDate t2 <-> m1 = m2).
Proof.
  intros Hm1 Hm2 Hl1 Hl2 H1 H2 Hw1 Hw2.
  rewrite (DateFacts.week_start_in_week m1 t1) by assumption.
  rewrite (DateFacts.week_start_in_week m2 t2) by assumption.
  split; [| now intros ->].
  intros H. assert (Hi : isoDate m1 = isoDate m2) by congruence.
  apply WeekFacts.isoDate_inj; [| | exact Hi];
    unfold in_week_of, first_instant, msPerDay in *; lia.
Qed.

Lemma week_start_tells_weeks_apart_witness :
  (* Sunday 23:59:59.999 and the Monday 00:00:00.000 that follows *)
  getWeekStartDate Fixture.sunday0 = getWeekStartDate (Fixture.sunday0 + 1)
  <-> Fixture.monday0 = (Fixture.monday0 + 7)%Z.
Proof.
  apply (week_start_tells_weeks_apart Fixture.monday0 (Fixture.monday0 + 7)
           Fixture.sunday0 (Fixture.sunday0 + 1)).
  - reflexivity.
  - reflexivity.
  - unfold Fixture.monday0, last_monday. lia.
  - unfold Fixture.monday0, last_monday. lia.
  - unfold Fixture.sunday0, first_instant. lia.
  - unfold Fixture.sunday0, first_instant. lia.
  - unfold in_week_of, Fixture.monday0, Fixture.sunday0, msPerDay. lia.
  - unfold in_week_of, Fixture.monday0, Fixture.sunday0, msPerDay. lia.
Defined.

(** ** The mount point *)

Module UrlFacts.

Lemma prefix_append (p r : string) : prefix p (p ++ r) = true.
Proof.
  induction p as [| c p IH]; simpl; [now destruct r |].
  destruct (ascii_dec c c) as [_ | Hc]; [exact IH | now destruct Hc].
Qed.

Lemma drop_append (p r : string) : drop (String.length p) (p ++ r) = r.
Proof. induction p as [| c p IH]; simpl; [reflexivity | exact IH]. Qed.

Lemma prefix_split (p s : string) :
  prefix p s = true -> s = (p ++ drop (String.length p) s)%string.
Proof.
  revert s. induction p as [| c p IH]; intros s H; [reflexivity |].
  destruct s as [| d s]; [discriminate |]. simpl in H.
  destruct (ascii_dec c d) as [<- | _]; [| discriminate].
  simpl. now rewrite <- (IH s H).
Qed.

Lemma replace_first_head (p rep s : string) :
  prefix p s = true ->
  replace_first p rep s = (rep ++ drop (String.length p) s)%string.
Proof. intros H. destruct s; cbn [replace_first]; now rewrite H. Qed.

End UrlFacts.

(** X3. The first middleware strips the mount point of the function from
    the front of the URL and nothing else: [mount ++ rest] becomes [rest],
    or "/" when nothing follows; a URL that does not start with the mount
    point is left as it is; and a URL that is not empty never becomes
    empty. *)
Theorem rewrite_url_strips_mount (url : string) :
  (forall rest,
     url = (mount ++ rest)%string ->
     rewrite_url url = if rest =? "" then "/" else rest) /\
  (prefix mount url = false -> rewrite_url url = url) /\
  (url <> "" -> rewrite_url url <> "").
Proof.
  assert (Hhead : forall rest,
            rewrite_url (mount ++ rest) = if rest =? "" then "/" else rest).
  { intros rest. unfold rewrite_url. rewrite UrlFacts.prefix_append. cbv zeta.
    rewrite UrlFacts.replace_first_head by apply UrlFacts.prefix_append.
    now rewrite UrlFacts.drop_append. }
  split; [intros rest ->; apply Hhead |].
  split; [intros H; unfold rewrite_url; now rewrite H |].
  intros Hne. destruct (prefix mount url) eqn:Hp.
  - rewrite (UrlFacts.prefix_split _ _ Hp), Hhead.
    destruct (String.eqb_spec (drop (String.length mount) url) "");
      [discriminate | assumption].
  - unfold rewrite_url. now rewrite Hp.
Qed.

(** ** Configuration, authentication and login *)

Section Http.

Context {RT : Runtime}.
Variable F : Faults.
Variable env : Env.
Variable now : Z.

Lemma assertEnv_missing (w : World) :
  missing_env env <> [] ->
  assertEnv env w = (Stop (response 500 (MissingEnv (missing_env env))), w).
Proof. unfold assertEnv. destruct (missing_env env); [congruence | reflexivity]. Qed.

Lemma assertEnv_complete (w : World) :
  missing_env env = [] -> assertEnv env w = (Next tt, w).
Proof. intros H. unfold assertEnv. now rewrite H. Qed.

(** X4. With one of the three environment variables unset or empty, the
    two protected routes answer 500 with the names of the missing
    variables and touch neither the store nor the log; the login route
    does the same once past the rate limiter; the health route still
    answers 200. A name is listed exactly when its variable is unset. *)
Theorem missing_env_fails_fast (req : Request) (w : World) :
  missing_env env <> [] ->
  post_evaluations F env now req w
  = (response 500 (MissingEnv (missing_env env)), w) /\
  get_department_risk F env now req w
  = (response 500 (MissingEnv (missing_env env)), w) /\
  ((login_hits w < 10)%nat ->
   post_login F env now req w
   = (response 500 (MissingEnv (missing_env env)),
      {| store := store w; log := log w; login_hits := S (login_hits w) |})) /\
  get_health w = (response 200 Ok, w) /\
  (forall name,
     In name (missing_env env) <->
     (name = "SUPABASE_URL" /\ unset (SUPABASE_URL env) = true) \/
     (name = "SUPABASE_SERVICE_ROLE_KEY" /\
      unset (SUPABASE_SERVICE_ROLE_KEY env) = true) \/
     (name = "JWT_SECRET" /\ unset (JWT_SECRET env) = true)).
Proof.
  intros Hm.
  assert (Hauth : auth env now req w
                  = (Stop (response 500 (MissingEnv (missing_env env))), w)).
  { unfold auth, bind. now rewrite (assertEnv_missing w Hm). }
  split; [unfold post_evaluations; now rewrite (run_bind_stop _ _ _ _ _ Hauth) |].
  split; [unfold get_department_risk; now rewrite (run_bind_stop _ _ _ _ _ Hauth) |].
  split.
  - intros Hh. unfold post_login, run, bind, loginLimiter, login_handler, bind.
    destruct (Nat.ltb_spec 10 (S (login_hits w))); [lia |].
    now rewrite assertEnv_missing by exact Hm.
  - split; [reflexivity |].
    intros name. unfold missing_env.
    destruct (unset (SUPABASE_URL env));
      destruct (unset (SUPABASE_SERVICE_ROLE_KEY env));
      destruct (unset (JWT_SECRET env)); simpl;
      intuition (try discriminate; try congruence; auto).
Qed.

Lemma split_space_spaceless (s : string) :
  spaceless s = true -> split_space s = [s].
Proof.
  induction s as [| c s IH]; simpl; [reflexivity |].
  intros H. apply andb_true_iff in H as [Hc Hs]. apply negb_true_iff in Hc.
  now rewrite Hc, (IH Hs).
Qed.

(** Splitting at the first space. *)
Lemma split_space_app (a b : string) :
  spaceless a = true ->
  split_space (a ++ " " ++ b) = a :: split_space b.
Proof.
  induction a as [| c a IH]; simpl; [reflexivity |].
  intros H. apply andb_true_iff in H as [Hc Hs]. apply negb_true_iff in Hc.
  rewrite Hc. simpl in IH. now rewrite (IH Hs).
Qed.

Lemma auth_of_token (body : JsObject) (w : World) (h scheme token : string)
    (rest : list string) :
  split_space h = scheme :: token :: rest ->
  auth env now {| authorization := Some h; req_body := body |} w
  = bind (assertEnv env)
      (fun _ => if token =? "" then respond 401 (Message "Unauthorized")
                else match jwt_verify now token (secret_of env) with
                     | Some decoded => ret decoded
                     | None => respond 401 (Message "Invalid token")
                     end) w.
Proof. intros Hs. unfold auth. cbn [authorization]. now rewrite Hs. Qed.

(** X5. [auth] takes the second space-separated field of the
    [Authorization] header as the token and looks at nothing else in it:
    any scheme word does as well as "Bearer" and whatever follows the
    token is ignored. Without a header, with a header of one word, or
    with nothing between the first and the second space, the answer is
    401 "Unauthorized". *)
Theorem auth_ignores_scheme (body : JsObject) (scheme token rest : string)
    (w : World) :
  spaceless scheme = true ->
  spaceless token = true ->
  let request h := {| authorization := h; req_body := body |} in
  auth env now (request (Some (scheme ++ " " ++ token)%string)) w
  = auth env now (request (Some ("Bearer " ++ token)%string)) w /\
  auth env now (request (Some (scheme ++ " " ++ token ++ " " ++ rest)%string)) w
  = auth env now (request (Some ("Bearer " ++ token)%string)) w /\
  (missing_env env = [] ->
   auth env now (request None) w
   = (Stop (response 401 (Message "Unauthorized")), w) /\
   auth env now (request (Some scheme)) w
   = (Stop (response 401 (Message "Unauthorized")), w) /\
   auth env now (request (Some (scheme ++ " " ++ "" ++ " " ++ rest)%string)) w
   = (Stop (response 401 (Message "Unauthorized")), w)).
Proof.
  intros Hs Ht request.
  assert (Hb : split_space ("Bearer " ++ token) = ["Bearer"; token]).
  { change ("Bearer " ++ token)%string with ("Bearer" ++ " " ++ token)%string.
    rewrite split_space_app by reflexivity.
    now rewrite split_space_spaceless. }
  assert (H1 : split_space (scheme ++ " " ++ token) = [scheme; token]).
  { rewrite split_space_app by exact Hs. now rewrite split_space_spaceless. }
  assert (H2 : split_space (scheme ++ " " ++ token ++ " " ++ rest)
               = scheme :: token :: split_space rest).
  { rewrite split_space_app by exact Hs. now rewrite split_space_app. }
  subst request. cbv beta.
  split; [| split].
  - rewrite (auth_of_token body w _ _ _ _ H1).
    now rewrite (auth_of_token body w _ _ _ _ Hb).
  - rewrite (auth_of_token body w _ _ _ _ H2).
    now rewrite (auth_of_token body w _ _ _ _ Hb).
  - intros He. split; [| split].
    + unfold auth, bind. now rewrite (assertEnv_complete w He).
    + unfold auth, bind. rewrite (assertEnv_complete w He). cbn [authorization].
      now rewrite split_space_spaceless.
    + assert (H3 : split_space (scheme ++ " " ++ "" ++ " " ++ rest)
                   = scheme :: ""%string :: split_space rest).
      { rewrite split_space_app by exact Hs. now rewrite split_space_app. }
      rewrite (auth_of_token body w _ _ _ _ H3).
      unfold bind. now rewrite (assertEnv_complete w He).
Qed.

(** X6. The token a successful login answers with, sent back by the
    client in the header [apiFetch] builds, passes [auth] with the claims
    it was issued with until 3600 seconds after its issue, and is
    answered 401 "Invalid token" from then on; provided the codec decodes
    what it encoded and the encoded token has no space and is not empty.
    [issued] is the time of the login, [now] that of the later request. *)
Theorem login_token_round_trip (issued : Z) (req : Request) (u : Employee)
    (body' : JsObject) (w w' : World) :
  (login_hits w < 10)%nat ->
  missing_env env = [] ->
  F AtLogin = None ->
  employee_by_email (store w) (normalizeEmail (obj_get (req_body req) "email"))
  = Data u ->
  bcrypt_compare (js_String (js_or (obj_get (req_body req) "password") (JStr "")))
                 (emp_password_hash u) = true ->
  let tok := {| tok_payload :=
                  [("id", JStr (emp_id u));
                   ("iat", JNum (inject_Z (issued / 1000)));
                   ("exp", JNum (inject_Z (issued / 1000 + 3600)))];
                tok_key := secret_of env |} in
  let token := jwt_encode tok in
  jwt_decode token = Some tok ->
  spaceless token = true ->
  token <> ""%string ->
  fst (post_login F env issued req w) = response 200 (TokenBody token) /\
  auth env now {| authorization := Client.authorization_header token;
                  req_body := body' |} w'
  = if (issued / 1000 + 3600 <=? now / 1000)%Z
    then (Stop (response 401 (Message "Invalid token")), w')
    else (Next (tok_payload tok), w').
Proof.
  intros Hh He HF Hu Hb tok token Hd Hs Hne. split.
  - unfold post_login, run, bind, loginLimiter, login_handler, bind, assertEnv.
    destruct (Nat.ltb_spec 10 (S (login_hits w))); [lia |].
    rewrite He. unfold ret, select_employee_by_email. simpl.
    rewrite HF. simpl. rewrite Hu, Hb. reflexivity.
  - assert (Hn : (token =? "") = false) by now apply String.eqb_neq.
    unfold Client.authorization_header. rewrite Hn.
    assert (Hsp : split_space ("Bearer " ++ token) = ["Bearer"; token]).
    { change ("Bearer " ++ token)%string with ("Bearer" ++ " " ++ token)%string.
      rewrite split_space_app by reflexivity.
      now rewrite split_space_spaceless. }
    rewrite (auth_of_token body' w' _ _ _ _ Hsp).
    unfold bind. rewrite (assertEnv_complete w' He), Hn.
    unfold jwt_verify. rewrite Hd. simpl.
    rewrite String.eqb_refl, Qle_bool_inject_Z.
    destruct (issued / 1000 + 3600 <=? now / 1000)%Z; reflexivity.
Qed.

(** X7. Every login request counts against the limit, whatever becomes
    of it, and none writes to a table. The answer is 429 exactly when ten
    requests were counted before; the store is not asked then, so the
    credentials play no part. *)
Theorem login_rate_limited (req : Request) (w : World) :
  let out := post_login F env now req w in
  login_hits (snd out) = S (login_hits w) /\
  store (snd out) = store w /\
  (fst out = response 429 (Text "Too many requests, please try again later.")
   <-> (10 <= login_hits w)%nat) /\
  ((10 <= login_hits w)%nat -> log (snd out) = log w).
Proof.
  cbv zeta.
  unfold post_login, run, bind, loginLimiter, login_handler, bind, assertEnv,
    select_employee_by_email, respond, ret, response.
  destruct (Nat.ltb_spec 10 (S (login_hits w))) as [Hlt | Hge].
  - repeat split; auto; lia.
  - assert (Hno : ~ (10 <= login_hits w)%nat) by lia.
    destruct (missing_env env); cbn [fst snd].
    2:{ repeat split; try reflexivity; try (intros; lia); intros; discriminate. }
    destruct (F AtLogin).
    { repeat split; try reflexivity; try (intros; lia); intros; discriminate. }
    destruct (employee_by_email _ _).
    2:{ repeat split; try reflexivity; try (intros; lia); intros; discriminate. }
    destruct (bcrypt_compare _ _); cbn [negb];
      repeat split; try reflexivity; try (intros; lia); intros; discriminate.
Qed.

(** X12. The login reads role and manager of the row but answers from
    its id and its password hash alone: two stores whose rows for the
    email agree on these two are answered alike. *)
Theorem login_answer_from_id_and_hash (req : Request) (w1 w2 : World)
    (u1 u2 : Employee) :
  login_hits w1 = login_hits w2 ->
  employee_by_email (store w1) (normalizeEmail (obj_get (req_body req) "email"))
  = Data u1 ->
  employee_by_email (store w2) (normalizeEmail (obj_get (req_body req) "email"))
  = Data u2 ->
  emp_id u1 = emp_id u2 ->
  emp_password_hash u1 = emp_password_hash u2 ->
  fst (post_login F env now req w1) = fst (post_login F env now req w2).
Proof.
  intros Hh H1 H2 Hi Hp.
  unfold post_login, run, bind, loginLimiter, login_handler, bind, assertEnv,
    select_employee_by_email, respond, ret.
  rewrite Hh. destruct (10 <? S (login_hits w2))%nat; [reflexivity |].
  destruct (missing_env env); [| reflexivity]. cbn [store record].
  destruct (F AtLogin); [reflexivity |].
  rewrite H1, H2, Hi, Hp.
  destruct (bcrypt_compare _ _); reflexivity.
Qed.

Lemma auth_stop_status (req : Request) (w w' : World) (o : Outcome) :
  auth env now req w = (Stop o, w') ->
  (exists missing, o = response 500 (MissingEnv missing)) \/
  (exists m, o = response 401 (Message m)).
Proof.
  unfold auth, bind, assertEnv, respond, ret.
  destruct (missing_env env) as [| m ms].
  - destruct (authorization req) as [h |];
      [| intros H; inversion H; right; now eexists].
    destruct (nth_error (split_space h) 1) as [token |];
      [| intros H; inversion H; right; now eexists].
    destruct (token =? ""); [intros H; inversion H; right; now eexists |].
    destruct (jwt_verify now token (secret_of env)); intros H; inversion H.
    right; now eexists.
  - intros H; inversion H. left; now eexists.
Qed.

(** The chain of [GET /api/analytics/department-risk], stage by stage. *)
Lemma get_department_risk_stages (req : Request) (w : World) :
  get_department_risk F env now req w
  = match auth env now req w with
    | (Stop o, _) => (o, w)
    | (Next claims, _) =>
        let w1 := record (SelectEmployeeById AtHydrate (obj_get claims "id")) w in
        match lookup F AtHydrate (store w) (obj_get claims "id") with
        | Error _ => (response 401 (Message "Unauthorized"), w1)
        | Data fresh =>
            if includes ["hr"; "admin"] (JStr (emp_role fresh))
            then run (risk_handler F) w1
            else (response 403 (Message "Forbidden"), w1)
        end
    end.
Proof.
  unfold get_department_risk.
  destruct (auth env now req w) as [[claims | o] w'] eqn:Ha;
    pose proof (auth_world _ _ _ _ _ _ Ha) as ->.
  - rewrite (run_bind _ _ _ _ _ Ha).
    unfold hydrateUser at 1, select_employee_by_id.
    unfold run at 1, bind at 1, bind at 1.
    destruct (lookup F AtHydrate (store w) (obj_get claims "id")) as [fresh | msg];
      [| reflexivity].
    cbv zeta. unfold ret. unfold requireRole, bind.
    destruct (hydrated_fields claims (emp_role fresh) (manager_value fresh)) as [Hr _].
    cbv zeta in Hr. rewrite Hr.
    destruct (includes ["hr"; "admin"] (JStr (emp_role fresh))); reflexivity.
  - now rewrite (run_bind_stop _ _ _ _ _ Ha).
Qed.

(** X8. The risk query answers with rows exactly when the token
    verifies, the caller's row is found, its role as stored now is hr or
    admin and the query succeeds. The rows are then employee and severity
    of the active letters, in table order; the store is as before and
    the two reads are all that was sent to it. *)
Theorem risk_query_served (req : Request) (w : World)
    (rows : list (string * string)) :
  let out := get_department_risk F env now req w in
  fst out = response 200 (Rows rows) <->
  exists claims fresh,
    auth env now req w = (Next claims, w) /\
    lookup F AtHydrate (store w) (obj_get claims "id") = Data fresh /\
    (emp_role fresh = "hr" \/ emp_role fresh = "admin") /\
    F AtRisk = None /\
    rows = map (fun l => (wl_employee_id l, wl_severity l))
               (filter (fun l => wl_status l =? "active")
                       (warning_letters (store w))) /\
    store (snd out) = store w /\
    log (snd out)
    = (log w ++ [SelectEmployeeById AtHydrate (obj_get claims "id");
                 SelectActiveWarnings])%list.
Proof.
  cbv zeta. rewrite get_department_risk_stages.
  assert (Hroles : forall r, includes ["hr"; "admin"] (JStr r) = true
                             <-> r = "hr"%string \/ r = "admin"%string).
  { intros r. unfold includes. cbn [existsb strict_eq]. rewrite !orb_true_iff.
    rewrite !String.eqb_eq.
    split; [intros [H | [H | H]]; [auto | auto | discriminate]
           | intros [H | H]; auto]. }
  destruct (auth env now req w) as [[claims | o] wa] eqn:Ha;
    pose proof (auth_world _ _ _ _ _ _ Ha) as ->.
  2:{ split.
      - cbn [fst]. intros ->.
        destruct (auth_stop_status _ _ _ _ Ha) as [[m H] | [m H]]; discriminate.
      - intros (claims & fresh & H & _). discriminate. }
  cbv zeta.
  destruct (lookup F AtHydrate (store w) (obj_get claims "id")) as [fresh | msg] eqn:Hl.
  2:{ split; [intros H; discriminate |].
      intros (c & f & H & Hf & _). injection H as <-. congruence. }
  destruct (includes ["hr"; "admin"] (JStr (emp_role fresh))) eqn:Hr.
  2:{ split; [intros H; discriminate |].
      intros (c & f & H & Hf & Hrole & _). injection H as <-.
      rewrite Hl in Hf. injection Hf as <-.
      apply Hroles in Hrole. congruence. }
  unfold risk_handler, run, bind, select_active_warnings, respond.
  destruct (F AtRisk) as [msg |] eqn:HF.
  { split; [intros H; discriminate |].
    intros (c & f & _ & _ & _ & H & _). discriminate. }
  cbn [fst snd]. split.
  - intros H. injection H as <-. exists claims, fresh.
    split; [first [exact Ha | reflexivity] |].
    split; [first [exact Hl | reflexivity] |].
    split; [now apply Hroles |].
    split; [reflexivity |]. split; [reflexivity |]. split; [reflexivity |].
    unfold record. cbn [log]. now rewrite <- app_assoc.
  - intros (c & f & _ & _ & _ & _ & -> & _). reflexivity.
Qed.

(** X13. With the three environment variables set, each route of the
    function answers and leaves the world exactly as the same route of
    the reference server does with the same secret. *)
Theorem function_matches_reference_server (req : Request) (w : World) :
  missing_env env = [] ->
  post_login F env now req w = Server.post_login F (secret_of env) now req w /\
  post_evaluations F env now req w
  = Server.post_evaluations F (secret_of env) now req w /\
  get_department_risk F env now req w
  = Server.get_department_risk F (secret_of env) now req w.
Proof.
  intros He.
  assert (Ha : forall w0, auth env now req w0
                          = Server.auth (secret_of env) now req w0).
  { intros w0. unfold auth, bind. now rewrite (assertEnv_complete w0 He). }
  split; [| split].
  - unfold post_login, Server.post_login, run, bind, loginLimiter.
    destruct (10 <? S (login_hits w))%nat; [reflexivity |].
    unfold login_handler, bind. now rewrite assertEnv_complete by exact He.
  - unfold post_evaluations, Server.post_evaluations, run, bind.
    now rewrite Ha.
  - unfold get_department_risk, Server.get_department_risk, run, bind.
    now rewrite Ha.
Qed.

End Http.

(** ** What a submission writes *)

Section Submit.

Variable F : Faults.
Variable now : Z.

Lemma select_last3_cases (id : JsVal) (w w3 : World) (r : Reply (list Evaluation)) :
  select_last3 F id w = (Next r, w3) ->
  w3 = record (SelectLast3 id) w /\
  (forall last3, r = Data last3 -> last_three (store w) id = Data last3).
Proof.
  unfold select_last3.
  destruct (F AtLast3); intros H; injection H as <- <-; split; try reflexivity.
  - intros last3 Hl. discriminate.
  - intros last3 Hl. exact Hl.
Qed.

Lemma select_last3_total (id : JsVal) (w : World) :
  exists r, select_last3 F id w = (Next r, record (SelectLast3 id) w).
Proof. unfold select_last3. destruct (F AtLast3); eexists; reflexivity. Qed.

(** The insert of a letter leaves the other tables alone and adds the
    letter or nothing. *)
Lemma insert_warning_cases (id : JsVal) (severity : string) (w w4 : World)
    (r : Reply unit) :
  insert_warning F id severity "active" w = (Next r, w4) ->
  employees (store w4) = employees (store w) /\
  employee_weekly_evaluations (store w4) = employee_weekly_evaluations (store w) /\
  log w4 = log w ++ [InsertWarning id severity "active"] /\
  (warning_letters (store w4) = warning_letters (store w) \/
   exists i,
     id = JStr i /\
     warning_letters (store w4)
     = warning_letters (store w) ++
       [{| wl_employee_id := i; wl_severity := severity; wl_status := "active" |}]).
Proof.
  unfold insert_warning.
  destruct (F AtInsertWarning).
  { intros H; injection H as <- <-. repeat (split; [reflexivity |]). now left. }
  unfold add_warning.
  destruct id as [| | | | | i |]; cbn [as_id];
    try (intros H; injection H as <- <-; repeat (split; [reflexivity |]); now left).
  destruct (warning_letters_severity_check severity
            && warning_letters_status_check "active");
    intros H; injection H as <- <-; repeat (split; [reflexivity |]).
  - right. now exists i.
  - now left.
Qed.

Lemma insert_warning_total (id : JsVal) (severity status : string) (w : World) :
  exists r w4, insert_warning F id severity status w = (Next r, w4).
Proof.
  destruct (insert_warning_world F id severity status w) as (r & w4 & H & _).
  now exists r, w4.
Qed.

(** Every run of the handler is one of the runs of [Submitted]. *)
Lemma handler_submitted (user body : JsObject) (w w' : World) (o : Outcome) :
  run (evaluations_handler F now user body) w = (o, w') ->
  Submitted F now user body w o w'.
Proof.
  unfold evaluations_handler. fold (invalid_payload body).
  set (eid := obj_get body "employee_id").
  set (score := obj_get body "overall_score").
  destruct (invalid_payload body) eqn:Hp.
  { rewrite run_respond. intros H; injection H as <- <-. now constructor. }
  destruct (assertCanEvaluate_total F user eid w) as (allowed & w1 & Hg).
  rewrite (run_bind _ _ _ _ _ Hg).
  destruct allowed; cbn [negb].
  2:{ rewrite run_respond. intros H; injection H as <- <-. now apply SubRefused. }
  destruct (getWeekStartDate now) as [ws |] eqn:Hws.
  2:{ rewrite run_throw. intros H; injection H as <- <-. now apply SubInvalidTime. }
  destruct (insert_evaluation_cases F eid score ws w1) as (r & w2 & Hins & _).
  rewrite (run_bind _ _ _ _ _ Hins).
  destruct r as [[] | detail].
  2:{ rewrite run_respond. intros H; injection H as <- <-.
      now apply (SubInsertFailed F now user body w w1 w2 ws detail). }
  destruct (select_last3_total eid w2) as [r3 Hsel].
  rewrite (run_bind _ _ _ _ _ Hsel).
  destruct r3 as [last3 | msg].
  2:{ rewrite run_throw. intros H; injection H as <- <-.
      now apply (SubReadFailed F now user body w w1 w2 _ ws msg). }
  destruct (Nat.leb_spec 2 (List.length (filter low_score last3))) as [Hle | Hlt].
  - destruct (insert_warning_total eid
                (if (3 <=? List.length (filter low_score last3))%nat
                 then "critical" else "high") "active"
                (record (SelectLast3 eid) w2)) as (rw & w4 & Hw).
    unfold run, bind, ret, respond. rewrite Hw.
    intros H; injection H as <- <-.
    now apply (SubEscalated F now user body w w1 w2
                 (record (SelectLast3 eid) w2) w4 ws
                 (if (3 <=? List.length (filter low_score last3))%nat
                  then "critical" else "high") last3 rw).
  - unfold run, bind, ret, respond. intros H; injection H as <- <-.
    now apply (SubQuiet F now user body w w1 w2 _ ws last3).
Qed.

Lemma submitted_store (user body : JsObject) (w w' : World) (o : Outcome) :
  Submitted F now user body w o w' -> store_effect now body w o w'.
Proof.
  intros Hs. unfold store_effect.
  destruct Hs as [Hp | w1 Hp Hg | w1 Hp Hg Hws | w1 w2 ws detail Hp Hg Hws Hins
                  | w1 w2 w3 ws detail Hp Hg Hws Hins Hsel
                  | w1 w2 w3 ws last3 Hp Hg Hws Hins Hsel Hlow
                  | w1 w2 w3 w4 ws severity last3 r Hp Hg Hws Hins Hsel Hlow Hsev Hw].
  - left. repeat split; discriminate.
  - left. apply assertCanEvaluate_world in Hg as (-> & _). repeat split; discriminate.
  - left. apply assertCanEvaluate_world in Hg as (-> & _). repeat split; discriminate.
  - left. apply insert_evaluation_failed in Hins as ->.
    apply assertCanEvaluate_world in Hg as (Hst & _). cbn [store record].
    repeat split; [exact Hst | discriminate | discriminate].
  - right. apply insert_evaluation_ok in Hins
      as (i & q & Hid & Hq & _ & _ & He & Hrows & Hl & _).
    apply assertCanEvaluate_world in Hg as (Hst & _). rewrite Hst in *.
    apply select_last3_cases in Hsel as [-> _]. cbn [store record].
    exists i, q, ws. repeat (split; [assumption |]). left. split; [now right | exact Hl].
  - right. apply insert_evaluation_ok in Hins
      as (i & q & Hid & Hq & _ & _ & He & Hrows & Hl & _).
    apply assertCanEvaluate_world in Hg as (Hst & _). rewrite Hst in *.
    apply select_last3_cases in Hsel as [-> _]. cbn [store record].
    exists i, q, ws. repeat (split; [assumption |]). left. split; [now left | exact Hl].
  - right. apply insert_evaluation_ok in Hins
      as (i & q & Hid & Hq & _ & _ & He & Hrows & Hl & _).
    apply assertCanEvaluate_world in Hg as (Hst & _). rewrite Hst in *.
    apply select_last3_cases in Hsel as [-> Hread].
    specialize (Hread last3 eq_refl).
    apply insert_warning_cases in Hw as (He4 & Hr4 & _ & Hl4).
    cbn [store record] in He4, Hr4, Hl4.
    exists i, q, ws. split; [assumption |]. split; [assumption |].
    split; [assumption |]. split; [congruence |]. split; [congruence |].
    destruct Hl4 as [Hl4 | (i' & Hi' & Hl4)].
    + left. split; [now left | congruence].
    + right. split; [reflexivity |]. exists severity.
      rewrite Hid in Hi'. injection Hi' as <-.
      split; [congruence |]. cbv zeta.
      rewrite Hid in Hread. unfold last_three in Hread. cbn [as_id] in Hread.
      assert (Hl3 : firstn 3 (order_desc
                        (filter (fun e => ev_employee_id e =? i)
                                (employee_weekly_evaluations (store w2)))) = last3)
        by congruence.
      rewrite Hr4, Hl3. split; assumption.
Qed.

End Submit.

Lemma filter_all {A : Type} (f : A -> bool) (l : list A) :
  List.length (filter f l) = List.length l -> forall x, In x l -> f x = true.
Proof.
  induction l as [| a l IH]; simpl; [intros _ x [] |].
  pose proof (filter_length_le f l) as Hle.
  destruct (f a) eqn:Ha; simpl; intros H x [<- | Hin]; try lia; auto.
Qed.

Section SubmitRoute.

Context {RT : Runtime}.
Variable F : Faults.
Variable env : Env.
Variable now : Z.

Lemma post_evaluations_store (req : Request) (w : World) :
  store_effect now (req_body req) w
    (fst (post_evaluations F env now req w))
    (snd (post_evaluations F env now req w)).
Proof.
  destruct (post_evaluations_served F env now req w)
    as [o Ha | claims msg Ha Hl | claims fresh Ha Hl Hr
        | claims fresh o w' Ha Hl Hr He].
  - left. split; [reflexivity |].
    destruct (auth_stop_status _ _ _ _ _ _ Ha) as [[m ->] | [m ->]];
      split; discriminate.
  - left. repeat split; discriminate.
  - left. repeat split; discriminate.
  - exact (submitted_store F now _ _ _ _ _ (handler_submitted F now _ _ _ _ _ He)).
Qed.

(** X9. What was answered tells what was stored. No submission touches
    the employees table. An answer of success means the evaluation is in
    the table, with the employee of the payload, its score as the store
    takes it (the number when it is finite, no score when it is not) and
    the Monday computed from the clock. Any other response leaves all
    tables as they were; the one way a row is stored without the caller
    being told is the read after the insert failing, which ends in the
    TypeError. *)
Theorem stored_iff_answered (req : Request) (w : World) :
  let out := post_evaluations F env now req w in
  employees (store (snd out)) = employees (store w) /\
  (fst out = response 200 Success ->
   exists i column ws,
     obj_get (req_body req) "employee_id" = JStr i /\
     stored_as (obj_get (req_body req) "overall_score") column /\
     getWeekStartDate now = Some ws /\
     employee_weekly_evaluations (store (snd out))
     = employee_weekly_evaluations (store w) ++
       [{| ev_employee_id := i; ev_week_start := ws; ev_overall_score := column;
           ev_created_at := db_clock (store w) |}]) /\
  (forall s b, fst out = response s b -> s <> 200%nat -> store (snd out) = store w) /\
  (store (snd out) <> store w ->
   fst out = response 200 Success \/
   fst out = Thrown "TypeError: Cannot read properties of null (reading 'filter')").
Proof.
  cbv zeta.
  destruct (post_evaluations_store req w)
    as [(Hst & Hn1 & Hn2)
        | (i & q & ws & Hi & Hq & Hws & He & Hr & Hrest)].
  - rewrite Hst. split; [reflexivity |]. split; [intros H; now destruct Hn1 |].
    split; [reflexivity |]. intros H. now destruct H.
  - split; [exact He |]. split; [intros _; now exists i, q, ws |].
    assert (Ho : fst (post_evaluations F env now req w) = response 200 Success \/
                 fst (post_evaluations F env now req w)
                 = Thrown "TypeError: Cannot read properties of null (reading 'filter')").
    { destruct Hrest as [[Ho _] | [Ho _]]; [exact Ho | now left]. }
    split; [| intros _; exact Ho].
    intros s b Hs Hne. destruct Ho as [Ho | Ho]; rewrite Ho in Hs.
    + injection Hs as <- _. now destruct Hne.
    + discriminate.
Qed.

(** X10. A request turned away with a plain message (401, 403 or the 400
    of the payload check) has sent no write to the store: all it sent are
    lookups in the employees table, two at most, and the store is as it
    was. *)
Theorem refused_requests_write_nothing (req : Request) (w : World) (s : nat)
    (m : string) :
  let out := post_evaluations F env now req w in
  fst out = response s (Message m) ->
  (s = 400 \/ s = 401 \/ s = 403)%nat /\
  store (snd out) = store w /\
  exists evs,
    log (snd out) = log w ++ evs /\
    (List.length evs <= 2)%nat /\
    forall e, In e evs -> exists site id, e = SelectEmployeeById site id.
Proof.
  cbv zeta.
  destruct (post_evaluations_served F env now req w)
    as [o Ha | claims msg Ha Hl | claims fresh Ha Hl Hr
        | claims fresh o w' Ha Hl Hr He].
  - intros ->. destruct (auth_stop_status _ _ _ _ _ _ Ha) as [[x H] | [x H]];
      [discriminate |]. injection H as -> _.
    split; [auto |]. split; [reflexivity |]. exists [].
    split; [now rewrite app_nil_r |]. split; [simpl; lia | intros e []].
  - intros H. injection H as <- _. split; [auto |]. split; [reflexivity |].
    eexists. split; [reflexivity |]. split; [simpl; lia |].
    intros e [<- | []]. now do 2 eexists.
  - intros H. injection H as <- _. split; [auto |]. split; [reflexivity |].
    eexists. split; [reflexivity |]. split; [simpl; lia |].
    intros e [<- | []]. now do 2 eexists.
  - apply handler_submitted in He.
    destruct He as [Hp | w1 Hp Hg | w1 Hp Hg Hws | w1 w2 ws detail Hp Hg Hws Hins
                    | w1 w2 w3 ws detail Hp Hg Hws Hins Hsel
                    | w1 w2 w3 ws last3 Hp Hg Hws Hins Hsel Hlow
                    | w1 w2 w3 w4 ws severity last3 r Hp Hg Hws Hins Hsel Hlow Hsev Hw];
      intros H; try discriminate; injection H as <- _.
    + split; [auto |]. split; [reflexivity |].
      eexists. split; [reflexivity |]. split; [simpl; lia |].
      intros e [<- | []]. now do 2 eexists.
    + split; [auto |].
      apply assertCanEvaluate_world in Hg as (Hst & _ & [-> | ->]).
      * split; [reflexivity |].
        eexists. split; [reflexivity |]. split; [simpl; lia |].
        intros e [<- | []]. now do 2 eexists.
      * split; [reflexivity |].
        exists [SelectEmployeeById AtHydrate (obj_get claims "id");
                SelectEmployeeById AtTarget (obj_get (req_body req) "employee_id")].
        split; [cbn [log record]; now rewrite <- app_assoc |].
        split; [simpl; lia |].
        intros e [<- | [<- | []]]; now do 2 eexists.
Qed.

(** X11. A submission leaves the warning letters as they were or adds
    one letter, never more, and only in a request answered with success
    whose evaluation was stored. The letter is for the employee of the
    payload, active, and critical or high: critical when the employee's
    three most recent evaluations, the new one among them, are all low;
    high when exactly two of the (at most three) most recent are low.
    The check constraints of the letters table are kept. *)
Theorem warning_letter_step (req : Request) (w : World) :
  let out := post_evaluations F env now req w in
  (letters_admissible (warning_letters (store w)) ->
   letters_admissible (warning_letters (store (snd out)))) /\
  (warning_letters (store (snd out)) = warning_letters (store w) \/
   exists i severity,
     obj_get (req_body req) "employee_id" = JStr i /\
     fst out = response 200 Success /\
     warning_letters (store (snd out))
     = warning_letters (store w) ++
       [{| wl_employee_id := i; wl_severity := severity; wl_status := "active" |}] /\
     let recent :=
       firstn 3 (order_desc
         (filter (fun e => ev_employee_id e =? i)
                 (employee_weekly_evaluations (store (snd out))))) in
     ((severity = "critical"%string /\
       List.length recent = 3%nat /\
       forall e, In e recent -> low_score e = true) \/
      (severity = "high"%string /\
       List.length (filter low_score recent) = 2%nat))).
Proof.
  cbv zeta.
  destruct (post_evaluations_store req w)
    as [(Hst & _)
        | (i & q & ws & Hi & _ & _ & _ & _ &
           [[_ Hl] | (Ho & severity & Hl & Hlow & Hsev)])].
  - rewrite Hst. split; [auto | now left].
  - rewrite Hl. split; [auto | now left].
  - cbv zeta in Hlow, Hsev.
    set (recent := firstn 3 (order_desc
                     (filter (fun e => ev_employee_id e =? i)
                        (employee_weekly_evaluations
                           (store (snd (post_evaluations F env now req w))))))) in *.
    assert (Hlen : (List.length recent <= 3)%nat) by apply firstn_le_length.
    pose proof (filter_length_le low_score recent) as Hfl.
    assert (Hcases :
              (severity = "critical"%string /\
               List.length recent = 3%nat /\
               forall e, In e recent -> low_score e = true) \/
              (severity = "high"%string /\
               List.length (filter low_score recent) = 2%nat)).
    { destruct (Nat.leb_spec 3 (List.length (filter low_score recent))) as [H3 | H3].
      - left. split; [exact Hsev |]. split; [lia |].
        apply filter_all. lia.
      - right. split; [exact Hsev | lia]. }
    split.
    + intros Hadm l Hin. rewrite Hl in Hin. apply in_app_or in Hin as [Hin | [<- | []]];
        [now apply Hadm |].
      cbn [wl_severity wl_status].
      destruct Hcases as [[-> _] | [-> _]]; split; reflexivity.
    + right. exists i, severity. repeat (split; [assumption |]). exact Hcases.
Qed.

End SubmitRoute.

(** ** The tally of the risk page *)

Module ClientFacts.

Import Client.

Local Open Scope nat_scope.

Lemma tally_cases (c : Counts) (severity : string) :
  low (tally c severity) + high (tally c severity) + critical (tally c severity)
  + unknown (tally c severity)
  = S (low c + high c + critical c + unknown c) /\
  high (tally c severity) = high c + (if (severity =? "high")%string then 1 else 0) /\
  critical (tally c severity) = critical c + (if (severity =? "critical")%string then 1 else 0) /\
  low (tally c severity) = low c + (if (severity =? "low")%string then 1 else 0) /\
  (warning_letters_severity_check severity = true ->
   unknown (tally c severity) = unknown c + (if (severity =? "medium")%string then 1 else 0)).
Proof.
  unfold tally.
  destruct (String.eqb_spec severity "high") as [-> | Hh].
  { cbn. repeat split; lia. }
  destruct (String.eqb_spec severity "critical") as [-> | Hc].
  { cbn. repeat split; lia. }
  destruct (String.eqb_spec severity "low") as [-> | Hl].
  { cbn. repeat split; lia. }
  cbn [low high critical unknown]. repeat split; try lia.
  unfold warning_letters_severity_check. cbn [existsb].
  rewrite !orb_true_iff, !String.eqb_eq.
  intros [H | [H | [H | [H | H]]]]; try contradiction; try discriminate.
  subst. cbn. lia.
Qed.

Lemma with_severity_cons (severity : string) (r : string * string)
    (rows : list (string * string)) :
  with_severity severity (r :: rows)
  = ((if (snd r =? severity)%string then 1 else 0) + with_severity severity rows)%nat.
Proof. unfold with_severity. cbn [filter]. now destruct (snd r =? severity)%string. Qed.

Lemma counts_from (rows : list (string * string)) (c0 : Counts) :
  let c := fold_left (fun c r => tally c (snd r)) rows c0 in
  low c + high c + critical c + unknown c
  = low c0 + high c0 + critical c0 + unknown c0 + List.length rows /\
  high c = high c0 + with_severity "high" rows /\
  critical c = critical c0 + with_severity "critical" rows /\
  low c = low c0 + with_severity "low" rows /\
  ((forall r, In r rows -> warning_letters_severity_check (snd r) = true) ->
   unknown c = unknown c0 + with_severity "medium" rows).
Proof.
  cbv zeta. revert c0.
  induction rows as [| r rows IH]; intros c0.
  { cbn. repeat split; lia. }
  cbn [fold_left List.length].
  destruct (IH (tally c0 (snd r))) as (Hsum & Hh & Hc & Hl & Hu).
  destruct (tally_cases c0 (snd r)) as (Tsum & Th & Tc & Tl & Tu).
  rewrite !with_severity_cons.
  split; [lia |]. split; [lia |]. split; [lia |]. split; [lia |].
  intros Hall. rewrite Hu by (intros x Hx; apply Hall; now right).
  rewrite Tu by (apply Hall; now left). lia.
Qed.

End ClientFacts.

(** X14. The risk page counts every row once: the four counters add up
    to the number of rows, and the counters for high, critical and low
    are the numbers of rows of that severity. For rows that pass the
    severity check of the letters table, as the rows served from an
    admissible table do, the counter shown as unknown is the number of
    rows of severity medium. *)
Theorem risk_page_counts (rows : list (string * string)) :
  let c := Client.counts rows in
  (Client.low c + Client.high c + Client.critical c + Client.unknown c
   = List.length rows)%nat /\
  Client.high c = with_severity "high" rows /\
  Client.critical c = with_severity "critical" rows /\
  Client.low c = with_severity "low" rows /\
  ((forall r, In r rows -> warning_letters_severity_check (snd r) = true) ->
   Client.unknown c = with_severity "medium" rows) /\
  (forall s,
     letters_admissible (warning_letters s) ->
     rows = map (fun l => (wl_employee_id l, wl_severity l)) (active_warnings s) ->
     Client.unknown c = with_severity "medium" rows).
Proof.
  cbv zeta. unfold Client.counts.
  destruct (ClientFacts.counts_from rows
              {| Client.low := 0; Client.high := 0; Client.critical := 0;
                 Client.unknown := 0 |}) as (Hsum & Hh & Hc & Hl & Hu).
  cbv zeta in Hsum, Hh, Hc, Hl, Hu. cbn [Client.low Client.high Client.critical
    Client.unknown Nat.add] in Hsum, Hh, Hc, Hl, Hu.
  repeat (split; [assumption |]).
  intros s Hadm ->. apply Hu.
  intros r Hin. apply in_map_iff in Hin as (l & <- & Hin).
  unfold active_warnings in Hin. apply filter_In in Hin as [Hin _].
  cbn [snd]. now apply Hadm.
Qed.

(** ** The further properties at work on the sample deployment *)

Lemma rewrite_url_strips_mount_witness :
  rewrite_url "/.netlify/functions/api/api/login" = "/api/login"%string /\
  rewrite_url "/.netlify/functions/api" = "/"%string /\
  rewrite_url "/api/health" = "/api/health"%string.
Proof.
  split; [| split].
  - exact (proj1 (rewrite_url_strips_mount "/.netlify/functions/api/api/login")
             "/api/login"%string eq_refl).
  - exact (proj1 (rewrite_url_strips_mount "/.netlify/functions/api")
             ""%string eq_refl).
  - exact (proj1 (proj2 (rewrite_url_strips_mount "/api/health")) eq_refl).
Defined.

Lemma missing_env_fails_fast_witness :
  post_evaluations (RT := Fixture.runtime) no_faults
    {| SUPABASE_URL := Some "https://db.sims.test"%string;
       SUPABASE_SERVICE_ROLE_KEY := Some "service-role-key"%string;
       JWT_SECRET := None |}
    Fixture.now0 (Fixture.submission "a1" (JStr "e1") (JNum 2)) Fixture.world0
  = (response 500 (MissingEnv ["JWT_SECRET"%string]), Fixture.world0).
Proof.
  assert (H : missing_env
                {| SUPABASE_URL := Some "https://db.sims.test"%string;
                   SUPABASE_SERVICE_ROLE_KEY := Some "service-role-key"%string;
                   JWT_SECRET := None |} <> []) by (vm_compute; discriminate).
  exact (proj1 (missing_env_fails_fast (RT := Fixture.runtime) no_faults _
                  Fixture.now0 (Fixture.submission "a1" (JStr "e1") (JNum 2))
                  Fixture.world0 H)).
Defined.

Lemma auth_ignores_scheme_witness :
  auth (RT := Fixture.runtime) Fixture.env Fixture.now0
    {| authorization := Some "Token jwt:s1"%string; req_body := [] |} Fixture.world0
  = auth (RT := Fixture.runtime) Fixture.env Fixture.now0
      {| authorization := Some "Bearer jwt:s1"%string; req_body := [] |} Fixture.world0.
Proof.
  exact (proj1 (auth_ignores_scheme (RT := Fixture.runtime) Fixture.env Fixture.now0
                  [] "Token" "jwt:s1" "x" Fixture.world0 eq_refl eq_refl)).
Defined.

Lemma login_token_round_trip_witness :
  fst (post_login (RT := Fixture.runtime) no_faults Fixture.env Fixture.now0
         (Fixture.credentials "s1@sims.test" "pw-s1") Fixture.world0)
  = response 200 (TokenBody "jwt:s1") /\
  auth (RT := Fixture.runtime) Fixture.env 1793665000000
    {| authorization := Some "Bearer jwt:s1"%string; req_body := [] |} Fixture.world0
  = (Next Fixture.claims_s1, Fixture.world0).
Proof.
  assert (H1 : (login_hits Fixture.world0 < 10)%nat) by (simpl; lia).
  assert (H4 : employee_by_email (store Fixture.world0)
                 (normalizeEmail (RT := Fixture.runtime)
                    (obj_get (req_body (Fixture.credentials "s1@sims.test" "pw-s1"))
                             "email"))
               = Data (Fixture.employee "s1" "supervisor" (Some "h1"%string)))
    by (vm_compute; reflexivity).
  assert (H5 : bcrypt_compare (Runtime := Fixture.runtime)
                 (js_String (Runtime := Fixture.runtime)
                    (js_or (obj_get (req_body (Fixture.credentials "s1@sims.test" "pw-s1"))
                                    "password") (JStr "")))
                 (emp_password_hash (Fixture.employee "s1" "supervisor" (Some "h1"%string)))
               = true)
    by (vm_compute; reflexivity).
  pose proof (login_token_round_trip (RT := Fixture.runtime) no_faults Fixture.env
                1793665000000 Fixture.now0
                (Fixture.credentials "s1@sims.test" "pw-s1")
                (Fixture.employee "s1" "supervisor" (Some "h1"%string))
                [] Fixture.world0 Fixture.world0 H1 eq_refl eq_refl H4 H5) as H.
  cbv zeta in H.
  assert (Hd : jwt_decode (Runtime := Fixture.runtime) "jwt:s1"
               = Some (Fixture.token_of "s1")) by (vm_compute; reflexivity).
  specialize (H Hd eq_refl).
  assert (Hne : "jwt:s1"%string <> ""%string) by discriminate.
  specialize (H Hne).
  vm_compute in H. vm_compute. exact H.
Defined.

Lemma refused_requests_write_nothing_witness :
  let out := post_evaluations (RT := Fixture.runtime) no_faults Fixture.env
               Fixture.now0 (Fixture.submission "s1" (JStr "e2") (JNum 3))
               Fixture.world0 in
  (403 = 400 \/ 403 = 401 \/ 403 = 403)%nat /\
  store (snd out) = store Fixture.world0 /\
  exists evs,
    log (snd out) = log Fixture.world0 ++ evs /\
    (List.length evs <= 2)%nat /\
    forall e, In e evs -> exists site id, e = SelectEmployeeById site id.
Proof.
  apply (refused_requests_write_nothing (RT := Fixture.runtime) no_faults Fixture.env
           Fixture.now0 (Fixture.submission "s1" (JStr "e2") (JNum 3))
           Fixture.world0 403 "Forbidden").
  vm_compute. reflexivity.
Defined.

Lemma function_matches_reference_server_witness :
  post_login (RT := Fixture.runtime) no_faults Fixture.env Fixture.now0
    (Fixture.credentials "s1@sims.test" "pw-s1") Fixture.world0
  = Server.post_login (RT := Fixture.runtime) no_faults (secret_of Fixture.env)
      Fixture.now0 (Fixture.credentials "s1@sims.test" "pw-s1") Fixture.world0 /\
  post_evaluations (RT := Fixture.runtime) no_faults Fixture.env Fixture.now0
    (Fixture.credentials "s1@sims.test" "pw-s1") Fixture.world0
  = Server.post_evaluations (RT := Fixture.runtime) no_faults (secret_of Fixture.env)
      Fixture.now0 (Fixture.credentials "s1@sims.test" "pw-s1") Fixture.world0 /\
  get_department_risk (RT := Fixture.runtime) no_faults Fixture.env Fixture.now0
    (Fixture.credentials "s1@sims.test" "pw-s1") Fixture.world0
  = Server.get_department_risk (RT := Fixture.runtime) no_faults
      (secret_of Fixture.env) Fixture.now0
      (Fixture.credentials "s1@sims.test" "pw-s1") Fixture.world0.
Proof.
  exact (function_matches_reference_server (RT := Fixture.runtime) no_faults
           Fixture.env Fixture.now0 (Fixture.credentials "s1@sims.test" "pw-s1")
           Fixture.world0 eq_refl).
Defined.

Lemma login_answer_from_id_and_hash_witness :
  fst (post_login (RT := Fixture.runtime) no_faults Fixture.env Fixture.now0
         (Fixture.credentials "s1@sims.test" "pw-s1") Fixture.world0)
  = fst (post_login (RT := Fixture.runtime) no_faults Fixture.env Fixture.now0
           (Fixture.credentials "s1@sims.test" "pw-s1")
           (Fixture.restaffed Fixture.staff_s1_demoted)).
Proof.
  apply (login_answer_from_id_and_hash (RT := Fixture.runtime) no_faults Fixture.env
           Fixture.now0 (Fixture.credentials "s1@sims.test" "pw-s1")
           Fixture.world0 (Fixture.restaffed Fixture.staff_s1_demoted)
           (Fixture.employee "s1" "supervisor" (Some "h1"%string))
           (Fixture.employee "s1" "operator" (Some "h1"%string)));
    vm_compute; reflexivity.
Defined.

Lemma risk_page_counts_witness :
  Client.unknown (Client.counts [("e1", "high"); ("e2", "medium"); ("e1", "critical")]%string)
  = with_severity "medium" [("e1", "high"); ("e2", "medium"); ("e1", "critical")]%string.
Proof.
  apply (proj1 (proj2 (proj2 (proj2 (proj2
           (risk_page_counts [("e1", "high"); ("e2", "medium"); ("e1", "critical")]%string)))))).
  intros r [<- | [<- | [<- | []]]]; reflexivity.
Defined.

(** Admin [a1] scores [e1] with a number that is not finite: the answer
    is success and the row is in the table, without a score. *)
Lemma stored_iff_answered_witness :
  let out := post_evaluations (RT := Fixture.runtime) no_faults Fixture.env
               Fixture.now0 (Fixture.submission "a1" (JStr "e1") (JInfinity false))
               Fixture.world0 in
  exists i ws,
    JStr "e1" = JStr i /\
    getWeekStartDate Fixture.now0 = Some ws /\
    employee_weekly_evaluations (store (snd out))
    = employee_weekly_evaluations (store Fixture.world0) ++
      [{| ev_employee_id := i; ev_week_start := ws; ev_overall_score := None;
          ev_created_at := db_clock (store Fixture.world0) |}].
Proof.
  cbv zeta.
  destruct (stored_iff_answered (RT := Fixture.runtime) no_faults Fixture.env
              Fixture.now0 (Fixture.submission "a1" (JStr "e1") (JInfinity false))
              Fixture.world0) as (_ & H & _).
  assert (Hok : fst (post_evaluations (RT := Fixture.runtime) no_faults Fixture.env
                       Fixture.now0
                       (Fixture.submission "a1" (JStr "e1") (JInfinity false))
                       Fixture.world0)
                = response 200 Success) by (vm_compute; reflexivity).
  destruct (H Hok) as (i & column & ws & Hi & Hc & Hws & Hev).
  destruct Hc as [(q & Hq & _) | (negative & _ & ->)].
  { exfalso. assert (Hx : JInfinity false = JNum q) by exact Hq. discriminate Hx. }
  exists i, ws. split; [exact Hi |]. split; [exact Hws | exact Hev].
Defined.

(** ** Sample runs *)

Example week_2024_02_29 : (* Thursday 2024-02-29T23:59:59.999Z *)
  getWeekStartDate 1709251199999 = Some "2024-02-26".
Proof. vm_compute. reflexivity. Qed.

Example week_2026_11_03 : (* Tuesday 2026-11-03T00:00:00Z *)
  getWeekStartDate Fixture.now0 = Some "2026-11-02".
Proof. vm_compute. reflexivity. Qed.

Example week_sunday : (* Sunday 2024-03-03T12:00Z is in the week of 02-26 *)
  getWeekStartDate 1709467200000 = Some "2024-02-26".
Proof. vm_compute. reflexivity. Qed.

Example week_new_year : (* Thursday 2026-01-01 is in the week of 2025-12-29 *)
  getWeekStartDate 1767225600000 = Some "2025-12-29".
Proof. vm_compute. reflexivity. Qed.

Example week_year_100 : (* Friday 0100-01-01, the week of Monday 0099-12-28 *)
  getWeekStartDate first_instant = Some "0099-12-28".
Proof. vm_compute. reflexivity. Qed.

(** Before the year 100 [Date.UTC] moves the date into the 1900s: Monday
    0050-06-13 and Sunday 0050-06-19 are one week but get different
    answers, neither of them the date of that Monday. *)
Example week_year_50 :
  getWeekStartDate (-60575212800000) = Some "1950-06-12" /\
  getWeekStartDate (-60574694400000) = Some "1950-06-19".
Proof. vm_compute. split; reflexivity. Qed.

Example monday0_date : isoDate Fixture.monday0 = "2026-11-02" /\ is_monday Fixture.monday0.
Proof. vm_compute. split; reflexivity. Qed.

Example year_of_epoch : YearFromTime 0 = 1970%Z /\ YearFromTime (-1) = 1969%Z.
Proof. split; reflexivity. Qed.

Example split_bearer : split_space "Bearer abc" = ["Bearer"; "abc"].
Proof. reflexivity. Qed.

Example admin_submits :
  fst (post_evaluations (RT := Fixture.runtime) no_faults Fixture.env Fixture.now0
         (Fixture.submission "a1" (JStr "e1") (JNum 2)) Fixture.world0)
  = response 200 Success.
Proof. vm_compute. reflexivity. Qed.

Example admin_submits_effects :
  warning_letters (store (Fixture.evaluated 2))
  = [{| wl_employee_id := "e1"; wl_severity := "high"; wl_status := "active" |}]
  /\ log (Fixture.evaluated 2)
     = [SelectEmployeeById AtHydrate (JStr "a1");
        InsertEvaluation (JStr "e1") "2026-11-02" (JNum 2);
        SelectLast3 (JStr "e1");
        InsertWarning (JStr "e1") "high" "active"].
Proof. vm_compute. split; reflexivity. Qed.

Example operator_submits :
  fst (post_evaluations (RT := Fixture.runtime) no_faults Fixture.env Fixture.now0
         (Fixture.submission "e1" (JStr "e2") (JNum 2)) Fixture.world0)
  = response 403 (Message "Forbidden").
Proof. vm_compute. reflexivity. Qed.

Example expired_token : (* one hour after the token was issued *)
  fst (post_evaluations (RT := Fixture.runtime) no_faults Fixture.env
         (Fixture.now0 + 3600000)
         (Fixture.submission "a1" (JStr "e1") (JNum 2)) Fixture.world0)
  = response 401 (Message "Invalid token").
Proof. vm_compute. reflexivity. Qed.

Example login_ok :
  fst (post_login (RT := Fixture.runtime) no_faults Fixture.env Fixture.now0
         (Fixture.credentials "s1@sims.test" "pw-s1") Fixture.world0)
  = response 200 (TokenBody "jwt:s1").
Proof. vm_compute. reflexivity. Qed.

(** The same token of [s1] and the same payload: accepted while [e1]
    reports to [s1], refused once [e1] reports to [s2], refused once [s1]
    is no longer a supervisor. *)
Example same_token_other_store :
  let req := Fixture.submission "s1" (JStr "e1") (JNum 4) in
  fst (post_evaluations (RT := Fixture.runtime) no_faults Fixture.env Fixture.now0
         req Fixture.world0) = response 200 Success /\
  fst (post_evaluations (RT := Fixture.runtime) no_faults Fixture.env Fixture.now0
         req (Fixture.restaffed Fixture.staff_e1_moved))
  = response 403 (Message "Forbidden") /\
  fst (post_evaluations (RT := Fixture.runtime) no_faults Fixture.env Fixture.now0
         req (Fixture.restaffed Fixture.staff_s1_demoted))
  = response 403 (Message "Forbidden").
Proof. vm_compute. split; [| split]; reflexivity. Qed.

(** The three score sequences of the specification, oldest first. *)
Example scores_2_2_4 :
  warning_letters (store
    (Fixture.scored 2 4 (Fixture.scored 1 2 (Fixture.scored 0 2 Fixture.world0))))
  = [{| wl_employee_id := "e2"; wl_severity := "high"; wl_status := "active" |};
     {| wl_employee_id := "e2"; wl_severity := "high"; wl_status := "active" |}].
Proof. vm_compute. reflexivity. Qed.

Example scores_1_1_1 :
  warning_letters (store
    (Fixture.scored 2 1 (Fixture.scored 1 1 (Fixture.scored 0 1 Fixture.world0))))
  = [{| wl_employee_id := "e2"; wl_severity := "high"; wl_status := "active" |};
     {| wl_employee_id := "e2"; wl_severity := "critical"; wl_status := "active" |}].
Proof. vm_compute. reflexivity. Qed.

Example scores_4_4_1 :
  warning_letters (store
    (Fixture.scored 2 1 (Fixture.scored 1 4 (Fixture.scored 0 4 Fixture.world0))))
  = [].
Proof. vm_compute. reflexivity. Qed.

(** A score too large for a double: [1e400] parses to [Infinity], passes
    the payload test, is stored without a score and counts as low. *)
Example score_not_finite :
  let out := post_evaluations (RT := Fixture.runtime) no_faults Fixture.env
               Fixture.now0 (Fixture.submission "a1" (JStr "e1") (JInfinity false))
               Fixture.world0 in
  fst out = response 200 Success /\
  employee_weekly_evaluations (store (snd out))
  = employee_weekly_evaluations Fixture.store0 ++
    [{| ev_employee_id := "e1"; ev_week_start := "2026-11-02";
        ev_overall_score := None; ev_created_at := 100 |}] /\
  warning_letters (store (snd out))
  = [{| wl_employee_id := "e1"; wl_severity := "high"; wl_status := "active" |}].
Proof. vm_compute. split; [| split]; reflexivity. Qed.
